(** * Orbit Skill backend: bulk import pipeline and assignment grader

    A shallow embedding of the two core components of the backend,

    - [backend/app/excel_loader.py]: the column resolver, the row
      validation of the Excel and CSV loaders and their transactional
      protocol, and
    - [backend/app/routes/shared_content_routes.py]: the retrieval of a
      shared assignment, the grading of a submission and the retrieval of
      a stored result,

    followed by the properties the design document states about them.

    The frames that [pd.read_excel] and [pd.read_csv] return are the
    inputs of the loaders: their cells are typed as pandas types them
    (whole numbers, floats, text, booleans, missing values), and the
    loaders' own conversions ([str], [astype(str)], [int], the upcast of
    [iterrows]) are part of the embedding. *)

From Stdlib Require Import ZArith List String Ascii Bool Lia Permutation.
From Stdlib Require Import Floats.SpecFloat.
From Stdlib Require DecimalString.
Import ListNotations.

Local Open Scope string_scope.
Local Open Scope Z_scope.

(* ================================================================== *)
(** * Python values, strings, dictionaries and exceptions *)
(* ================================================================== *)

Module Py.

(** The objects a cell of a frame, or a column of a record, holds: [None];
    text; a whole number; a float (binary64; [NaN] is the missing cell of
    a frame as pandas reads it); a boolean; a calendar date
    ([datetime.date], what [pd.to_datetime(v).date()] returns); and any
    other object (a timestamp, a time of day), carried by what [str]
    prints for it. *)
Inductive Value : Type :=
| VNone
| VStr (s : string)
| VInt (z : Z)
| VFloat (x : spec_float)
| VBool (b : bool)
| VDate (year month day : Z)
| VObject (printed : string).

(** Truth value of an object, as [if x], [not x] and [x or y] test it: a
    float is false when it is zero, so [NaN] is true. *)
Definition truthy (v : Value) : bool :=
  match v with
  | VNone => false
  | VStr s => negb (s =? "")%string
  | VInt z => negb (z =? 0)
  | VFloat (S754_zero _) => false
  | VFloat _ => true
  | VBool b => b
  | VDate _ _ _ => true
  | VObject _ => true
  end.

(** [a or b] *)
Definition or_else (a b : Value) : Value := if truthy a then a else b.

(** [isinstance(v, str)] *)
Definition is_str (v : Value) : bool :=
  match v with VStr _ => true | _ => false end.

(** [pd.isna(v)]: [None] and [NaN]. *)
Definition isna (v : Value) : bool :=
  match v with
  | VNone => true
  | VFloat S754_nan => true
  | _ => false
  end.

(** [pd.notna(v)] *)
Definition notna (v : Value) : bool := negb (isna v).

(** ** Strings (ASCII) *)

(** [c.lower()] on one character: [A-Z] to [a-z]. *)
Definition lower_char (c : ascii) : ascii :=
  let n := nat_of_ascii c in
  if (Nat.leb 65 n && Nat.leb n 90)%bool then ascii_of_nat (n + 32) else c.

(** [s.lower()] *)
Fixpoint lower (s : string) : string :=
  match s with
  | EmptyString => EmptyString
  | String c s' => String (lower_char c) (lower s')
  end.

(** The characters [str.strip()] removes: tab, line feed, vertical tab,
    form feed, carriage return, the four separators 28..31 and space. *)
Definition is_space (c : ascii) : bool :=
  let n := nat_of_ascii c in
  ((Nat.leb 9 n && Nat.leb n 13) || (Nat.leb 28 n && Nat.leb n 32))%bool.

Fixpoint lstrip (s : string) : string :=
  match s with
  | EmptyString => EmptyString
  | String c s' => if is_space c then lstrip s' else s
  end.

Fixpoint rstrip (s : string) : string :=
  match s with
  | EmptyString => EmptyString
  | String c s' =>
      match rstrip s' with
      | EmptyString => if is_space c then EmptyString else String c EmptyString
      | r => String c r
      end
  end.

(** [s.strip()] *)
Definition strip (s : string) : string := rstrip (lstrip s).

(** [sub in s] for strings: [sub] occurs in [s] as a contiguous run. *)
Fixpoint str_in (sub s : string) : bool :=
  (String.prefix sub s
   || match s with
      | EmptyString => false
      | String _ s' => str_in sub s'
      end)%bool.

(** [s.replace(a, b)] for one-character [a] and [b]. *)
Fixpoint replace_char (a b : ascii) (s : string) : string :=
  match s with
  | EmptyString => EmptyString
  | String c s' =>
      String (if Ascii.eqb c a then b else c) (replace_char a b s')
  end.

(** [s.replace(a, "")] for a one-character [a]. *)
Fixpoint remove_char (a : ascii) (s : string) : string :=
  match s with
  | EmptyString => EmptyString
  | String c s' =>
      if Ascii.eqb c a then remove_char a s' else String c (remove_char a s')
  end.

(** [len(s)] *)
Definition len (s : string) : Z := Z.of_nat (String.length s).

(** ** Dictionaries with string keys

    A [dict] keeps its keys in insertion order, each key once; the order is
    observable through [keys()], which the resolver iterates. *)
Definition dict (A : Type) : Type := list (string * A).

Section Dict.
Context {A : Type}.

(** [d.keys()] *)
Definition keys (d : dict A) : list string := map fst d.

(** [d.get(k)], before the default is applied *)
Fixpoint lookup (d : dict A) (k : string) : option A :=
  match d with
  | [] => None
  | (k', v) :: d' => if (k' =? k)%string then Some v else lookup d' k
  end.

(** [k in d] *)
Definition mem (d : dict A) (k : string) : bool :=
  match lookup d k with Some _ => true | None => false end.

(** [d[k] = v]: overwrite in place, or append a new key. *)
Fixpoint set (d : dict A) (k : string) (v : A) : dict A :=
  match d with
  | [] => [(k, v)]
  | (k', v') :: d' =>
      if (k' =? k)%string then (k', v) :: d' else (k', v') :: set d' k v
  end.
End Dict.

(** [row.get(k)] on a row of cells: [None] when the key is missing. *)
Definition get (row : dict Value) (k : string) : Value :=
  match lookup row k with Some v => v | None => VNone end.

(** ** Exceptions and results *)

Inductive Exn : Type :=
| ValueError (msg : string)
| IndexError
| AttributeError (msg : string)
| IntegrityError (msg : string)
| DBAPIError (msg : string)
| MultipleResultsFound
| ZeroDivisionError
| OverflowError
| HTTPException (status_code : Z) (detail : string).

(** The outcome of a call: a returned value or a raised exception. *)
Inductive Res (A : Type) : Type :=
| Ok (a : A)
| Raise (e : Exn).
Arguments Ok {A} a.
Arguments Raise {A} e.

Definition is_ok {A} (r : Res A) : bool :=
  match r with Ok _ => true | Raise _ => false end.

(** [str(e)]: the message of an exception. *)
Definition exn_message (e : Exn) : string :=
  match e with
  | ValueError msg => msg
  | IndexError => "list index out of range"
  | AttributeError msg => msg
  | IntegrityError msg => msg
  | DBAPIError msg => msg
  | MultipleResultsFound =>
      "Multiple rows were found when one or none was required"
  | ZeroDivisionError => "division by zero"
  | OverflowError => "cannot convert float infinity to integer"
  | HTTPException _ detail => detail
  end.

(** ** Numbers and what [str] prints for them *)

(** [float(n)]; exact for [|n| < 2^53]. *)
Definition float_of_int (n : Z) : spec_float :=
  binary_normalize 53 1024 n 0 false.

(** [int(x)]: truncation toward zero. *)
Definition int_of_float (x : spec_float) : Res Z :=
  match x with
  | S754_zero _ => Ok 0
  | S754_finite s m e =>
      let a := if 0 <=? e then Z.shiftl (Zpos m) e
               else Z.shiftr (Zpos m) (- e) in
      Ok (if s then - a else a)
  | S754_infinity _ => Raise OverflowError
  | S754_nan => Raise (ValueError "cannot convert float NaN to integer")
  end.

(** [str(n)] for an integer *)
Definition int_str (z : Z) : string :=
  DecimalString.NilZero.string_of_int (Z.to_int z).

(** [a * 10^p] against [b * 2^q] *)
Definition compare_scaled (a p b q : Z) : comparison :=
  Z.compare (a * 10 ^ Z.max p 0 * 2 ^ Z.max (- q) 0)
            (b * 2 ^ Z.max q 0 * 10 ^ Z.max (- p) 0).

(** The least [p] from [p0] on with [b * 2^q < 10^p]. *)
Fixpoint decimal_point_from (fuel : nat) (p0 b q : Z) : Z :=
  match fuel with
  | O => p0
  | S fuel' =>
      match compare_scaled 1 p0 b q with
      | Gt => p0
      | _ => decimal_point_from fuel' (p0 + 1) b q
      end
  end.

(** The least [p] with [b * 2^q < 10^p], for [b > 0]: the search starts
    below it, from the binary logarithm. *)
Definition decimal_point (b q : Z) : Z :=
  decimal_point_from 8 ((Z.log2 b + q) * 30103 / 100000 - 1) b q.

Fixpoint strip_zeros (fuel : nat) (d : Z) : Z :=
  match fuel with
  | O => d
  | S fuel' =>
      if ((d mod 10 =? 0) && negb (d =? 0))%bool
      then strip_zeros fuel' (d / 10)
      else d
  end.

(** The shortest decimal that reads back as the double [m * 2^e] ([m] of
    53 bits, or fewer at the least exponent), and the closest to it among
    the shortest: its [n] or more digits as a number [d], and the power
    [k] of ten it is scaled by.  [p] is the decimal point of the double. *)
Fixpoint shortest (fuel : nat) (n : Z) (m e p : Z) : Z * Z :=
  let q := e - 2 in
  let b := 4 * m in
  let below := if ((m =? 2 ^ 52) && (-1074 <? e))%bool then 1 else 2 in
  let k := p - n in
  let d_lo := (b * 2 ^ Z.max q 0 * 10 ^ Z.max (- k) 0)
              / (2 ^ Z.max (- q) 0 * 10 ^ Z.max k 0) in
  let d_hi := d_lo + 1 in
  let inside d :=
    (match compare_scaled d k (b - below) q with
     | Gt => true | Eq => Z.even m | Lt => false end
     && match compare_scaled d k (b + 2) q with
        | Lt => true | Eq => Z.even m | Gt => false end)%bool in
  match fuel with
  | O => (d_lo, k)
  | S fuel' =>
      match inside d_lo, inside d_hi with
      | true, true =>
          match compare_scaled (d_lo + d_hi) k (2 * b) q with
          | Gt => (d_lo, k)
          | Lt => (d_hi, k)
          | Eq => (if Z.even d_lo then d_lo else d_hi, k)
          end
      | true, false => (d_lo, k)
      | false, true => (d_hi, k)
      | false, false => shortest fuel' (n + 1) m e p
      end
  end.

Fixpoint zeros (n : nat) : string :=
  match n with O => "" | S n' => String "0" (zeros n') end.

(** The digits [d * 10^k] laid out as [repr] lays a float out: plain
    notation with a decimal point and at least one digit after it, or
    exponent notation when the decimal point lies more than 16 places to
    the right or more than 3 to the left of the first digit. *)
Definition format_digits (d k : Z) : string :=
  let all := int_str d in
  let decpt := Z.of_nat (String.length all) + k in
  let ds := int_str (strip_zeros 20 d) in
  let nd := Z.of_nat (String.length ds) in
  if ((decpt <? -3) || (16 <? decpt))%bool then
    let x := decpt - 1 in
    let mant :=
      match ds with
      | String c EmptyString => ds
      | String c rest => String c ("." ++ rest)
      | EmptyString => ds
      end in
    let xs := int_str (Z.abs x) in
    mant ++ "e" ++ (if x <? 0 then "-" else "+")
         ++ (if Z.abs x <? 10 then "0" ++ xs else xs)
  else if decpt <=? 0 then
    "0." ++ zeros (Z.to_nat (- decpt)) ++ ds
  else if nd <=? decpt then
    ds ++ zeros (Z.to_nat (decpt - nd)) ++ ".0"
  else
    substring 0 (Z.to_nat decpt) ds ++ "."
      ++ substring (Z.to_nat decpt) (Z.to_nat (nd - decpt)) ds.

(** [repr(x)], which is also [str(x)], of a float *)
Definition float_repr (x : spec_float) : string :=
  match x with
  | S754_zero s => if s then "-0.0" else "0.0"
  | S754_infinity s => if s then "-inf" else "inf"
  | S754_nan => "nan"
  | S754_finite s m0 e0 =>
      match binary_normalize 53 1024 (Zpos m0) e0 false with
      | S754_finite _ m e =>
          let p := decimal_point (4 * Zpos m) (e - 2) in
          let '(d, k) := shortest 17 1 (Zpos m) e p in
          (if s then "-" else "") ++ format_digits d k
      | S754_infinity _ => if s then "-inf" else "inf"
      | _ => if s then "-0.0" else "0.0"
      end
  end.

(** [n] written with at least [width] digits *)
Definition zero_padded (width : nat) (n : Z) : string :=
  let ds := int_str n in
  zeros (width - String.length ds) ++ ds.

(** [str(v)] *)
Definition py_str (v : Value) : string :=
  match v with
  | VNone => "None"
  | VStr s => s
  | VInt z => int_str z
  | VFloat x => float_repr x
  | VBool true => "True"
  | VBool false => "False"
  | VDate y m d =>
      zero_padded 4 y ++ "-" ++ zero_padded 2 m ++ "-" ++ zero_padded 2 d
  | VObject printed => printed
  end.

End Py.

(* ================================================================== *)
(** * Request and question schemas (shared_content_routes.py) *)
(* ================================================================== *)

(** The questions of an assignment and the answers of a submission are
    stored as JSON text ([json.dumps] on write, [json.loads] on read); the
    embedding carries the decoded lists. *)
Module AssignmentQuestionOption.
Record t : Type := mk { text : string; isCorrect : bool }.
End AssignmentQuestionOption.

Module AssignmentQuestion.
Record t : Type := mk {
  text : string;
  helperText : option string;
  type : string;
  options : list AssignmentQuestionOption.t }.
End AssignmentQuestion.

Module AnswerSubmission.
Record t : Type := mk {
  questionIndex : Z;
  type : string;
  selectedOptions : list Z;
  textAnswer : option string }.
End AnswerSubmission.

(* ================================================================== *)
(** * backend/app/models.py: the tables *)
(* ================================================================== *)

Module Models.
Import Py.

(** A stored password hash, by the password it was computed from (the
    salt is not part of the model). *)
Inductive PasswordHash : Type := HashOf (password : string).

Module User.
Record t : Type := mk {
  username : string;
  hashed_password : PasswordHash;
  created_at : Z }.
End User.

Module ManagerEmployee.
Record t : Type := mk {
  manager_empid : string;
  manager_name : option string;
  employee_empid : string;
  employee_name : option string;
  manager_is_trainer : bool;
  employee_is_trainer : bool }.
End ManagerEmployee.

Module Trainer.
Record t : Type := mk {
  skill : Value;
  competency : Value;
  trainer_name : Value;
  expertise_level : Value }.
End Trainer.

Module TrainingDetail.
Record t : Type := mk {
  division : Value;
  department : Value;
  competency : Value;
  skill : Value;
  training_name : Value;
  training_topics : Value;
  prerequisites : Value;
  skill_category : Value;
  trainer_name : Value;
  email : Value;
  training_date : Value;
  duration : Value;
  seats : Value;
  time : Value;
  training_type : Value;
  assessment_details : Value }.
End TrainingDetail.

Module TrainingAssignment.
Record t : Type := mk {
  training_id : Z;
  employee_empid : string;
  manager_empid : string }.
End TrainingAssignment.

Module SharedAssignment.
Record t : Type := mk {
  id : Z;
  training_id : Z;
  trainer_username : string;
  title : string;
  description : option string;
  assignment_data : list AssignmentQuestion.t;
  created_at : Z;
  updated_at : Z }.
End SharedAssignment.

Module AssignmentSubmission.
Record t : Type := mk {
  id : Z;
  training_id : Z;
  shared_assignment_id : Z;
  employee_empid : string;
  answers_data : list AnswerSubmission.t;
  score : Z;
  total_questions : Z;
  correct_answers : Z;
  submitted_at : Z }.
End AssignmentSubmission.

End Models.

(* ================================================================== *)
(** * The database and the request-scoped session *)
(* ================================================================== *)

Module Db.
Import Py Models.

(** The rows of the tables the core reads and writes.  A row of
    [training_details] is carried with its id, which four of the other
    tables reference; [other_training_refs] is the [training_id] column of
    the rows of the tables that reference a training and that the core
    does not otherwise read or write ([training_requests],
    [shared_feedback], [feedback_submissions],
    [manager_performance_feedback]). *)
Record t : Type := mk {
  users : list User.t;
  manager_employee : list ManagerEmployee.t;
  trainers : list Trainer.t;
  training_details : list (Z * TrainingDetail.t);
  training_assignments : list TrainingAssignment.t;
  shared_assignments : list SharedAssignment.t;
  assignment_submissions : list AssignmentSubmission.t;
  other_training_refs : list Z }.

(** A session holds one open transaction: [committed] is what the store
    holds, [pending] is what the transaction sees (the store with the
    transaction's own deletions and additions). *)
Record Session : Type := mkSession { committed : t; pending : t }.

(** A computation in a session: it returns or raises, and leaves a
    session behind. *)
Definition M (A : Type) : Type := Session -> Res A * Session.

Definition ret {A} (a : A) : M A := fun s => (Ok a, s).

Definition bind {A B} (m : M A) (k : A -> M B) : M B :=
  fun s =>
    match m s with
    | (Ok a, s') => k a s'
    | (Raise e, s') => (Raise e, s')
    end.

(** [raise e] *)
Definition raise {A} (e : Exn) : M A := fun s => (Raise e, s).

(** [try: m  except Exception as e: handler(e)] *)
Definition try_except {A} (m : M A) (handler : Exn -> M A) : M A :=
  fun s =>
    match m s with
    | (Ok a, s') => (Ok a, s')
    | (Raise e, s') => handler e s'
    end.

(** A call that is pure but may raise. *)
Definition lift {A} (r : Res A) : M A := fun s => (r, s).

(** The transaction's view of the tables. *)
Definition view : M t := fun s => (Ok (pending s), s).

Definition update (f : t -> t) : M unit :=
  fun s => (Ok tt, mkSession (committed s) (f (pending s))).

(** ** Declared constraints, checked when the transaction is flushed

    What [models.py] declares on the tables of the model: the types of
    the columns the loaders fill from cells, the unique username, the
    primary keys, the [nullable=False] columns and the foreign keys.  The
    store is taken to satisfy them when a session opens. *)

Definition usernames (d : t) : list string := map User.username (users d).

Definition str_mem (x : string) (l : list string) : bool :=
  existsb (fun y => (y =? x)%string) l.

Definition id_mem (x : Z) (l : list Z) : bool := existsb (Z.eqb x) l.

Fixpoint distinct (l : list string) : bool :=
  match l with
  | [] => true
  | x :: l' => (negb (str_mem x l') && distinct l')%bool
  end.

Fixpoint distinct_ids (l : list Z) : bool :=
  match l with
  | [] => true
  | x :: l' => (negb (id_mem x l') && distinct_ids l')%bool
  end.

(** The id column of [training_details]. *)
Definition training_ids (d : t) : list Z := map fst (training_details d).

(** The id column of [shared_assignments]. *)
Definition shared_assignment_ids (d : t) : list Z :=
  map SharedAssignment.id (shared_assignments d).

(** *** Column types

    The driver binds a [String] column to text and a [Date] column to a
    date; [None] is bound to NULL; any other object (a number or a
    boolean taken from a cell, a timestamp) is refused when the row is
    flushed. *)

Definition is_text (v : Value) : bool :=
  match v with VNone | VStr _ => true | _ => false end.

Definition is_date (v : Value) : bool :=
  match v with VNone | VDate _ _ _ => true | _ => false end.

Definition trainer_typed (r : Trainer.t) : bool :=
  (is_text (Trainer.skill r) && is_text (Trainer.competency r)
   && is_text (Trainer.trainer_name r)
   && is_text (Trainer.expertise_level r))%bool.

Definition training_detail_typed (r : TrainingDetail.t) : bool :=
  (is_text (TrainingDetail.division r)
   && is_text (TrainingDetail.department r)
   && is_text (TrainingDetail.competency r)
   && is_text (TrainingDetail.skill r)
   && is_text (TrainingDetail.training_name r)
   && is_text (TrainingDetail.training_topics r)
   && is_text (TrainingDetail.prerequisites r)
   && is_text (TrainingDetail.skill_category r)
   && is_text (TrainingDetail.trainer_name r)
   && is_text (TrainingDetail.email r)
   && is_date (TrainingDetail.training_date r)
   && is_text (TrainingDetail.duration r)
   && is_text (TrainingDetail.seats r)
   && is_text (TrainingDetail.time r)
   && is_text (TrainingDetail.training_type r)
   && is_text (TrainingDetail.assessment_details r))%bool.

Definition types_ok (d : t) : bool :=
  (forallb trainer_typed (trainers d)
   && forallb (fun p => training_detail_typed (snd p))
              (training_details d))%bool.

(** *** Keys and NOT NULL columns *)

(** [users.username] is unique. *)
Definition users_unique (d : t) : bool := distinct (usernames d).

(** Both columns of [manager_employee] reference [users.username]. *)
Definition manager_employee_fk (d : t) : bool :=
  forallb (fun r =>
             (str_mem (ManagerEmployee.manager_empid r) (usernames d)
              && str_mem (ManagerEmployee.employee_empid r) (usernames d))%bool)
          (manager_employee d).

Definition same_pair (a b : ManagerEmployee.t) : bool :=
  ((ManagerEmployee.manager_empid a =? ManagerEmployee.manager_empid b)%string
   && (ManagerEmployee.employee_empid a =? ManagerEmployee.employee_empid b)%string)%bool.

(** [(manager_empid, employee_empid)] is the primary key. *)
Fixpoint manager_employee_pk (l : list ManagerEmployee.t) : bool :=
  match l with
  | [] => true
  | r :: l' => (negb (existsb (same_pair r) l') && manager_employee_pk l')%bool
  end.

Definition not_null (v : Value) : bool :=
  match v with VNone => false | _ => true end.

(** The four columns of [trainers] are [nullable=False]. *)
Definition trainers_not_null (d : t) : bool :=
  forallb (fun r =>
             (not_null (Trainer.skill r) && not_null (Trainer.competency r)
              && not_null (Trainer.trainer_name r)
              && not_null (Trainer.expertise_level r))%bool)
          (trainers d).

(** [training_name] and [trainer_name] of [training_details] are
    [nullable=False]. *)
Definition training_details_not_null (d : t) : bool :=
  forallb (fun p =>
             (not_null (TrainingDetail.training_name (snd p))
              && not_null (TrainingDetail.trainer_name (snd p)))%bool)
          (training_details d).

(** [training_details.id] is the primary key. *)
Definition training_details_pk (d : t) : bool :=
  distinct_ids (training_ids d).

(** The three foreign keys of [training_assignments]. *)
Definition training_assignments_fk (d : t) : bool :=
  forallb (fun a =>
             (id_mem (TrainingAssignment.training_id a) (training_ids d)
              && str_mem (TrainingAssignment.employee_empid a) (usernames d)
              && str_mem (TrainingAssignment.manager_empid a) (usernames d))%bool)
          (training_assignments d).

(** The two foreign keys of [shared_assignments]. *)
Definition shared_assignments_fk (d : t) : bool :=
  forallb (fun a =>
             (id_mem (SharedAssignment.training_id a) (training_ids d)
              && str_mem (SharedAssignment.trainer_username a) (usernames d))%bool)
          (shared_assignments d).

(** The three foreign keys of [assignment_submissions]. *)
Definition assignment_submissions_fk (d : t) : bool :=
  forallb (fun r =>
             (id_mem (AssignmentSubmission.training_id r) (training_ids d)
              && id_mem (AssignmentSubmission.shared_assignment_id r)
                        (shared_assignment_ids d)
              && str_mem (AssignmentSubmission.employee_empid r)
                         (usernames d))%bool)
          (assignment_submissions d).

(** The foreign key on [training_id] of the other tables. *)
Definition other_training_refs_fk (d : t) : bool :=
  forallb (fun id => id_mem id (training_ids d)) (other_training_refs d).

(** The constraints on the users and the relationships. *)
Definition accounts_ok (d : t) : bool :=
  (users_unique d && manager_employee_fk d
   && manager_employee_pk (manager_employee d))%bool.

(** The constraints on the trainers and the trainings. *)
Definition catalogue_ok (d : t) : bool :=
  (trainers_not_null d && training_details_not_null d
   && training_details_pk d)%bool.

(** The foreign keys of the tables that reference a training. *)
Definition references_ok (d : t) : bool :=
  (training_assignments_fk d && shared_assignments_fk d
   && assignment_submissions_fk d && other_training_refs_fk d)%bool.

Definition integrity_ok (d : t) : bool :=
  (accounts_ok d && catalogue_ok d && references_ok d)%bool.

(** The store satisfies what the schema declares. *)
Definition constraints_ok (d : t) : bool :=
  (types_ok d && integrity_ok d)%bool.

(** What the flush of the pending rows raises, if anything: the driver
    refuses a value that is not of the type of its column, or a
    constraint rejects a row. *)
Definition flush_error (d : t) : option Exn :=
  if types_ok d then
    if integrity_ok d then None
    else Some (IntegrityError "constraint violated")
  else Some (DBAPIError "invalid input for query argument").

(** [await db.commit()]: the pending rows reach the store, unless the
    flush raises. *)
Definition commit : M unit :=
  fun s =>
    match flush_error (pending s) with
    | None => (Ok tt, mkSession (pending s) (pending s))
    | Some e => (Raise e, s)
    end.

(** [await db.rollback()]: the transaction's changes are dropped. *)
Definition rollback : M unit :=
  fun s => (Ok tt, mkSession (committed s) (committed s)).

(** [result.scalar_one_or_none()] *)
Definition scalar_one_or_none {A} (rows : list A) : M (option A) :=
  match rows with
  | [] => ret None
  | [r] => ret (Some r)
  | _ => raise MultipleResultsFound
  end.

(** Table updates of the session. *)
Definition set_users (f : list User.t -> list User.t) (d : t) : t :=
  mk (f (users d)) (manager_employee d) (trainers d) (training_details d)
     (training_assignments d) (shared_assignments d)
     (assignment_submissions d) (other_training_refs d).

Definition set_manager_employee
    (f : list ManagerEmployee.t -> list ManagerEmployee.t) (d : t) : t :=
  mk (users d) (f (manager_employee d)) (trainers d) (training_details d)
     (training_assignments d) (shared_assignments d)
     (assignment_submissions d) (other_training_refs d).

Definition set_trainers (f : list Trainer.t -> list Trainer.t) (d : t) : t :=
  mk (users d) (manager_employee d) (f (trainers d)) (training_details d)
     (training_assignments d) (shared_assignments d)
     (assignment_submissions d) (other_training_refs d).

Definition set_training_details
    (f : list (Z * TrainingDetail.t) -> list (Z * TrainingDetail.t))
    (d : t) : t :=
  mk (users d) (manager_employee d) (trainers d) (f (training_details d))
     (training_assignments d) (shared_assignments d)
     (assignment_submissions d) (other_training_refs d).

Definition set_training_assignments
    (f : list TrainingAssignment.t -> list TrainingAssignment.t) (d : t) : t :=
  mk (users d) (manager_employee d) (trainers d) (training_details d)
     (f (training_assignments d)) (shared_assignments d)
     (assignment_submissions d) (other_training_refs d).

Definition set_shared_assignments
    (f : list SharedAssignment.t -> list SharedAssignment.t) (d : t) : t :=
  mk (users d) (manager_employee d) (trainers d) (training_details d)
     (training_assignments d) (f (shared_assignments d))
     (assignment_submissions d) (other_training_refs d).

Definition set_assignment_submissions
    (f : list AssignmentSubmission.t -> list AssignmentSubmission.t) (d : t)
  : t :=
  mk (users d) (manager_employee d) (trainers d) (training_details d)
     (training_assignments d) (shared_assignments d)
     (f (assignment_submissions d)) (other_training_refs d).

(** The [training_id] of every row that references a training. *)
Definition training_references (d : t) : list Z :=
  (map TrainingAssignment.training_id (training_assignments d)
   ++ map SharedAssignment.training_id (shared_assignments d)
   ++ map AssignmentSubmission.training_id (assignment_submissions d)
   ++ other_training_refs d)%list.

(** Some row references a training of the table. *)
Definition training_referenced (d : t) : bool :=
  existsb (fun id => id_mem id (training_ids d)) (training_references d).

(** [DELETE FROM training_details]: the foreign keys on the table have no
    [ondelete] and are checked when the statement ends, so the statement
    raises as soon as a row of another table references a training. *)
Definition delete_training_details : M unit :=
  fun s =>
    if training_referenced (pending s)
    then (Raise (IntegrityError "constraint violated"), s)
    else (Ok tt, mkSession (committed s)
                   (set_training_details (fun _ => []) (pending s))).

(** The rows with the ids a sequence restarted at [n] gives them. *)
Fixpoint number_from {A} (n : Z) (l : list A) : list (Z * A) :=
  match l with
  | [] => []
  | x :: l' => (n, x) :: number_from (n + 1) l'
  end.

(** A session opened on a store. *)
Definition open (d : t) : Session := mkSession d d.

End Db.

Declare Scope session_scope.
Delimit Scope session_scope with session.
Notation "x <- m ;; k" := (Db.bind m (fun x => k))
  (at level 61, m at next level, right associativity) : session_scope.
Notation "m ;;; k" := (Db.bind m (fun _ => k))
  (at level 61, right associativity) : session_scope.

(* ================================================================== *)
(** * backend/app/excel_loader.py: column resolver *)
(* ================================================================== *)

Module ExcelLoader.
Import Py.

(** The chain of string operations of [clean_headers], on one header. *)
Definition clean_header (h : string) : string :=
  remove_char "*"
    (replace_char "," "_"
       (replace_char "/" "_"
          (replace_char " " "_" (lower (strip h))))).

(** First loop of [find_column_flexible]: exact matches. *)
Fixpoint exact_pass (row_dict : dict Value) (possible_names : list string)
  : option Value :=
  match possible_names with
  | [] => None
  | name :: rest =>
      if mem row_dict name then Some (get row_dict name)
      else exact_pass row_dict rest
  end.

(** [{k.lower(): k for k in row_dict.keys()}] *)
Definition row_keys_lower (row_dict : dict Value) : dict string :=
  fold_left (fun d k => set d (lower k) k) (keys row_dict) [].

(** Second loop: case-insensitive exact matches. *)
Fixpoint lower_pass (row_dict : dict Value) (possible_names : list string)
  : option Value :=
  match possible_names with
  | [] => None
  | name :: rest =>
      match lookup (row_keys_lower row_dict) (lower name) with
      | Some k => Some (get row_dict k)
      | None => lower_pass row_dict rest
      end
  end.

(** Inner loop of the third pass: one candidate against every key. *)
Fixpoint partial_keys (row_dict : dict Value) (name : string)
    (ks : list string) : option Value :=
  match ks with
  | [] => None
  | key :: ks' =>
      let key_lower := lower key in
      let name_lower := lower name in
      if (str_in name_lower key_lower || str_in key_lower name_lower)%bool
      then
        if ((3 <? len name)
            || ((len name <=? 3) && (name_lower =? key_lower)%string))%bool
        then Some (get row_dict key)
        else partial_keys row_dict name ks'
      else partial_keys row_dict name ks'
  end.

(** Third loop: partial (substring) matches. *)
Fixpoint partial_pass (row_dict : dict Value) (possible_names : list string)
  : option Value :=
  match possible_names with
  | [] => None
  | name :: rest =>
      match partial_keys row_dict name (keys row_dict) with
      | Some v => Some v
      | None => partial_pass row_dict rest
      end
  end.

(** [find_column_flexible(row_dict, possible_names)] *)
Definition find_column_flexible (row_dict : dict Value)
    (possible_names : list string) : Value :=
  match exact_pass row_dict possible_names with
  | Some v => v
  | None =>
      match lower_pass row_dict possible_names with
      | Some v => v
      | None =>
          match partial_pass row_dict possible_names with
          | Some v => v
          | None => VNone
          end
      end
  end.

(** ** Sheets and their records *)

(** A sheet as [pd.read_excel] returns it: the column headers and the
    rows of cells, an empty cell being [NaN]. *)
Record Sheet : Type := mkSheet {
  columns : list string;
  data : list (list Value) }.

(** A workbook: its sheets by name. *)
Definition Workbook : Type := list (string * Sheet).

(** The printed form of a list of names, for the diagnostics. *)
Fixpoint join (sep : string) (l : list string) : string :=
  match l with
  | [] => ""
  | [x] => x
  | x :: l' => x ++ sep ++ join sep l'
  end.

Definition repr_names (l : list string) : string :=
  "[" ++ join ", " (map (fun n => "'" ++ n ++ "'") l) ++ "]".

(** [pd.read_excel(source, sheet_name=name)], with the diagnostic of the
    loader when the sheet is missing. *)
Definition read_excel (excel_file_source : Workbook) (name : string)
  : Res Sheet :=
  match lookup excel_file_source name with
  | Some df => Ok df
  | None =>
      Raise (ValueError ("Sheet '" ++ name ++ "' not found. Available sheets: "
                           ++ repr_names (keys excel_file_source)))
  end.

(** [df.replace({np.nan: None})] *)
Definition replace_nan (df : Sheet) : Sheet :=
  mkSheet (columns df)
          (map (map (fun v => if isna v then VNone else v)) (data df)).

(** [clean_headers(df)] *)
Definition clean_headers (df : Sheet) : Sheet :=
  mkSheet (map clean_header (columns df)) (data df).

(** [df.to_dict('records')]: one mapping from header to cell per row. *)
Definition to_dict_records (df : Sheet) : list (dict Value) :=
  map (fun cells =>
         fold_left (fun d cv => set d (fst cv) (snd cv))
                   (combine (columns df) cells) [])
      (data df).

(** [clean_headers(df_raw.replace({np.nan: None})).to_dict('records')] *)
Definition to_records (df_raw : Sheet) : list (dict Value) :=
  to_dict_records (clean_headers (replace_nan df_raw)).

(** *** Column types and [iterrows]

    A column of whole numbers is [int64], a column of floats (a column
    of numbers with an empty cell among them) is [float64], a column of
    booleans is [bool]; any other column holds objects. *)
Inductive Dtype : Type := Int64 | Float64 | BoolDtype | ObjectDtype.

Definition is_int (v : Value) : bool :=
  match v with VInt _ => true | _ => false end.

Definition is_float (v : Value) : bool :=
  match v with VFloat _ => true | _ => false end.

Definition is_bool (v : Value) : bool :=
  match v with VBool _ => true | _ => false end.

Definition column_dtype (cells : list Value) : Dtype :=
  match cells with
  | [] => ObjectDtype
  | _ =>
      if forallb is_int cells then Int64
      else if forallb is_float cells then Float64
      else if forallb is_bool cells then BoolDtype
      else ObjectDtype
  end.

(** The cells of the column at position [j]. *)
Definition column_cells (j : nat) (df : Sheet) : list Value :=
  map (fun cells => nth j cells (VFloat S754_nan)) (data df).

Definition dtypes (df : Sheet) : list Dtype :=
  map (fun j => column_dtype (column_cells j df))
      (seq 0 (List.length (columns df))).

(** [df.iterrows()] builds each row from [df.values]: when every column
    is [int64] or [float64] and one at least is [float64], the rows are
    float arrays and the whole numbers in them have become floats; in
    every other frame the cells keep their types. *)
Definition rows_are_floats (df : Sheet) : bool :=
  (forallb (fun t => match t with Int64 | Float64 => true | _ => false end)
           (dtypes df)
   && existsb (fun t => match t with Float64 => true | _ => false end)
              (dtypes df))%bool.

Definition upcast (v : Value) : Value :=
  match v with VInt z => VFloat (float_of_int z) | _ => v end.

(** The frame whose cells are those [df.iterrows()] yields. *)
Definition iterrows_values (df : Sheet) : Sheet :=
  if rows_are_floats df
  then mkSheet (columns df) (map (map upcast) (data df))
  else df.

(** [if v and isinstance(v, str): v = v.strip()] *)
Definition strip_if_str (v : Value) : Value :=
  match v with
  | VStr s => if truthy v then VStr (strip s) else v
  | _ => v
  end.

Definition nonempty {A} (l : list A) : bool :=
  match l with [] => false | _ => true end.

(** ** Trainers Details: one row *)

(** The body of the loop over the trainer rows: the missing required
    fields, and the record built when there are none. *)
Definition trainer_row (row : dict Value) : list string * Models.Trainer.t :=
  let skill_val :=
    or_else (find_column_flexible row ["skill"]) (get row "skill") in
  let competency_val :=
    or_else (find_column_flexible row ["competency"; "competence"])
            (get row "competency") in
  let trainer_name_val :=
    or_else
      (or_else
         (find_column_flexible row
            ["trainer_name"; "trainername"; "trainer name"; "trainer"])
         (find_column_flexible row ["copmetency"; "name"]))
      (get row "trainer_name") in
  let expertise_level_val :=
    or_else
      (find_column_flexible row
         ["expertise_level"; "expertiselevel"; "expertise level";
          "expertise"; "level"])
      (get row "expertise_level") in
  let skill_val := strip_if_str skill_val in
  let competency_val := strip_if_str competency_val in
  let trainer_name_val := strip_if_str trainer_name_val in
  let expertise_level_val := strip_if_str expertise_level_val in
  let trainer_name_val :=
    if negb (truthy trainer_name_val) then VStr "Not Assigned"
    else trainer_name_val in
  let missing_fields :=
    ((if negb (truthy skill_val) then ["skill"] else [])
       ++ (if negb (truthy competency_val) then ["competency"] else [])
       ++ (if negb (truthy expertise_level_val) then ["expertise_level"]
           else []))%list in
  (missing_fields,
   Models.Trainer.mk skill_val competency_val trainer_name_val
                     expertise_level_val).

(** The loop over the trainer rows: [trainers_to_add] and
    [skipped_count]. *)
Fixpoint trainer_rows (rows : list (dict Value))
    (trainers_to_add : list Models.Trainer.t) (skipped_count : Z)
  : list Models.Trainer.t * Z :=
  match rows with
  | [] => (trainers_to_add, skipped_count)
  | row :: rest =>
      let '(missing_fields, trainer) := trainer_row row in
      if nonempty missing_fields
      then trainer_rows rest trainers_to_add (skipped_count + 1)
      else trainer_rows rest (trainers_to_add ++ [trainer]) skipped_count
  end.

(** ** Training Details and the Excel loader *)

Local Open Scope session_scope.

Section LoadAllFromExcel.

(** [pd.to_datetime(v).date()]: the calendar date of a cell, or the
    parser's exception on a value it cannot read. *)
Variable to_datetime_date : Value -> Res Value.

(** The body of the loop over the training rows: [None] for a skipped
    row, the record otherwise. *)
Definition training_row (row : dict Value)
  : Res (option Models.TrainingDetail.t) :=
  let training_name_val :=
    or_else
      (find_column_flexible row
         ["trainingname_program"; "training_name"; "trainingname";
          "training name"; "program"; "training"])
      (get row "trainingname_program") in
  let trainer_name_val :=
    or_else
      (find_column_flexible row
         ["trainer_name"; "trainer"; "trainername"; "trainer name";
          "copmetency"; "name"])
      (get row "trainer_name") in
  let training_name_val := strip_if_str training_name_val in
  let trainer_name_val := strip_if_str trainer_name_val in
  let trainer_name_val :=
    if negb (truthy trainer_name_val) then VStr "Not Assigned"
    else trainer_name_val in
  let missing_fields :=
    if negb (truthy training_name_val) then ["trainingname_program"]
    else [] in
  if nonempty missing_fields then Ok None
  else
    let date_val := get row "training_dates" in
    match (if notna date_val then to_datetime_date date_val
           else Ok VNone) with
    | Raise e => Raise e
    | Ok final_date =>
        Ok (Some
              (Models.TrainingDetail.mk
                 (get row "division")
                 (get row "department")
                 (get row "competency")
                 (get row "skill")
                 (get row "trainingname_program")
                 (get row "trainingtopics__material")
                 (get row "perquisites")
                 (get row "skill_category_(l1_-_l5)")
                 (get row "trainer_name")
                 (get row "email_id")
                 final_date
                 (if notna (get row "duration_(in_hrs)")
                  then VStr (py_str (get row "duration_(in_hrs)"))
                  else VNone)
                 (if notna (get row "no._of_seats)")
                  then VStr (py_str (get row "no._of_seats"))
                  else VNone)
                 (get row "time")
                 (get row "training_type")
                 (get row "assessment_details")))
    end.

(** The loop over the training rows. *)
Fixpoint training_rows (rows : list (dict Value))
    (trainings_to_add : list Models.TrainingDetail.t)
    (skipped_training_count : Z)
  : Res (list Models.TrainingDetail.t * Z) :=
  match rows with
  | [] => Ok (trainings_to_add, skipped_training_count)
  | row :: rest =>
      match training_row row with
      | Raise e => Raise e
      | Ok None =>
          training_rows rest trainings_to_add (skipped_training_count + 1)
      | Ok (Some training) =>
          training_rows rest (trainings_to_add ++ [training])
                        skipped_training_count
      end
  end.

(** [load_all_from_excel(excel_file_source, db)].  Step 1.5 restarts the
    id sequences at 1, so the trainings of the file are inserted with the
    ids 1, 2, ...; the verification after the commit then finds the ids
    starting from 1 and renumbers nothing, and the failures of both steps
    are caught and logged by the source.  The ids of [trainers] are not
    referenced and not carried. *)
Definition load_all_from_excel (excel_file_source : Workbook)
  : Db.M unit :=
  Db.try_except
    (Db.update (Db.set_training_assignments (fun _ => [])) ;;;
     Db.delete_training_details ;;;
     Db.update (Db.set_trainers (fun _ => [])) ;;;
     df_trainers <- Db.lift (read_excel excel_file_source "Trainers Details") ;;
     let '(trainers_to_add, skipped_count) :=
       trainer_rows (to_records df_trainers) [] 0 in
     df_trainings <- Db.lift (read_excel excel_file_source "Training Details") ;;
     r <- Db.lift (training_rows (to_records df_trainings) [] 0) ;;
     let '(trainings_to_add, skipped_training_count) := r in
     (if nonempty trainers_to_add
      then Db.update (Db.set_trainers (fun l => l ++ trainers_to_add)%list)
      else Db.ret tt) ;;;
     (if nonempty trainings_to_add
      then Db.update
             (Db.set_training_details
                (fun l => l ++ Db.number_from 1 trainings_to_add)%list)
      else Db.ret tt) ;;;
     (if (negb (nonempty trainers_to_add)
          && negb (nonempty trainings_to_add))%bool
      then Db.raise (ValueError
             "No valid data found in Excel file. All rows were skipped during validation.")
      else Db.ret tt) ;;;
     Db.try_except Db.commit (fun commit_error => Db.raise commit_error))
    (fun e => Db.rollback ;;; Db.raise e).

End LoadAllFromExcel.

(** ** The manager-employee CSV loader *)

(** A CSV file as [pd.read_csv] returns it: a frame, with the cells typed
    as pandas types them (a column of whole numbers with an empty cell is
    a column of floats, text that pandas reads as missing is [NaN], a
    number written with leading zeros is the number). *)
Definition Csv : Type := Sheet.

Definition mkCsv (csv_columns : list string) (csv_data : list (list Value))
  : Csv := mkSheet csv_columns csv_data.

Definition csv_columns (df : Csv) : list string := columns df.

Definition csv_data (df : Csv) : list (list Value) := data df.

(** [df.columns.str.strip().str.lower().str.replace(" ", "_")] *)
Definition clean_csv_header (h : string) : string :=
  replace_char " " "_" (lower (strip h)).

(** The frame with its headers cleaned. *)
Definition clean_csv (df : Csv) : Csv :=
  mkSheet (map clean_csv_header (csv_columns df)) (csv_data df).

(** The rows [df.iterrows()] yields, each as the pairs of cleaned header
    and cell; a header may occur more than once. *)
Definition csv_records (df : Csv) : list (dict Value) :=
  map (fun cells => combine (map clean_csv_header (csv_columns df)) cells)
      (csv_data (iterrows_values df)).

(** The number of columns with a header. *)
Definition count_header (hs : list string) (k : string) : nat :=
  List.length (filter (fun h => (h =? k)%string) hs).

(** A header occurs twice or more: [df[k]] is then a frame and
    [row.get(k)] a series. *)
Definition duplicated (hs : list string) (k : string) : bool :=
  Nat.leb 2 (count_header hs k).

(** [row.get(k)] on a row whose header [k] occurs at most once: the
    cell, [None] for a missing column. *)
Definition cell (row : dict Value) (k : string) : Value :=
  match lookup row k with Some c => c | None => VNone end.

(** [set(...)] of strings, as the list of its elements. *)
Fixpoint dedup (l : list string) : list string :=
  match l with
  | [] => []
  | x :: l' => if Db.str_mem x l' then dedup l' else x :: dedup l'
  end.

(** [set(df[col].dropna().astype(str).unique())], for a header that
    occurs once: the cells of the column as the frame types them, each
    printed by [str]. *)
Definition column_ids (df : Csv) (col : string) : list string :=
  dedup (flat_map (fun cells =>
                     let v := cell (combine (map clean_csv_header
                                                 (csv_columns df)) cells)
                                   col in
                     if notna v then [py_str v] else [])
                  (csv_data df)).

Definition default_password : string := "password123".

(** [get_password_hash(password)] of [auth_utils.py] *)
Definition get_password_hash (password : string) : Models.PasswordHash :=
  Models.HashOf password.

(** [to_bool(val)], on [row.get(col, False)] *)
Definition to_bool (row : dict Value) (col : string) : bool :=
  match lookup row col with
  | None => false
  | Some val =>
      if isna val then false
      else
        match val with
        | VBool b => b
        | _ =>
            let val_str := strip (lower (py_str val)) in
            existsb (fun t => (t =? val_str)%string)
                    ["t"; "true"; "1"; "yes"; "y"]
        end
  end.

(** [str(row.get(col, '')).strip() if pd.notna(row.get(col)) else None] *)
Definition stripped (row : dict Value) (col : string) : option string :=
  let v := cell row col in
  if notna v then Some (strip (py_str v)) else None.

(** [not v] for an optional string *)
Definition falsy (v : option string) : bool :=
  match v with
  | None => true
  | Some s => (s =? "")%string
  end.

(** The body of the loop over the CSV rows: [None] for a skipped row.
    When one of the six headers occurs twice, [row.get] returns a series,
    whose truth value raises; the [except] clause of the loop skips the
    row. *)
Definition manager_employee_row (row : dict Value)
  : option Models.ManagerEmployee.t :=
  if existsb (duplicated (keys row))
             ["manager_empid"; "manager_name"; "employee_empid";
              "employee_name"; "manager_is_trainer"; "employee_is_trainer"]
  then None
  else
    let manager_empid := stripped row "manager_empid" in
    let manager_name := stripped row "manager_name" in
    let employee_empid := stripped row "employee_empid" in
    let employee_name := stripped row "employee_name" in
    let manager_is_trainer := to_bool row "manager_is_trainer" in
    let employee_is_trainer := to_bool row "employee_is_trainer" in
    if (falsy manager_empid || falsy employee_empid)%bool then None
    else
      match manager_empid, employee_empid with
      | Some m, Some e =>
          Some (Models.ManagerEmployee.mk m manager_name e employee_name
                  manager_is_trainer employee_is_trainer)
      | _, _ => None
      end.

Fixpoint manager_employee_rows (rows : list (dict Value))
    (manager_employees_to_add : list Models.ManagerEmployee.t)
    (skipped_count : Z) : list Models.ManagerEmployee.t * Z :=
  match rows with
  | [] => (manager_employees_to_add, skipped_count)
  | row :: rest =>
      match manager_employee_row row with
      | None =>
          manager_employee_rows rest manager_employees_to_add
                                (skipped_count + 1)
      | Some r =>
          manager_employee_rows rest (manager_employees_to_add ++ [r])
                                skipped_count
      end
  end.

(** [all_user_ids]: the identifiers of both columns, as printed. *)
Definition all_user_ids (df : Csv) : list string :=
  let all_manager_ids := column_ids df "manager_empid" in
  let all_employee_ids := column_ids df "employee_empid" in
  dedup (all_manager_ids ++ all_employee_ids)%list.

(** [all_user_ids - existing_usernames]: the identifiers without a user
    in the table, as a set. *)
Definition ids_without_account (df : Csv) (d : Db.t) : list string :=
  let existing_usernames :=
    dedup (filter (fun u => Db.str_mem u (all_user_ids df))
                  (Db.usernames d)) in
  filter (fun u => negb (Db.str_mem u existing_usernames)) (all_user_ids df).

Section ManagerEmployeeCsv.

(** The order in which [for user_id in missing_user_ids] visits the
    elements of the set; it depends on the hashes of the strings, which
    change from one run of the interpreter to the next. *)
Variable set_order : list string -> list string.

(** [missing_user_ids], in the order the loop visits it. *)
Definition missing_user_ids (df : Csv) (d : Db.t) : list string :=
  set_order (ids_without_account df d).

(** Step 3 of the loader, up to the two sets of identifiers: on a frame
    in which an identifier header occurs twice, [df[col]] is a frame,
    which has no [unique]. *)
Definition collect_user_ids (df : Csv) : Db.M unit :=
  let hs := map clean_csv_header (csv_columns df) in
  if (duplicated hs "manager_empid" || duplicated hs "employee_empid")%bool
  then Db.raise (AttributeError
                   "'DataFrame' object has no attribute 'unique'")
  else Db.ret tt.

(** Steps 3 and 4 of the loader: the accounts of the identifiers that
    have none are created and committed. *)
Definition create_missing_users (now : Z) (df : Csv) : Db.M unit :=
  collect_user_ids df ;;;
  d <- Db.view ;;
  let missing_user_ids := missing_user_ids df d in
  if nonempty missing_user_ids
  then
    Db.try_except
      (let default_password_hash := get_password_hash default_password in
       let new_users :=
         map (fun user_id => Models.User.mk user_id default_password_hash now)
             missing_user_ids in
       Db.update (Db.set_users (fun l => l ++ new_users)%list) ;;;
       Db.commit)
      (fun user_error =>
         Db.rollback ;;;
         Db.raise (ValueError ("Failed to create user accounts: "
                                 ++ exn_message user_error)))
  else Db.ret tt.

(** Steps 5 and 6 of the loader: the valid rows are added and committed. *)
Definition insert_relationships (df : Csv) : Db.M unit :=
  let '(manager_employees_to_add, skipped_count) :=
    manager_employee_rows (csv_records df) [] 0 in
  (if nonempty manager_employees_to_add
   then Db.update
          (Db.set_manager_employee
             (fun l => l ++ manager_employees_to_add)%list)
   else Db.raise (ValueError
          "No valid data found in CSV file. All rows were skipped during validation.")) ;;;
  Db.try_except Db.commit (fun commit_error => Db.raise commit_error).

(** Steps 1 and 2: the table is cleared and the columns are checked. *)
Definition clear_and_check (df : Csv) : Db.M unit :=
  Db.update (Db.set_manager_employee (fun _ => [])) ;;;
  let columns := map clean_csv_header (csv_columns df) in
  let required_columns :=
    ["manager_empid"; "manager_name"; "employee_empid"; "employee_name"] in
  let missing_columns :=
    filter (fun col => negb (Db.str_mem col columns)) required_columns in
  if nonempty missing_columns
  then Db.raise (ValueError ("Missing required columns in CSV: "
                               ++ join ", " missing_columns))
  else Db.ret tt.

(** [load_manager_employee_from_csv(csv_file_source, db)], called when the
    clock reads [now]. *)
Definition load_manager_employee_from_csv (now : Z) (csv_file_source : Csv)
  : Db.M unit :=
  Db.try_except
    (clear_and_check csv_file_source ;;;
     create_missing_users now csv_file_source ;;;
     insert_relationships csv_file_source)
    (fun e => Db.rollback ;;; Db.raise e).

End ManagerEmployeeCsv.

End ExcelLoader.

(* ================================================================== *)
(** * backend/app/routes/shared_content_routes.py *)
(* ================================================================== *)

Module SharedContent.
Import Py Models.

Local Open Scope session_scope.

Module SharedAssignmentResponse.
Record t : Type := mk {
  id : Z;
  training_id : Z;
  trainer_username : string;
  title : string;
  description : option string;
  questions : list AssignmentQuestion.t;
  created_at : Z;
  updated_at : Z }.
End SharedAssignmentResponse.

Module AssignmentSubmissionCreate.
Record t : Type := mk {
  training_id : Z;
  shared_assignment_id : Z;
  answers : list AnswerSubmission.t }.
End AssignmentSubmissionCreate.

Module QuestionResult.
Record t : Type := mk {
  questionIndex : Z;
  isCorrect : bool;
  correctAnswers : list Z;
  userAnswers : list Z;
  userTextAnswer : option string }.
End QuestionResult.

Module AssignmentResultResponse.
Record t : Type := mk {
  id : Z;
  training_id : Z;
  score : Z;
  total_questions : Z;
  correct_answers : Z;
  question_results : list QuestionResult.t;
  submitted_at : Z }.
End AssignmentResultResponse.

(** [not current_user.get("username")] *)
Definition no_username (u : option string) : bool :=
  match u with
  | None => true
  | Some s => (s =? "")%string
  end.

(** The rows of [training_assignments] for a training and an employee. *)
Definition assignments_of (training_id : Z) (employee : string) (d : Db.t)
  : list TrainingAssignment.t :=
  filter (fun a =>
            ((TrainingAssignment.training_id a =? training_id)
             && (TrainingAssignment.employee_empid a =? employee)%string)%bool)
         (Db.training_assignments d).

(** The rows of [shared_assignments] for a training. *)
Definition shared_of (training_id : Z) (d : Db.t) : list SharedAssignment.t :=
  filter (fun a => SharedAssignment.training_id a =? training_id)
         (Db.shared_assignments d).

(** [get_shared_assignment(training_id, db, current_user)] *)
Definition get_shared_assignment (training_id : Z)
    (current_user : dict string)
  : Db.M (option SharedAssignmentResponse.t) :=
  let employee_username := lookup current_user "username" in
  match employee_username with
  | None => Db.raise (HTTPException 401 "Could not validate credentials")
  | Some employee =>
      if no_username employee_username
      then Db.raise (HTTPException 401 "Could not validate credentials")
      else
        d <- Db.view ;;
        assignment <-
          Db.scalar_one_or_none (assignments_of training_id employee d) ;;
        match assignment with
        | None =>
            Db.raise (HTTPException 403
              "You can only access assignments for trainings assigned to you")
        | Some _ =>
            shared_assignment <-
              Db.scalar_one_or_none (shared_of training_id d) ;;
            match shared_assignment with
            | None => Db.ret None
            | Some sa =>
                let questions_data := SharedAssignment.assignment_data sa in
                Db.ret (Some (SharedAssignmentResponse.mk
                                (SharedAssignment.id sa)
                                (SharedAssignment.training_id sa)
                                (SharedAssignment.trainer_username sa)
                                (SharedAssignment.title sa)
                                (SharedAssignment.description sa)
                                questions_data
                                (SharedAssignment.created_at sa)
                                (SharedAssignment.updated_at sa)))
            end
        end
  end.

(** ** Grading *)

(** [l[i]]: a negative index counts from the end; outside
    [-len(l) .. len(l)-1] it raises. *)
Definition getitem {A} (l : list A) (i : Z) : Res A :=
  let n := Z.of_nat (List.length l) in
  let j := if i <? 0 then i + n else i in
  if ((0 <=? j) && (j <? n))%bool
  then match nth_error l (Z.to_nat j) with
       | Some x => Ok x
       | None => Raise IndexError
       end
  else Raise IndexError.

(** [x in l] for a list of integers *)
Definition int_in (x : Z) (l : list Z) : bool := existsb (Z.eqb x) l.

(** [set(a) == set(b)] *)
Definition set_eq (a b : list Z) : bool :=
  (forallb (fun x => int_in x b) a && forallb (fun x => int_in x a) b)%bool.

(** The loop [for idx, opt in enumerate(options)] collecting the indices
    of the options flagged correct, counting from [idx]. *)
Fixpoint correct_from (idx : Z) (options : list AssignmentQuestionOption.t)
  : list Z :=
  match options with
  | [] => []
  | opt :: rest =>
      if AssignmentQuestionOption.isCorrect opt
      then idx :: correct_from (idx + 1) rest
      else correct_from (idx + 1) rest
  end.

Definition is_choice (type : string) : bool :=
  ((type =? "single-choice") || (type =? "multiple-choice"))%string%bool.

(** The body of the grading loop of [submit_assignment], for an answer
    and the question it indexes. *)
Definition evaluate (question : AssignmentQuestion.t)
    (answer : AnswerSubmission.t) : QuestionResult.t :=
  let qtype := AssignmentQuestion.type question in
  let user_indices := AnswerSubmission.selectedOptions answer in
  let correct_indices :=
    if is_choice qtype
    then correct_from 0 (AssignmentQuestion.options question)
    else [] in
  let is_correct :=
    if is_choice qtype then
      if (qtype =? "single-choice")%string then
        match AnswerSubmission.selectedOptions answer with
        | [o] => int_in o correct_indices
        | _ => false
        end
      else if (qtype =? "multiple-choice")%string then
        set_eq (AnswerSubmission.selectedOptions answer) correct_indices
      else false
    else if (qtype =? "text-input")%string then false
    else false in
  QuestionResult.mk
    (AnswerSubmission.questionIndex answer)
    is_correct
    correct_indices
    user_indices
    (if (qtype =? "text-input")%string
     then AnswerSubmission.textAnswer answer else None).

(** The grading loop: [correct_count] and [question_results] after the
    remaining [answers]. *)
Fixpoint evaluate_answers (questions_data : list AssignmentQuestion.t)
    (answers : list AnswerSubmission.t) (correct_count : Z)
    (question_results : list QuestionResult.t)
  : Res (Z * list QuestionResult.t) :=
  match answers with
  | [] => Ok (correct_count, question_results)
  | answer :: rest =>
      if AnswerSubmission.questionIndex answer
         >=? Z.of_nat (List.length questions_data)
      then evaluate_answers questions_data rest correct_count question_results
      else
        match getitem questions_data (AnswerSubmission.questionIndex answer)
        with
        | Raise e => Raise e
        | Ok question =>
            let qr := evaluate question answer in
            evaluate_answers questions_data rest
              (if QuestionResult.isCorrect qr then correct_count + 1
               else correct_count)
              (question_results ++ [qr])
        end
  end.

(** ** The percentage, in binary64 arithmetic *)

(** [a / b] on integers: the quotient rounded to the nearest double. *)
Definition true_div (a b : Z) : Res spec_float :=
  if b =? 0 then Raise ZeroDivisionError
  else Ok (SFdiv 53 1024 (float_of_int a) (float_of_int b)).

(** [int((correct_count / total_questions * 100)) if total_questions > 0
    else 0] *)
Definition compute_score (correct_count total_questions : Z) : Res Z :=
  if total_questions >? 0 then
    match true_div correct_count total_questions with
    | Raise e => Raise e
    | Ok q => int_of_float (SFmul 53 1024 q (float_of_int 100))
    end
  else Ok 0.

(** The grading steps of [submit_assignment] between loading the key and
    storing the submission: [total_questions], [correct_count], [score]
    and [question_results]. *)
Definition grade (questions_data : list AssignmentQuestion.t)
    (answers : list AnswerSubmission.t)
  : Res (Z * Z * Z * list QuestionResult.t) :=
  let total_questions := Z.of_nat (List.length questions_data) in
  match evaluate_answers questions_data answers 0 [] with
  | Raise e => Raise e
  | Ok (correct_count, question_results) =>
      match compute_score correct_count total_questions with
      | Raise e => Raise e
      | Ok score => Ok (total_questions, correct_count, score, question_results)
      end
  end.

(** The id the sequence gives the next row: one past the ids in use. *)
Definition next_id (ids : list Z) : Z := fold_right Z.max 0 ids + 1.

(** The rows of [shared_assignments] with an id, for a training. *)
Definition shared_by_id (id training_id : Z) (d : Db.t)
  : list SharedAssignment.t :=
  filter (fun a => ((SharedAssignment.id a =? id)
                    && (SharedAssignment.training_id a =? training_id))%bool)
         (Db.shared_assignments d).

(** [submit_assignment(submission_data, db, current_user)], called when
    the clock reads [now]. *)
Definition submit_assignment (now : Z)
    (submission_data : AssignmentSubmissionCreate.t)
    (current_user : dict string) : Db.M AssignmentResultResponse.t :=
  let employee_username := lookup current_user "username" in
  match employee_username with
  | None => Db.raise (HTTPException 401 "Could not validate credentials")
  | Some employee =>
      if no_username employee_username
      then Db.raise (HTTPException 401 "Could not validate credentials")
      else
        let training_id := AssignmentSubmissionCreate.training_id submission_data in
        d <- Db.view ;;
        assignment <-
          Db.scalar_one_or_none (assignments_of training_id employee d) ;;
        match assignment with
        | None =>
            Db.raise (HTTPException 403
              "You can only submit assignments for trainings assigned to you")
        | Some _ =>
            shared_assignment <-
              Db.scalar_one_or_none
                (shared_by_id
                   (AssignmentSubmissionCreate.shared_assignment_id submission_data)
                   training_id d) ;;
            match shared_assignment with
            | None => Db.raise (HTTPException 404 "Assignment not found")
            | Some sa =>
                g <- Db.lift (grade (SharedAssignment.assignment_data sa)
                                (AssignmentSubmissionCreate.answers submission_data)) ;;
                let '(total_questions, correct_count, score, question_results) := g in
                let submission :=
                  AssignmentSubmission.mk
                    (next_id (map AssignmentSubmission.id
                                  (Db.assignment_submissions d)))
                    training_id
                    (AssignmentSubmissionCreate.shared_assignment_id submission_data)
                    employee
                    (AssignmentSubmissionCreate.answers submission_data)
                    score total_questions correct_count now in
                Db.update (Db.set_assignment_submissions
                             (fun l => l ++ [submission])%list) ;;;
                Db.commit ;;;
                Db.ret (AssignmentResultResponse.mk
                          (AssignmentSubmission.id submission)
                          (AssignmentSubmission.training_id submission)
                          (AssignmentSubmission.score submission)
                          (AssignmentSubmission.total_questions submission)
                          (AssignmentSubmission.correct_answers submission)
                          question_results
                          (AssignmentSubmission.submitted_at submission))
            end
        end
  end.

(** ** Retrieval of a result *)

(** The rows of [assignment_submissions] of an employee for a training
    and a shared assignment. *)
Definition submissions_of (training_id : Z) (employee : string)
    (shared_assignment_id : Z) (d : Db.t) : list AssignmentSubmission.t :=
  filter (fun r =>
            ((AssignmentSubmission.training_id r =? training_id)
             && (AssignmentSubmission.employee_empid r =? employee)%string
             && (AssignmentSubmission.shared_assignment_id r
                 =? shared_assignment_id))%bool)
         (Db.assignment_submissions d).

(** [order_by(AssignmentSubmission.submitted_at.desc())] *)
Fixpoint insert_desc (r : AssignmentSubmission.t)
    (l : list AssignmentSubmission.t) : list AssignmentSubmission.t :=
  match l with
  | [] => [r]
  | x :: l' =>
      if AssignmentSubmission.submitted_at x
         <? AssignmentSubmission.submitted_at r
      then r :: l
      else x :: insert_desc r l'
  end.

Definition order_by_submitted_at_desc (l : list AssignmentSubmission.t)
  : list AssignmentSubmission.t :=
  fold_right insert_desc [] l.

(** The body of the loop of [get_assignment_result] that rebuilds the
    result of one stored answer from the current key. *)
Definition reevaluate (question : AssignmentQuestion.t)
    (answer : AnswerSubmission.t) : QuestionResult.t :=
  let qtype := AssignmentQuestion.type question in
  let user_indices := AnswerSubmission.selectedOptions answer in
  let correct_indices :=
    if is_choice qtype
    then correct_from 0 (AssignmentQuestion.options question)
    else [] in
  let is_correct :=
    if (qtype =? "single-choice")%string then
      match user_indices with
      | [o] => int_in o correct_indices
      | _ => false
      end
    else if (qtype =? "multiple-choice")%string then
      set_eq user_indices correct_indices
    else false in
  QuestionResult.mk
    (AnswerSubmission.questionIndex answer)
    is_correct
    correct_indices
    user_indices
    (if (qtype =? "text-input")%string
     then AnswerSubmission.textAnswer answer else None).

Fixpoint reevaluate_answers (questions_data : list AssignmentQuestion.t)
    (answers_data : list AnswerSubmission.t)
    (question_results : list QuestionResult.t)
  : Res (list QuestionResult.t) :=
  match answers_data with
  | [] => Ok question_results
  | answer :: rest =>
      let question_idx := AnswerSubmission.questionIndex answer in
      if question_idx >=? Z.of_nat (List.length questions_data)
      then reevaluate_answers questions_data rest question_results
      else
        match getitem questions_data question_idx with
        | Raise e => Raise e
        | Ok question =>
            reevaluate_answers questions_data rest
              (question_results ++ [reevaluate question answer])
        end
  end.

(** [get_assignment_result(training_id, db, current_user)] *)
Definition get_assignment_result (training_id : Z)
    (current_user : dict string)
  : Db.M (option AssignmentResultResponse.t) :=
  let employee_username := lookup current_user "username" in
  match employee_username with
  | None => Db.raise (HTTPException 401 "Could not validate credentials")
  | Some employee =>
      if no_username employee_username
      then Db.raise (HTTPException 401 "Could not validate credentials")
      else
        d <- Db.view ;;
        assignment <-
          Db.scalar_one_or_none (assignments_of training_id employee d) ;;
        match assignment with
        | None =>
            Db.raise (HTTPException 403
              "You can only access results for trainings assigned to you")
        | Some _ =>
            shared_assignment <-
              Db.scalar_one_or_none (shared_of training_id d) ;;
            match shared_assignment with
            | None => Db.ret None
            | Some sa =>
                submission <-
                  Db.scalar_one_or_none
                    (order_by_submitted_at_desc
                       (submissions_of training_id employee
                                       (SharedAssignment.id sa) d)) ;;
                match submission with
                | None => Db.ret None
                | Some sub =>
                    question_results <-
                      Db.lift (reevaluate_answers
                                 (SharedAssignment.assignment_data sa)
                                 (AssignmentSubmission.answers_data sub) []) ;;
                    Db.ret (Some (AssignmentResultResponse.mk
                                    (AssignmentSubmission.id sub)
                                    (AssignmentSubmission.training_id sub)
                                    (AssignmentSubmission.score sub)
                                    (AssignmentSubmission.total_questions sub)
                                    (AssignmentSubmission.correct_answers sub)
                                    question_results
                                    (AssignmentSubmission.submitted_at sub)))
                end
            end
        end
  end.

End SharedContent.

(* ================================================================== *)
(** * The column resolver of the design document *)
(* ================================================================== *)

Module ResolverSpec.
Import Py.

(** Which of the three passes produced the value. *)
Inductive Resolution : Type :=
| ByExact (v : Value)
| ByCaseInsensitive (v : Value)
| BySubstring (v : Value)
| Absent.

Definition value_of (r : Resolution) : Value :=
  match r with
  | ByExact v | ByCaseInsensitive v | BySubstring v => v
  | Absent => VNone
  end.

(** Pass 1: the candidate is a header of the row. *)
Definition exact_match (row : dict Value) (c : string) : bool :=
  existsb (fun h => (h =? c)%string) (keys row).

(** Pass 2: the candidate equals a header up to case. *)
Definition ci_equal (c h : string) : bool := (lower h =? lower c)%string.

Definition ci_match (row : dict Value) (c : string) : bool :=
  existsb (ci_equal c) (keys row).

(** Pass 3: substring in either direction, where a candidate of length at
    most three only matches a header it equals up to case. *)
Definition substring_match (c h : string) : bool :=
  ((str_in (lower c) (lower h) || str_in (lower h) (lower c))
   && (if len c <=? 3 then ci_equal c h else true))%bool.

(** The candidates paired with the headers, candidate-major. *)
Definition pairs (cands hs : list string) : list (string * string) :=
  flat_map (fun c => map (fun h => (c, h)) hs) cands.

(** The resolution in the words of the design document, section 4.1:
    three passes in strict precedence. *)
Definition resolve (row : dict Value) (cands : list string) : Resolution :=
  match find (exact_match row) cands with
  | Some c => ByExact (get row c)
  | None =>
      match find (ci_match row) cands with
      | Some c =>
          match find (ci_equal c) (rev (keys row)) with
          | Some h => ByCaseInsensitive (get row h)
          | None => Absent
          end
      | None =>
          match find (fun ch => substring_match (fst ch) (snd ch))
                  (pairs cands (keys row)) with
          | Some (_, h) => BySubstring (get row h)
          | None => Absent
          end
      end
  end.

(** The three match criteria, as propositions over a row and the
    candidate names. *)
Definition exact_hit (row : dict Value) (c : string) : Prop :=
  In c (keys row).

Definition ci_hit (c h : string) : Prop := lower h = lower c.

Definition substring_hit (c h : string) : Prop :=
  (str_in (lower c) (lower h) = true \/ str_in (lower h) (lower c) = true)
  /\ (len c <= 3 -> lower c = lower h).

Definition no_exact_hit (row : dict Value) (cands : list string) : Prop :=
  forall c, In c cands -> ~ exact_hit row c.

Definition no_ci_hit (row : dict Value) (cands : list string) : Prop :=
  forall c h, In c cands -> In h (keys row) -> ~ ci_hit c h.

Definition no_substring_hit (row : dict Value) (cands : list string) : Prop :=
  forall c h, In c cands -> In h (keys row) -> ~ substring_hit c h.

End ResolverSpec.

Import Py.


(* ================================================================== *)
(** * The grading rules of the design document *)
(* ================================================================== *)

Module GraderSpec.







(** The percentage in exact integer arithmetic. *)
Definition exact_score (correct_count total_questions : Z) : Z :=
  if total_questions =? 0 then 0
  else (100 * correct_count) / total_questions.

(** What an employee may see of a question before submitting: its text
    and the texts of its options. *)
Definition public_question (q : AssignmentQuestion.t)
  : string * option string * string * list string :=
  (AssignmentQuestion.text q, AssignmentQuestion.helperText q,
   AssignmentQuestion.type q,
   map AssignmentQuestionOption.text (AssignmentQuestion.options q)).

(** Two keys that differ at most in their correctness flags. *)
Definition same_up_to_flags (k1 k2 : list AssignmentQuestion.t) : Prop :=
  map public_question k1 = map public_question k2.

End GraderSpec.

(* ================================================================== *)
(** * The stores an Excel import leads to *)
(* ================================================================== *)

Module ExcelImport.
Import Py ExcelLoader.

(** A row other than a training assignment references a training of the
    store: the deletion of the trainings is refused. *)
Definition blocked (d : Db.t) : bool :=
  Db.training_referenced (Db.set_training_assignments (fun _ => []) d).

(** The store with its trainers and trainings replaced, the trainings
    numbered from 1, and without training assignment. *)
Definition imported (trainers : list Models.Trainer.t)
    (trainings : list Models.TrainingDetail.t) (d : Db.t) : Db.t :=
  Db.mk (Db.users d) (Db.manager_employee d) trainers
        (Db.number_from 1 trainings) []
        (Db.shared_assignments d) (Db.assignment_submissions d)
        (Db.other_training_refs d).

End ExcelImport.

(* ================================================================== *)
(** * The stores a CSV import passes through *)
(* ================================================================== *)

Module CsvImport.
Import Py ExcelLoader.

(** The store with the relationship table cleared. *)
Definition cleared (d : Db.t) : Db.t :=
  Db.set_manager_employee (fun _ => []) d.

(** The account created for an identifier that has none. *)
Definition default_account (now : Z) (user_id : string) : Models.User.t :=
  Models.User.mk user_id (Models.HashOf "password123") now.

(** The cleared store with the accounts of the missing identifiers, in
    the order the loader visits them. *)
Definition with_new_users (set_order : list string -> list string)
    (now : Z) (df : Csv) (d : Db.t) : Db.t :=
  Db.set_users
    (fun l => l ++ map (default_account now)
                       (missing_user_ids set_order df d))%list
    (cleared d).

(** The store the relationships are added to: the cleared store, with
    the accounts created when there are identifiers without one. *)
Definition with_accounts (set_order : list string -> list string)
    (now : Z) (df : Csv) (d : Db.t) : Db.t :=
  if nonempty (missing_user_ids set_order df d)
  then with_new_users set_order now df d
  else cleared d.

(** The store as committed when the insertion of the relationships
    begins: with the new accounts and without the relationships when
    accounts were created, as it was otherwise. *)
Definition after_accounts (set_order : list string -> list string)
    (now : Z) (df : Csv) (d : Db.t) : Db.t :=
  if nonempty (missing_user_ids set_order df d)
  then with_new_users set_order now df d
  else d.

(** A store with the relationships of the file added. *)
Definition with_rows (df : Csv) (d : Db.t) : Db.t :=
  Db.set_manager_employee
    (fun l => l ++ fst (manager_employee_rows (csv_records df) [] 0))%list d.

(** One of the two identifier headers occurs twice in the frame. *)
Definition id_header_twice (df : Csv) : bool :=
  let hs := map clean_csv_header (csv_columns df) in
  (duplicated hs "manager_empid" || duplicated hs "employee_empid")%bool.

(** The order of a set is an order of its elements: it loses none, adds
    none and repeats none. *)
Definition is_order (set_order : list string -> list string) : Prop :=
  forall l, Permutation (set_order l) l.

End CsvImport.

(* ================================================================== *)
(** * Concrete keys, submissions, files and stores *)
(* ================================================================== *)

Module Scenario.
Import Py Models.

(** A single-choice question whose first option is the correct one. *)
Definition q_single : AssignmentQuestion.t :=
  AssignmentQuestion.mk "2 + 2 = ?" (Some "") "single-choice"
    [AssignmentQuestionOption.mk "4" true;
     AssignmentQuestionOption.mk "5" false].

(** The same question with the flags of its options exchanged. *)
Definition q_single_flipped : AssignmentQuestion.t :=
  AssignmentQuestion.mk "2 + 2 = ?" (Some "") "single-choice"
    [AssignmentQuestionOption.mk "4" false;
     AssignmentQuestionOption.mk "5" true].

Definition q_text : AssignmentQuestion.t :=
  AssignmentQuestion.mk "Explain." (Some "") "text-input" [].

(** The answer that selects the first option of question [i]. *)
Definition pick_first (i : Z) : AnswerSubmission.t :=
  AnswerSubmission.mk i "single-choice" [0] (Some "").

Definition employee : dict string := [("username", "E100")].

(** A training given by [trainer_name]. *)
Definition training (trainer_name : Value) : TrainingDetail.t :=
  TrainingDetail.mk VNone VNone VNone VNone (VStr "Python Basics") VNone
    VNone VNone trainer_name VNone VNone VNone VNone VNone VNone VNone.

Definition accounts : list User.t :=
  [User.mk "T1" (HashOf "pw-t1") 0; User.mk "M1" (HashOf "pw-m1") 0;
   User.mk "E100" (HashOf "pw-e100") 0].

(** A store in which E100 is assigned training 1, given by T1, whose
    shared assignment 7 holds the key [key]. *)
Definition store (key : list AssignmentQuestion.t)
    (submissions : list AssignmentSubmission.t) : Db.t :=
  Db.mk
    accounts
    [ManagerEmployee.mk "M1" (Some "Mia") "E100" (Some "Eve") false false]
    []
    [(1, training (VStr "T1"))]
    [TrainingAssignment.mk 1 "E100" "M1"]
    [SharedAssignment.mk 7 1 "T1" "Quiz" (Some "") key 10 10]
    submissions
    [].

(** A store in which E100 is assigned training 1 and nothing else
    references a training: no assignment has been shared, submitted or
    requested. *)
Definition catalogue_store : Db.t :=
  Db.mk
    accounts
    [ManagerEmployee.mk "M1" (Some "Mia") "E100" (Some "Eve") false false]
    [Trainer.mk (VStr "SQL") (VStr "Data") (VStr "T1") (VStr "L2")]
    [(1, training (VStr "T1"))]
    [TrainingAssignment.mk 1 "E100" "M1"]
    [] [] [].

(** Two stored submissions of E100 for assignment 7. *)
Definition first_attempt : AssignmentSubmission.t :=
  AssignmentSubmission.mk 1 1 7 "E100" [pick_first 0] 100 1 1 20.

Definition second_attempt : AssignmentSubmission.t :=
  AssignmentSubmission.mk 2 1 7 "E100" [pick_first 0] 100 1 1 30.

(** A key of fifty questions and the answers that get the first
    twenty-nine right and leave the others out. *)
Definition key50 : list AssignmentQuestion.t := repeat q_single 50.

Definition answers29 : list AnswerSubmission.t :=
  map (fun i => pick_first (Z.of_nat i)) (seq 0 29).

(** The missing cell of a frame. *)
Definition nan : Value := VFloat S754_nan.

(** A CSV file whose only row names a manager and no employee. *)
Definition csv_no_employee : ExcelLoader.Csv :=
  ExcelLoader.mkCsv
    ["manager_empid"; "manager_name"; "employee_empid"; "employee_name"]
    [[VStr "M2"; VStr "Max"; nan; nan]].

(** A CSV file relating manager M1 to the new employee E200. *)
Definition csv_e200 : ExcelLoader.Csv :=
  ExcelLoader.mkCsv
    ["manager_empid"; "manager_name"; "employee_empid"; "employee_name"]
    [[VStr "M1"; VStr "Mia"; VStr "E200"; VStr "Eli"]].

(** The order of a set that is the order of insertion. *)
Definition insertion_order (l : list string) : list string := l.

(** A workbook with one valid trainer and one training whose trainer
    name is empty. *)
Definition trainer_cells : list Value :=
  [VStr "Python"; VStr "Backend"; nan; VStr "L3"].

Definition workbook (trainer_name : Value) : ExcelLoader.Workbook :=
  [("Trainers Details",
    ExcelLoader.mkSheet
      ["Skill"; "Competency"; "Trainer Name"; "Expertise Level"]
      [trainer_cells]);
   ("Training Details",
    ExcelLoader.mkSheet
      ["TrainingName/Program"; "Trainer Name"]
      [[VStr "Python Basics"; trainer_name]])].

(** A date parser that accepts every cell, and reads 1 January 2025. *)
Definition any_date (v : Value) : Res Value := Ok (VDate 2025 1 1).

End Scenario.

(* ================================================================== *)
(** * backend/app/routes/assignment_routes.py and the trainer's routes of
      shared_content_routes.py *)
(* ================================================================== *)

Module Routes.
Import Py Models.

Local Open Scope session_scope.

Module AssignmentCreate.
Record t : Type := mk { training_id : Z; employee_username : string }.
End AssignmentCreate.

Module SharedAssignmentCreate.
Record t : Type := mk {
  training_id : Z;
  title : string;
  description : option string;
  questions : list AssignmentQuestion.t }.
End SharedAssignmentCreate.

(** The rows of [training_details] with an id. *)
Definition training_by_id (training_id : Z) (d : Db.t)
  : list TrainingDetail.t :=
  map snd (filter (fun p => fst p =? training_id) (Db.training_details d)).

(** ** assignment_routes.py *)

(** [assign_training_to_employee(assignment, db, current_user)].  The
    token may carry no username: the row is then added with a null
    [manager_empid], which the column ([nullable=False]) rejects when the
    session is flushed. *)
Definition assign_training_to_employee (assignment : AssignmentCreate.t)
    (current_user : dict string) : Db.M string :=
  let manager_username := lookup current_user "username" in
  d <- Db.view ;;
  existing <-
    Db.scalar_one_or_none
      (SharedContent.assignments_of
         (AssignmentCreate.training_id assignment)
         (AssignmentCreate.employee_username assignment) d) ;;
  match existing with
  | Some _ =>
      Db.raise (HTTPException 400
                  "This training is already assigned to this employee")
  | None =>
      match manager_username with
      | None => Db.raise (IntegrityError "constraint violated")
      | Some manager =>
          let db_assignment :=
            TrainingAssignment.mk
              (AssignmentCreate.training_id assignment)
              (AssignmentCreate.employee_username assignment)
              manager in
          Db.update (Db.set_training_assignments
                       (fun l => l ++ [db_assignment])%list) ;;;
          Db.commit ;;;
          Db.ret "Training assigned successfully"
      end
  end.

(** [get_team_assigned_trainings(db, current_user)]: the pairs
    [(training_id, employee_empid)] of the caller's team. *)
Definition get_team_assigned_trainings (current_user : dict string)
  : Db.M (list (Z * string)) :=
  let manager_username := lookup current_user "username" in
  d <- Db.view ;;
  match manager_username with
  | None => Db.ret []
  | Some manager =>
      let team_member_ids :=
        map ManagerEmployee.employee_empid
            (filter (fun r => (ManagerEmployee.manager_empid r =? manager)%string)
                    (Db.manager_employee d)) in
      if negb (ExcelLoader.nonempty team_member_ids) then Db.ret []
      else
        let assignments :=
          filter (fun a =>
                    (Db.str_mem (TrainingAssignment.employee_empid a)
                                team_member_ids
                     && (TrainingAssignment.manager_empid a =? manager)%string)%bool)
                 (Db.training_assignments d) in
        Db.ret (map (fun a => (TrainingAssignment.training_id a,
                               TrainingAssignment.employee_empid a))
                    assignments)
  end.

(** The rows a deletion by [manager] of the assignment of [training_id]
    to [employee_empid] selects. *)
Definition assigned_by (training_id : Z) (employee_empid manager : string)
    (a : TrainingAssignment.t) : bool :=
  ((TrainingAssignment.training_id a =? training_id)
   && (TrainingAssignment.employee_empid a =? employee_empid)%string
   && (TrainingAssignment.manager_empid a =? manager)%string)%bool.

(** [delete_assignment(training_id, employee_empid, db, current_user)] *)
Definition delete_assignment (training_id : Z) (employee_empid : string)
    (current_user : dict string) : Db.M string :=
  let manager_username := lookup current_user "username" in
  match manager_username with
  | None => Db.raise (HTTPException 401 "Could not validate credentials")
  | Some manager =>
      if SharedContent.no_username manager_username
      then Db.raise (HTTPException 401 "Could not validate credentials")
      else
        d <- Db.view ;;
        assignment <-
          Db.scalar_one_or_none
            (filter (assigned_by training_id employee_empid manager)
                    (Db.training_assignments d)) ;;
        match assignment with
        | None =>
            Db.raise (HTTPException 404
              "Assignment not found or you are not authorized to delete it")
        | Some _ =>
            Db.update
              (Db.set_training_assignments
                 (filter (fun a => negb (assigned_by training_id
                                           employee_empid manager a)))) ;;;
            Db.commit ;;;
            Db.ret "Assignment deleted successfully"
        end
  end.

(** ** The trainer's routes of shared_content_routes.py *)

(** [bool(s)] for a string *)
Definition nonblank (s : string) : bool := negb (s =? "")%string.

(** The test [is_trainer] of the sharing routes, on the stripped trainer
    name of the training, the caller's username and the name under which
    the caller is listed as an employee. *)
Definition is_trainer (trainer_name trainer_username : string)
    (employee_name : option string) : bool :=
  let trainer_name_lower := lower trainer_name in
  let trainer_username_lower := lower trainer_username in
  let employee_name_lower :=
    lower (match employee_name with Some n => n | None => "" end) in
  ((trainer_name_lower =? trainer_username_lower)%string
   || (nonblank employee_name_lower
       && (trainer_name_lower =? employee_name_lower)%string)
   || str_in trainer_username_lower trainer_name_lower
   || (nonblank employee_name_lower
       && str_in employee_name_lower trainer_name_lower))%bool.

(** [str(training.trainer_name or "").strip()] *)
Definition trainer_name_of (training : TrainingDetail.t) : string :=
  strip (py_str
           (or_else (TrainingDetail.trainer_name training) (VStr ""))).

(** [select(ManagerEmployee.employee_name).where(employee_empid == u)] *)
Definition employee_names_of (u : string) (d : Db.t)
  : list (option string) :=
  map ManagerEmployee.employee_name
      (filter (fun r => (ManagerEmployee.employee_empid r =? u)%string)
              (Db.manager_employee d)).

(** [scalar_one_or_none()] on a column that may hold null. *)
Definition scalar_name (rows : list (option string))
  : Db.M (option string) :=
  r <- Db.scalar_one_or_none rows ;;
  Db.ret (match r with Some v => v | None => None end).

Definition response_of (sa : SharedAssignment.t)
  : SharedContent.SharedAssignmentResponse.t :=
  SharedContent.SharedAssignmentResponse.mk
    (SharedAssignment.id sa) (SharedAssignment.training_id sa)
    (SharedAssignment.trainer_username sa) (SharedAssignment.title sa)
    (SharedAssignment.description sa) (SharedAssignment.assignment_data sa)
    (SharedAssignment.created_at sa) (SharedAssignment.updated_at sa).

(** The existing assignment with the new title, description and
    questions, updated at [now]. *)
Definition overwrite (now : Z) (assignment_data : SharedAssignmentCreate.t)
    (existing : SharedAssignment.t) : SharedAssignment.t :=
  SharedAssignment.mk
    (SharedAssignment.id existing) (SharedAssignment.training_id existing)
    (SharedAssignment.trainer_username existing)
    (SharedAssignmentCreate.title assignment_data)
    (SharedAssignmentCreate.description assignment_data)
    (SharedAssignmentCreate.questions assignment_data)
    (SharedAssignment.created_at existing) now.

(** [share_assignment(assignment_data, db, current_user)], called when
    the clock reads [now]. *)
Definition share_assignment (now : Z)
    (assignment_data : SharedAssignmentCreate.t)
    (current_user : dict string)
  : Db.M SharedContent.SharedAssignmentResponse.t :=
  let username := lookup current_user "username" in
  match username with
  | None => Db.raise (HTTPException 401 "Could not validate credentials")
  | Some trainer_username =>
      if SharedContent.no_username username
      then Db.raise (HTTPException 401 "Could not validate credentials")
      else
        let training_id := SharedAssignmentCreate.training_id assignment_data in
        d <- Db.view ;;
        training <- Db.scalar_one_or_none (training_by_id training_id d) ;;
        match training with
        | None => Db.raise (HTTPException 404 "Training not found")
        | Some training =>
            let trainer_name := trainer_name_of training in
            if negb (nonblank trainer_name)
            then Db.raise (HTTPException 403
                             "Training has no trainer assigned")
            else
              employee_name <-
                scalar_name (employee_names_of trainer_username d) ;;
              if negb (is_trainer trainer_name trainer_username employee_name)
              then Db.raise (HTTPException 403
                "You can only share assignments for trainings you have scheduled")
              else
                existing_assignment <-
                  Db.scalar_one_or_none
                    (SharedContent.shared_of training_id d) ;;
                match existing_assignment with
                | Some existing =>
                    let updated := overwrite now assignment_data existing in
                    Db.update
                      (Db.set_shared_assignments
                         (map (fun r =>
                                 if SharedAssignment.id r
                                    =? SharedAssignment.id existing
                                 then updated else r))) ;;;
                    Db.commit ;;;
                    Db.ret (response_of updated)
                | None =>
                    let new_assignment :=
                      SharedAssignment.mk
                        (SharedContent.next_id
                           (map SharedAssignment.id (Db.shared_assignments d)))
                        training_id trainer_username
                        (SharedAssignmentCreate.title assignment_data)
                        (SharedAssignmentCreate.description assignment_data)
                        (SharedAssignmentCreate.questions assignment_data)
                        now now in
                    Db.update
                      (Db.set_shared_assignments
                         (fun l => l ++ [new_assignment])%list) ;;;
                    Db.commit ;;;
                    Db.ret (response_of new_assignment)
                end
        end
  end.

(** [get_shared_assignment_for_trainer(training_id, db, current_user)] *)
Definition get_shared_assignment_for_trainer (training_id : Z)
    (current_user : dict string)
  : Db.M (option SharedContent.SharedAssignmentResponse.t) :=
  let username := lookup current_user "username" in
  match username with
  | None => Db.raise (HTTPException 401 "Could not validate credentials")
  | Some trainer_username =>
      if SharedContent.no_username username
      then Db.raise (HTTPException 401 "Could not validate credentials")
      else
        d <- Db.view ;;
        training <- Db.scalar_one_or_none (training_by_id training_id d) ;;
        match training with
        | None => Db.raise (HTTPException 404 "Training not found")
        | Some training =>
            let trainer_name := trainer_name_of training in
            if negb (nonblank trainer_name) then Db.ret None
            else
              employee_name <-
                scalar_name (employee_names_of trainer_username d) ;;
              if negb (is_trainer trainer_name trainer_username employee_name)
              then Db.raise (HTTPException 403
                "You can only check assignments for trainings you have scheduled")
              else
                shared_assignment <-
                  Db.scalar_one_or_none
                    (SharedContent.shared_of training_id d) ;;
                Db.ret (option_map response_of shared_assignment)
        end
  end.

End Routes.

(* ================================================================== *)
(** * backend/main.py: the upload endpoints *)
(* ================================================================== *)

Module Main.
Import Py Models.

(** [s.endswith(suffix)] *)
Fixpoint endswith (s suffix : string) : bool :=
  ((s =? suffix)%string
   || match s with
      | EmptyString => false
      | String _ s' => endswith s' suffix
      end)%bool.

(** The answer of [upload_and_refresh_data]. *)
Module RefreshResponse.
Record t : Type := mk {
  message : string;
  trainers_inserted : Z;
  trainings_inserted : Z;
  employee_competencies_inserted : Z;
  status : string }.
End RefreshResponse.

(** The answer of [upload_manager_employee_csv]. *)
Module CsvResponse.
Record t : Type := mk {
  message : string;
  relationships_inserted : Z;
  status : string }.
End CsvResponse.

(** The two [except] clauses of the endpoints: a [ValueError] becomes the
    answer 400 with its message, any other exception the answer 500. *)
Definition to_http (e : Exn) : Exn :=
  match e with
  | ValueError msg => HTTPException 400 msg
  | _ => HTTPException 500
           ("An internal error occurred: " ++ exn_message e)
  end.

Section Uploads.

Variable to_datetime_date : Value -> Res Value.

(** The number of rows of [employee_competency], a table the endpoint
    only counts. *)
Variable competencies_count : Z.

(** The order in which the CSV loader visits its set of identifiers. *)
Variable set_order : list string -> list string.

(** [upload_and_refresh_data(file)] on the store [d]: the answer or the
    exception raised, and the store when the session is closed. *)
Definition upload_and_refresh_data (filename : string)
    (file : ExcelLoader.Workbook) (d : Db.t)
  : Res RefreshResponse.t * Db.t :=
  if negb (endswith filename ".xlsx" || endswith filename ".xls")%bool
  then (Raise (HTTPException 400
                 "Invalid file type. Please upload an Excel file."), d)
  else
    match ExcelLoader.load_all_from_excel to_datetime_date file (Db.open d)
    with
    | (Ok _, s) =>
        let trainers_count := Z.of_nat (List.length (Db.trainers (Db.pending s))) in
        let trainings_count :=
          Z.of_nat (List.length (Db.training_details (Db.pending s))) in
        (Ok (RefreshResponse.mk
               ("Data from '" ++ filename
                ++ "' has been successfully uploaded and the database has been refreshed.")
               trainers_count trainings_count competencies_count "success"),
         Db.committed s)
    | (Raise e, s) => (Raise (to_http e), Db.committed s)
    end.

(** [upload_manager_employee_csv(file)] on the store [d], when the clock
    reads [now]. *)
Definition upload_manager_employee_csv (now : Z) (filename : string)
    (file : ExcelLoader.Csv) (d : Db.t) : Res CsvResponse.t * Db.t :=
  if negb (endswith filename ".csv")
  then (Raise (HTTPException 400
                 "Invalid file type. Please upload a CSV file."), d)
  else
    match ExcelLoader.load_manager_employee_from_csv set_order now file
            (Db.open d)
    with
    | (Ok _, s) =>
        let total_count :=
          Z.of_nat (List.length (Db.manager_employee (Db.pending s))) in
        (Ok (CsvResponse.mk
               ("Manager-employee data from '" ++ filename
                ++ "' has been successfully uploaded and the database has been refreshed.")
               total_count "success"),
         Db.committed s)
    | (Raise e, s) => (Raise (to_http e), Db.committed s)
    end.

End Uploads.

End Main.

(* ================================================================== *)
(** * backend/app/excel_loader.py: the employee competency loader *)
(* ================================================================== *)

Module Competency.
Import Py ExcelLoader.

(** A row of [employee_competency] (models.py), without its id. *)
Module EmployeeCompetency.
Record t : Type := mk {
  employee_empid : string;
  employee_name : Value;
  department : Value;
  division : Value;
  project : Value;
  role_specific_comp : Value;
  destination : Value;
  competency : Value;
  skill : Value;
  current_expertise : Value;
  target_expertise : Value;
  comments : Value;
  target_date : Value }.
End EmployeeCompetency.

(** The part of the store the loader works on: the rows of the table and
    the name of its foreign key on [employee_empid], when the table has
    one. *)
Record Store : Type := mkStore {
  employee_competency : list EmployeeCompetency.t;
  fk_constraint : option string }.

Record Session : Type := mkSession { committed : Store; pending : Store }.

Definition M (A : Type) : Type := Session -> Res A * Session.

Definition ret {A} (a : A) : M A := fun s => (Ok a, s).

Definition bind {A B} (m : M A) (k : A -> M B) : M B :=
  fun s =>
    match m s with
    | (Ok a, s') => k a s'
    | (Raise e, s') => (Raise e, s')
    end.

Definition raise {A} (e : Exn) : M A := fun s => (Raise e, s).

Definition try_except {A} (m : M A) (handler : Exn -> M A) : M A :=
  fun s =>
    match m s with
    | (Ok a, s') => (Ok a, s')
    | (Raise e, s') => handler e s'
    end.

Definition lift {A} (r : Res A) : M A := fun s => (r, s).

Definition view : M Store := fun s => (Ok (pending s), s).

Definition update (f : Store -> Store) : M unit :=
  fun s => (Ok tt, mkSession (committed s) (f (pending s))).

(** The twelve columns a row takes from cells: eleven [String] columns
    and the [Date] column. *)
Definition competency_typed (r : EmployeeCompetency.t) : bool :=
  (Db.is_text (EmployeeCompetency.employee_name r)
   && Db.is_text (EmployeeCompetency.department r)
   && Db.is_text (EmployeeCompetency.division r)
   && Db.is_text (EmployeeCompetency.project r)
   && Db.is_text (EmployeeCompetency.role_specific_comp r)
   && Db.is_text (EmployeeCompetency.destination r)
   && Db.is_text (EmployeeCompetency.competency r)
   && Db.is_text (EmployeeCompetency.skill r)
   && Db.is_text (EmployeeCompetency.current_expertise r)
   && Db.is_text (EmployeeCompetency.target_expertise r)
   && Db.is_text (EmployeeCompetency.comments r)
   && Db.is_date (EmployeeCompetency.target_date r))%bool.

(** [await db.commit()]: the driver refuses a value that is not of the
    type of its column; no other constraint bears on the rows once the
    foreign key is out of the way. *)
Definition commit : M unit :=
  fun s =>
    if forallb competency_typed (employee_competency (pending s))
    then (Ok tt, mkSession (pending s) (pending s))
    else (Raise (DBAPIError "invalid input for query argument"), s).

Definition rollback : M unit :=
  fun s => (Ok tt, mkSession (committed s) (committed s)).

Definition open (d : Store) : Session := mkSession d d.

Section LoadEmployeeCompetency.

Variable to_datetime_date : Value -> Res Value.

(** The body of the loop over the rows, inside its [try]: the record, or
    [None] for a row without employee id; the date parser may raise. *)
Definition competency_row_body (row_dict : dict Value)
  : Res (option EmployeeCompetency.t) :=
  let employee_empid :=
    find_column_flexible row_dict
      ["employee_id"; "employeeid"; "empid"; "employee_empid"] in
  match (if truthy employee_empid then
           match employee_empid with
           | VFloat x =>
               match int_of_float x with
               | Ok n => Ok (Some (int_str n))
               | Raise e => Raise e
               end
           | _ => Ok (Some (strip (py_str employee_empid)))
           end
         else Ok None) with
  | Raise e => Raise e
  | Ok employee_empid =>
  let employee_name :=
    strip_if_str (find_column_flexible row_dict
      ["employee_name"; "employeename"; "employee name"; "name"]) in
  let division := strip_if_str (find_column_flexible row_dict ["division"]) in
  let department :=
    strip_if_str (find_column_flexible row_dict ["department"]) in
  let project := strip_if_str (find_column_flexible row_dict ["project"]) in
  let role_specific_comp :=
    strip_if_str (find_column_flexible row_dict
      ["role_specific_competency_(mhs)"; "role_specific_competency";
       "role_specific_comp"; "role specific competency (mhs)"]) in
  let destination :=
    strip_if_str (find_column_flexible row_dict
      ["designation"; "destination"; "desination"]) in
  let competency :=
    strip_if_str (find_column_flexible row_dict
      ["competency"; "competence"]) in
  let skill := strip_if_str (find_column_flexible row_dict ["skill"]) in
  let current_expertise :=
    strip_if_str (find_column_flexible row_dict
      ["current_expertise_level"; "current_expertise";
       "current expertise level"; "current expertise"]) in
  let target_expertise :=
    strip_if_str (find_column_flexible row_dict
      ["target_expertise_level"; "target_expertise";
       "target expertise level"; "target expertise"]) in
  let comments :=
    strip_if_str (find_column_flexible row_dict ["comments"; "comment"]) in
  let target_date :=
    find_column_flexible row_dict ["target_date"; "target date"] in
  match (if (notna target_date && truthy target_date)%bool
         then to_datetime_date target_date else Ok VNone) with
  | Raise e => Raise e
  | Ok final_target_date =>
      match employee_empid with
      | None => Ok None
      | Some id =>
          if (id =? "")%string then Ok None
          else Ok (Some (EmployeeCompetency.mk id employee_name department
                           division project role_specific_comp destination
                           competency skill current_expertise
                           target_expertise comments final_target_date))
      end
  end
  end.

(** The mappings [row.to_dict()] gives for the rows of
    [clean_headers(df_raw.replace({np.nan: None})).iterrows()]. *)
Definition iter_records (df_raw : Sheet) : list (dict Value) :=
  to_dict_records (iterrows_values (clean_headers (replace_nan df_raw))).

(** One turn of the loop: the [except] clause skips the row. *)
Definition competency_row (row_dict : dict Value)
  : option EmployeeCompetency.t :=
  match competency_row_body row_dict with
  | Ok r => r
  | Raise _ => None
  end.

Fixpoint competency_rows (rows : list (dict Value))
    (competencies_to_add : list EmployeeCompetency.t) (skipped_count : Z)
  : list EmployeeCompetency.t * Z :=
  match rows with
  | [] => (competencies_to_add, skipped_count)
  | row :: rest =>
      match competency_row row with
      | None => competency_rows rest competencies_to_add (skipped_count + 1)
      | Some r => competency_rows rest (competencies_to_add ++ [r])
                                  skipped_count
      end
  end.

(** [load_employee_competency_from_excel(excel_file_source, db)].  The
    sequence resets and the renumbering of the ids after the commit act
    on the id column only, which no table references. *)
Definition load_employee_competency_from_excel
    (excel_file_source : Workbook) : M unit :=
  try_except
    (bind (update (fun d => mkStore [] (fk_constraint d))) (fun _ =>
     bind (lift (read_excel excel_file_source "Employee Competency"))
          (fun df_raw =>
     bind view (fun d =>
     let constraint_name := fk_constraint d in
     bind (match constraint_name with
           | Some _ =>
               bind (update (fun d => mkStore (employee_competency d) None))
                    (fun _ => commit)
           | None => ret tt
           end) (fun _ =>
     let '(competencies_to_add, skipped_count) :=
       competency_rows (iter_records df_raw) [] 0 in
     bind (if nonempty competencies_to_add
           then update (fun d =>
                          mkStore (employee_competency d
                                   ++ competencies_to_add)%list
                                  (fk_constraint d))
           else raise (ValueError
             "No valid data found in Excel file. All rows were skipped during validation."))
          (fun _ =>
     try_except commit (fun commit_error => raise commit_error)))))))
    (fun e => bind rollback (fun _ => raise e)).

End LoadEmployeeCompetency.

End Competency.

(* ================================================================== *)
(** * The stores the routes lead to *)
(* ================================================================== *)

Module RouteStates.
Import Py Models.

(** The store with one more training assignment, made by [manager]. *)
Definition assigned (assignment : Routes.AssignmentCreate.t)
    (manager : string) (d : Db.t) : Db.t :=
  Db.set_training_assignments
    (fun l => l ++ [TrainingAssignment.mk
                      (Routes.AssignmentCreate.training_id assignment)
                      (Routes.AssignmentCreate.employee_username assignment)
                      manager])%list d.

(** The store with its shared assignments replaced. *)
Definition with_shared (l : list SharedAssignment.t) (d : Db.t) : Db.t :=
  Db.set_shared_assignments (fun _ => l) d.

(** The row a first sharing for a training adds, when the clock reads
    [now]. *)
Definition created (now : Z)
    (assignment_data : Routes.SharedAssignmentCreate.t)
    (trainer_username : string) (d : Db.t) : SharedAssignment.t :=
  SharedAssignment.mk
    (SharedContent.next_id
       (map SharedAssignment.id (Db.shared_assignments d)))
    (Routes.SharedAssignmentCreate.training_id assignment_data)
    trainer_username
    (Routes.SharedAssignmentCreate.title assignment_data)
    (Routes.SharedAssignmentCreate.description assignment_data)
    (Routes.SharedAssignmentCreate.questions assignment_data)
    now now.

(** The table in which the row with the id of [updated] is [updated]. *)
Definition overwritten (updated : SharedAssignment.t)
    (l : list SharedAssignment.t) : list SharedAssignment.t :=
  map (fun r => if SharedAssignment.id r =? SharedAssignment.id updated
                then updated else r) l.

(** The checks of the trainer's routes that come before the shared
    assignment is looked up: one training with the id, a trainer name on
    it, at most one row listing the caller as an employee, and
    [is_trainer]. *)
Definition passes_trainer_checks (training_id : Z)
    (trainer_username : string) (d : Db.t) : bool :=
  match Routes.training_by_id training_id d with
  | [training] =>
      let trainer_name := Routes.trainer_name_of training in
      (Routes.nonblank trainer_name
       && match Routes.employee_names_of trainer_username d with
          | [] => Routes.is_trainer trainer_name trainer_username None
          | [employee_name] =>
              Routes.is_trainer trainer_name trainer_username employee_name
          | _ => false
          end)%bool
  | _ => false
  end.

(** The ids of the shared assignments and the trainings they are for. *)
Definition shared_ids (d : Db.t) : list Z :=
  map SharedAssignment.id (Db.shared_assignments d).

Definition shared_training_ids (d : Db.t) : list Z :=
  map SharedAssignment.training_id (Db.shared_assignments d).

(** The members of a manager's team, as the team listing selects them. *)
Definition team_of (manager : string) (d : Db.t) : list string :=
  map ManagerEmployee.employee_empid
      (filter (fun r => (ManagerEmployee.manager_empid r =? manager)%string)
              (Db.manager_employee d)).

End RouteStates.

(* ================================================================== *)
(** * Further concrete files, stores and requests *)
(* ================================================================== *)

Module Cases.
Import Py Models.

(** A workbook whose competency sheet has one row, with the given
    employee id cell. *)
Definition competency_workbook (employee_id : Value)
  : ExcelLoader.Workbook :=
  [("Employee Competency",
    ExcelLoader.mkSheet
      ["Employee ID"; "Employee Name"; "Skill"]
      [[employee_id; VStr "Eve"; VStr "Python"]])].

(** A competency table of one row, with its foreign key in place. *)
Definition competency_store : Competency.Store :=
  Competency.mkStore
    [Competency.EmployeeCompetency.mk "E100" (VStr "Eve") VNone VNone VNone
       VNone VNone VNone (VStr "SQL") VNone VNone VNone VNone]
    (Some "employee_competency_employee_empid_fkey").

(** The store of [Scenario.store] without submission: training 1 is
    given by T1 and its shared assignment holds [key]. *)
Definition training_store (key : list AssignmentQuestion.t) : Db.t :=
  Scenario.store key [].

(** The same store before E100 is assigned the training. *)
Definition unassigned_store (key : list AssignmentQuestion.t) : Db.t :=
  Db.set_training_assignments (fun _ => []) (training_store key).

Definition manager : dict string := [("username", "M1")].

Definition other_manager : dict string := [("username", "T1")].

Definition trainer : dict string := [("username", "T1")].

Definition assign_e100 : Routes.AssignmentCreate.t :=
  Routes.AssignmentCreate.mk 1 "E100".

Definition share_quiz (questions : list AssignmentQuestion.t)
  : Routes.SharedAssignmentCreate.t :=
  Routes.SharedAssignmentCreate.mk 1 "Quiz 2" (Some "second edition")
                                   questions.

Definition submit_first : SharedContent.AssignmentSubmissionCreate.t :=
  SharedContent.AssignmentSubmissionCreate.mk 1 7 [Scenario.pick_first 0].

(** The store of [training_store] in which the trainer T1 is listed as an
    employee under two managers. *)
Definition two_manager_store : Db.t :=
  Db.set_manager_employee
    (fun l => l ++ [ManagerEmployee.mk "M1" (Some "Mia") "T1" (Some "Tom")
                      false true;
                    ManagerEmployee.mk "E100" (Some "Eve") "T1" (Some "Tom")
                      false true])%list
    (training_store []).

End Cases.

(* ================================================================== *)
(** * Properties of the column resolver *)
(* ================================================================== *)

Example training_name_header :
  ExcelLoader.clean_header "Training Name" = "training_name".
Proof. reflexivity. Qed.

Section ResolverFacts.
Import ExcelLoader ResolverSpec.

Lemma lookup_set {A} (d : dict A) (k s : string) (v : A) :
  lookup (set d k v) s = if (k =? s)%string then Some v else lookup d s.
Proof.
  induction d as [|[k' v'] d IH]; simpl.
  - reflexivity.
  - destruct (String.eqb_spec k' k) as [->|Hne]; simpl.
    + destruct (k =? s)%string; reflexivity.
    + rewrite IH. destruct (String.eqb_spec k' s) as [->|Hne'].
      * apply String.eqb_neq in Hne. rewrite String.eqb_sym in Hne.
        now rewrite Hne.
      * reflexivity.
Qed.

Lemma mem_exact_match (row : dict Value) (c : string) :
  mem row c = exact_match row c.
Proof.
  unfold mem, exact_match, keys.
  induction row as [|[k v] row IH]; simpl.
  - reflexivity.
  - destruct (k =? c)%string; simpl; [reflexivity | exact IH].
Qed.

Lemma exact_pass_find (row : dict Value) (cands : list string) :
  exact_pass row cands =
  option_map (get row) (find (exact_match row) cands).
Proof.
  induction cands as [|c cands IH]; simpl.
  - reflexivity.
  - rewrite mem_exact_match. destruct (exact_match row c); simpl; auto.
Qed.

Lemma find_app {A} (f : A -> bool) (l1 l2 : list A) :
  find f (l1 ++ l2) =
  match find f l1 with Some x => Some x | None => find f l2 end.
Proof.
  induction l1 as [|x l1 IH]; simpl; [reflexivity|].
  destruct (f x); auto.
Qed.

Lemma find_map {A B} (f : B -> bool) (g : A -> B) (l : list A) :
  find f (map g l) = option_map g (find (fun x => f (g x)) l).
Proof.
  induction l as [|x l IH]; simpl; [reflexivity|].
  destruct (f (g x)); auto.
Qed.

Lemma find_rev_none {A} (f : A -> bool) (l : list A) :
  find f (rev l) = None <-> existsb f l = false.
Proof.
  induction l as [|x l IH]; simpl.
  - tauto.
  - rewrite find_app. simpl. destruct (find f (rev l)) eqn:E.
    + split; [discriminate|]. intros H.
      apply orb_false_elim in H. destruct H as [_ H].
      apply IH in H. discriminate.
    + destruct (f x); simpl; [split; discriminate|].
      split; intros _; [now apply IH | reflexivity].
Qed.

(** The key the lower-cased index holds for a name: the last header
    equal to it up to case. *)
Lemma row_keys_lower_lookup (ks : list string) (d : dict string)
      (s : string) :
  lookup (fold_left (fun d k => set d (lower k) k) ks d) s =
  match find (fun h => (lower h =? s)%string) (rev ks) with
  | Some h => Some h
  | None => lookup d s
  end.
Proof.
  revert d. induction ks as [|k ks IH]; intros d; simpl.
  - reflexivity.
  - rewrite IH, find_app. simpl.
    destruct (find _ (rev ks)); [reflexivity|].
    rewrite lookup_set. destruct (lower k =? s)%string; reflexivity.
Qed.

Lemma lower_pass_find (row : dict Value) (cands : list string) :
  lower_pass row cands =
  match find (ci_match row) cands with
  | Some c => option_map (get row) (find (ci_equal c) (rev (keys row)))
  | None => None
  end.
Proof.
  induction cands as [|c cands IH]; simpl.
  - reflexivity.
  - unfold row_keys_lower. rewrite row_keys_lower_lookup. simpl.
    unfold ci_match at 1.
    destruct (find (fun h => (lower h =? lower c)%string) (rev (keys row)))
      as [h|] eqn:E.
    + destruct (existsb (ci_equal c) (keys row)) eqn:Ex.
      * unfold ci_equal at 1. rewrite E. reflexivity.
      * apply find_rev_none in Ex. unfold ci_equal in Ex at 1.
        rewrite E in Ex. discriminate.
    + apply find_rev_none in E. unfold ci_equal at 1. rewrite E.
      exact IH.
Qed.

End ResolverFacts.

Section ResolverRefinement.
Import ExcelLoader ResolverSpec.

Lemma gate_substring_match (name key : string) :
  ((str_in (lower name) (lower key) || str_in (lower key) (lower name))
   && ((3 <? len name)
       || ((len name <=? 3) && (lower name =? lower key)%string)))%bool
  = substring_match name key.
Proof.
  unfold substring_match, ci_equal. f_equal.
  rewrite (String.eqb_sym (lower key)).
  destruct (Z.leb_spec (len name) 3) as [H|H].
  - apply Z.ltb_ge in H. rewrite H. reflexivity.
  - apply Z.ltb_lt in H. rewrite H. reflexivity.
Qed.

Lemma partial_keys_find (row : dict Value) (name : string)
      (ks : list string) :
  partial_keys row name ks =
  option_map (get row) (find (substring_match name) ks).
Proof.
  induction ks as [|key ks IH]; simpl.
  - reflexivity.
  - rewrite <- gate_substring_match.
    destruct (str_in (lower name) (lower key)
              || str_in (lower key) (lower name))%bool; simpl.
    + destruct ((3 <? len name)
                || ((len name <=? 3) && (lower name =? lower key)%string))%bool;
        simpl; [reflexivity | exact IH].
    + exact IH.
Qed.

Lemma partial_pass_find (row : dict Value) (cands : list string) :
  partial_pass row cands =
  option_map (fun ch => get row (snd ch))
    (find (fun ch => substring_match (fst ch) (snd ch))
          (pairs cands (keys row))).
Proof.
  induction cands as [|c cands IH]; simpl.
  - reflexivity.
  - rewrite partial_keys_find, find_app, find_map. simpl.
    destruct (find (substring_match c) (keys row)); simpl;
      [reflexivity | exact IH].
Qed.

(** The resolver of the source computes the three-pass resolution. *)
Lemma find_column_flexible_resolve (row : dict Value)
      (cands : list string) :
  find_column_flexible row cands = value_of (resolve row cands).
Proof.
  unfold find_column_flexible, resolve.
  rewrite exact_pass_find, lower_pass_find, partial_pass_find.
  destruct (find (exact_match row) cands); simpl; [reflexivity|].
  destruct (find (ci_match row) cands) as [c|] eqn:E; simpl.
  - destruct (find (ci_equal c) (rev (keys row))) eqn:E'; [reflexivity|].
    apply find_some in E. destruct E as [_ E].
    apply find_rev_none in E'. unfold ci_match in E. congruence.
  - destruct (find _ (pairs cands (keys row))) as [[c h]|]; reflexivity.
Qed.

(** What each verdict of [resolve] means. *)
Lemma resolve_exact (row : dict Value) (cands : list string) (v : Value) :
  resolve row cands = ByExact v ->
  exists c, In c cands /\ In c (keys row) /\ v = get row c.
Proof.
  unfold resolve. destruct (find (exact_match row) cands) as [c|] eqn:E.
  - intros H. injection H as <-. apply find_some in E. destruct E as [Hc Hm].
    exists c. split; [exact Hc|]. split; [|reflexivity].
    unfold exact_match in Hm. apply existsb_exists in Hm.
    destruct Hm as [h [Hh Heq]]. apply String.eqb_eq in Heq. now subst.
  - destruct (find (ci_match row) cands) as [c|].
    + destruct (find (ci_equal c) (rev (keys row))); discriminate.
    + destruct (find _ (pairs cands (keys row))) as [[c h]|]; discriminate.
Qed.

Lemma no_exact (row : dict Value) (cands : list string) :
  find (exact_match row) cands = None -> no_exact_hit row cands.
Proof.
  intros E c Hc Hk. apply (find_none _ _ E) in Hc.
  unfold exact_match in Hc.
  assert (existsb (fun h => (h =? c)%string) (keys row) = true) as Ht.
  { apply existsb_exists. exists c. split; [exact Hk|].
    apply String.eqb_refl. }
  congruence.
Qed.

Lemma resolve_case_insensitive (row : dict Value) (cands : list string)
      (v : Value) :
  resolve row cands = ByCaseInsensitive v ->
  no_exact_hit row cands
  /\ exists c h, In c cands /\ In h (keys row)
                 /\ ci_hit c h /\ v = get row h.
Proof.
  unfold resolve. destruct (find (exact_match row) cands) eqn:E;
    [discriminate|].
  destruct (find (ci_match row) cands) as [c|] eqn:E2.
  - destruct (find (ci_equal c) (rev (keys row))) as [h|] eqn:E3;
      [|discriminate].
    intros H. injection H as <-. split; [now apply no_exact|].
    apply find_some in E2. apply find_some in E3.
    destruct E2 as [Hc _]. destruct E3 as [Hh Heq].
    exists c, h. rewrite <- in_rev in Hh. unfold ci_equal in Heq.
    apply String.eqb_eq in Heq. auto.
  - destruct (find _ (pairs cands (keys row))) as [[c h]|]; discriminate.
Qed.

Lemma no_case_insensitive (row : dict Value) (cands : list string) :
  find (ci_match row) cands = None -> no_ci_hit row cands.
Proof.
  intros E c h Hc Hh Heq. apply (find_none _ _ E) in Hc.
  assert (ci_match row c = true) as Ht.
  { apply existsb_exists. exists h. split; [exact Hh|].
    unfold ci_equal. now apply String.eqb_eq. }
  congruence.
Qed.

Lemma in_pairs (cands hs : list string) (c h : string) :
  In (c, h) (pairs cands hs) <-> In c cands /\ In h hs.
Proof.
  unfold pairs. rewrite in_flat_map. split.
  - intros [c' [Hc Hin]]. apply in_map_iff in Hin.
    destruct Hin as [h' [Heq Hh]]. injection Heq as -> ->. auto.
  - intros [Hc Hh]. exists c. split; [exact Hc|].
    apply in_map_iff. exists h. auto.
Qed.

End ResolverRefinement.

Section ResolverVerdicts.
Import ExcelLoader ResolverSpec.

Lemma substring_match_hit (c h : string) :
  substring_match c h = true <-> substring_hit c h.
Proof.
  unfold substring_match, substring_hit, ci_equal.
  rewrite andb_true_iff, orb_true_iff.
  destruct (Z.leb_spec (len c) 3) as [H|H].
  - rewrite String.eqb_eq. split.
    + intros [Hs He]. split; [exact Hs|]. intros _. now symmetry.
    + intros [Hs He]. split; [exact Hs|]. symmetry. now apply He.
  - split.
    + intros [Hs _]. split; [exact Hs|]. lia.
    + intros [Hs _]. split; [exact Hs | reflexivity].
Qed.

Lemma resolve_substring (row : dict Value) (cands : list string)
      (v : Value) :
  resolve row cands = BySubstring v ->
  no_exact_hit row cands /\ no_ci_hit row cands
  /\ exists c h, In c cands /\ In h (keys row)
                 /\ substring_hit c h /\ v = get row h.
Proof.
  unfold resolve. destruct (find (exact_match row) cands) eqn:E;
    [discriminate|].
  destruct (find (ci_match row) cands) as [c|] eqn:E2.
  - destruct (find (ci_equal c) (rev (keys row))); discriminate.
  - destruct (find _ (pairs cands (keys row))) as [[c h]|] eqn:E3;
      [|discriminate].
    intros H. injection H as <-.
    split; [now apply no_exact|]. split; [now apply no_case_insensitive|].
    apply find_some in E3. destruct E3 as [Hin Hm]. simpl in Hm.
    apply in_pairs in Hin. destruct Hin as [Hc Hh].
    exists c, h. rewrite <- substring_match_hit. auto.
Qed.

Lemma resolve_absent (row : dict Value) (cands : list string) :
  resolve row cands = Absent ->
  no_exact_hit row cands /\ no_ci_hit row cands
  /\ no_substring_hit row cands.
Proof.
  unfold resolve. destruct (find (exact_match row) cands) eqn:E;
    [discriminate|].
  destruct (find (ci_match row) cands) as [c|] eqn:E2.
  - destruct (find (ci_equal c) (rev (keys row))) eqn:E3; [discriminate|].
    apply find_some in E2. destruct E2 as [_ E2].
    apply find_rev_none in E3. unfold ci_match in E2. congruence.
  - destruct (find _ (pairs cands (keys row))) as [[c h]|] eqn:E3;
      [discriminate|].
    intros _. split; [now apply no_exact|].
    split; [now apply no_case_insensitive|].
    intros c h Hc Hh Hhit. apply substring_match_hit in Hhit.
    assert (In (c, h) (pairs cands (keys row))) as Hin
      by (apply in_pairs; auto).
    apply (find_none _ _ E3) in Hin. simpl in Hin. congruence.
Qed.

End ResolverVerdicts.

(** C7.  The column resolver applies three passes in strict precedence:
    an exact key match; failing that, a match up to case; failing that, a
    substring match in either direction, in which a candidate of at most
    three characters only matches a header equal to it up to case; and it
    returns [None] when no pass matches.  With the header "Training Name"
    cleaned to [training_name] the candidates
    [trainingname_program, training_name] resolve in the exact pass, with
    the header "Program" in the substring pass, and the candidate [skill]
    against the header [id] resolves to nothing. *)
Theorem find_column_flexible_three_passes :
  (forall (row : dict Value) (cands : list string),
      let r := ExcelLoader.find_column_flexible row cands in
      (exists c, In c cands /\ ResolverSpec.exact_hit row c /\ r = get row c)
      \/ (ResolverSpec.no_exact_hit row cands
          /\ exists c h, In c cands /\ In h (keys row)
                         /\ ResolverSpec.ci_hit c h /\ r = get row h)
      \/ (ResolverSpec.no_exact_hit row cands
          /\ ResolverSpec.no_ci_hit row cands
          /\ exists c h, In c cands /\ In h (keys row)
                         /\ ResolverSpec.substring_hit c h /\ r = get row h)
      \/ (ResolverSpec.no_exact_hit row cands
          /\ ResolverSpec.no_ci_hit row cands
          /\ ResolverSpec.no_substring_hit row cands
          /\ r = VNone))
  /\ (forall v : Value,
         let row := [(ExcelLoader.clean_header "Training Name", v)] in
         let cands := ["trainingname_program"; "training_name"] in
         ExcelLoader.exact_pass row cands = Some v
         /\ ExcelLoader.find_column_flexible row cands = v)
  /\ (forall v : Value,
         let row := [(ExcelLoader.clean_header "Program", v)] in
         let cands := ["trainingname_program"; "training_name"] in
         ExcelLoader.exact_pass row cands = None
         /\ ExcelLoader.lower_pass row cands = None
         /\ ExcelLoader.partial_pass row cands = Some v
         /\ ExcelLoader.find_column_flexible row cands = v)
  /\ (forall v : Value,
         ExcelLoader.find_column_flexible [("id", v)] ["skill"] = VNone).
Proof.
  split; [|repeat split; reflexivity].
  intros row cands r. subst r.
  rewrite find_column_flexible_resolve.
  destruct (ResolverSpec.resolve row cands) as [v|v|v|] eqn:E; simpl.
  - left. apply resolve_exact in E. exact E.
  - right. left. apply resolve_case_insensitive in E. exact E.
  - right. right. left. apply resolve_substring in E. exact E.
  - right. right. right. apply resolve_absent in E.
    destruct E as [H1 [H2 H3]]. auto.
Qed.

(* ================================================================== *)
(** * Properties of the grader *)
(* ================================================================== *)

Section GraderFacts.
Import SharedContent GraderSpec.






End GraderFacts.

Section GradingRules.
Import SharedContent GraderSpec.





(** The denominator is the length of the key. *)
Lemma grade_total (questions : list AssignmentQuestion.t)
      (answers : list AnswerSubmission.t) (total correct score : Z)
      (results : list QuestionResult.t) :
  grade questions answers = Ok (total, correct, score, results) ->
  total = Z.of_nat (List.length questions).
Proof.
  unfold grade.
  destruct (evaluate_answers questions answers 0 []) as [[c r]|e];
    [|discriminate].
  destruct (compute_score c (Z.of_nat (List.length questions)));
    [|discriminate].
  intros H. injection H as <- _ _ _. reflexivity.
Qed.

End GradingRules.

Section GradingAll.
Import SharedContent GraderSpec.




End GradingAll.



(* ================================================================== *)
(** * Question indices outside the key *)
(* ================================================================== *)

(** An answer whose index is at or past the end of the key is skipped by
    the loop: neither the count nor the results change. *)
Lemma evaluate_answers_past_end (questions : list AssignmentQuestion.t)
      (answer : AnswerSubmission.t) (rest : list AnswerSubmission.t)
      (correct_count : Z) (results : list SharedContent.QuestionResult.t) :
  Z.of_nat (List.length questions) <= AnswerSubmission.questionIndex answer ->
  SharedContent.evaluate_answers questions (answer :: rest)
                                 correct_count results
  = SharedContent.evaluate_answers questions rest correct_count results.
Proof.
  intros H. simpl.
  assert ((AnswerSubmission.questionIndex answer
           >=? Z.of_nat (List.length questions)) = true) as ->.
  { rewrite Z.geb_leb. apply Z.leb_le. exact H. }
  reflexivity.
Qed.

(** C6.  On a key of one question, the answer with question index -1 is
    not dropped: it is graded against the last question and counted as
    correct, giving the score 100; and the answer with question index -2
    makes the grading raise [IndexError]. *)
Theorem negative_question_index_not_dropped :
  SharedContent.grade [Scenario.q_single] [Scenario.pick_first (-1)]
  = Ok (1, 1, 100,
        [SharedContent.QuestionResult.mk (-1) true [0] [0] None])
  /\ SharedContent.grade [Scenario.q_single] [Scenario.pick_first (-2)]
     = Raise IndexError
  /\ SharedContent.grade [Scenario.q_single] [Scenario.pick_first 1]
     = Ok (1, 0, 0, []).
Proof. repeat split; vm_compute; reflexivity. Qed.

(* ================================================================== *)
(** * The score *)
(* ================================================================== *)

(** With no question in the key the score is 0 and nothing is divided. *)
Lemma compute_score_no_questions (correct_count : Z) :
  SharedContent.compute_score correct_count 0 = Ok 0.
Proof. reflexivity. Qed.

(** C4.  With 29 correct answers out of 50 questions the score computed
    by the source is 57, where floor(100 * 29 / 50) is 58: the quotient
    29 / 50 is rounded to a double before it is multiplied by 100 and
    truncated.  With no question the score is 0. *)
Theorem score_29_of_50_is_57 :
  SharedContent.compute_score 29 50 = Ok 57
  /\ GraderSpec.exact_score 29 50 = 58
  /\ match SharedContent.grade Scenario.key50 Scenario.answers29 with
     | Ok (total, correct, score, _) =>
         total = 50 /\ correct = 29 /\ score = 57
     | Raise _ => False
     end
  /\ (forall correct_count,
         SharedContent.compute_score correct_count 0 = Ok 0).
Proof.
  split; [vm_compute; reflexivity|].
  split; [vm_compute; reflexivity|].
  split; [vm_compute; repeat split; reflexivity|].
  exact compute_score_no_questions.
Qed.

(** C5.  On a key of one question, a submission that answers question 0
    twice, correctly, is accepted and stored with the score 200. *)
Theorem repeated_answer_score_200 :
  let submission :=
    SharedContent.AssignmentSubmissionCreate.mk 1 7
      [Scenario.pick_first 0; Scenario.pick_first 0] in
  let run :=
    SharedContent.submit_assignment 40 submission Scenario.employee
      (Db.open (Scenario.store [Scenario.q_single] [])) in
  Py.is_ok (fst run) = true
  /\ map (fun r => (Models.AssignmentSubmission.score r,
                    Models.AssignmentSubmission.total_questions r,
                    Models.AssignmentSubmission.correct_answers r))
         (Db.assignment_submissions (Db.committed (snd run)))
     = [(200, 1, 2)].
Proof. split; vm_compute; reflexivity. Qed.

(* ================================================================== *)
(** * Retrieval of a stored result *)
(* ================================================================== *)

(** Sorting keeps the number of rows. *)
Lemma insert_desc_length (r : Models.AssignmentSubmission.t)
      (l : list Models.AssignmentSubmission.t) :
  List.length (SharedContent.insert_desc r l) = S (List.length l).
Proof.
  induction l as [|x l IH]; simpl; [reflexivity|].
  destruct (_ <? _); simpl; [reflexivity | now rewrite IH].
Qed.

Lemma order_by_length (l : list Models.AssignmentSubmission.t) :
  List.length (SharedContent.order_by_submitted_at_desc l) = List.length l.
Proof.
  unfold SharedContent.order_by_submitted_at_desc.
  induction l as [|x l IH]; simpl; [reflexivity|].
  now rewrite insert_desc_length, IH.
Qed.

(** Two rows or more make [scalar_one_or_none] raise. *)
Lemma scalar_one_or_none_many {A} (rows : list A) (s : Db.Session) :
  (2 <= List.length rows)%nat ->
  Db.scalar_one_or_none rows s = (Raise MultipleResultsFound, s).
Proof.
  destruct rows as [|a [|b rows]]; simpl; intros H; try lia. reflexivity.
Qed.

(** C9.  When two submissions of the employee exist for the shared
    assignment, retrieving the result raises [MultipleResultsFound]; with
    one submission it returns that submission. *)
Theorem two_submissions_result_raises :
  fst (SharedContent.get_assignment_result 1 Scenario.employee
         (Db.open (Scenario.store [Scenario.q_single]
                     [Scenario.first_attempt; Scenario.second_attempt])))
  = Raise MultipleResultsFound
  /\ fst (SharedContent.get_assignment_result 1 Scenario.employee
            (Db.open (Scenario.store [Scenario.q_single]
                        [Scenario.first_attempt])))
     = Ok (Some (SharedContent.AssignmentResultResponse.mk 1 1 100 1 1
                   [SharedContent.QuestionResult.mk 0 true [0] [0] None]
                   20)).
Proof. split; vm_compute; reflexivity. Qed.

(** The same, for any store: whenever the employee has two or more
    submissions for the shared assignment of an assigned training, the
    retrieval raises. *)
Lemma get_assignment_result_many_raises (d : Db.t) (training_id : Z)
      (current_user : dict string) (employee : string)
      (a : Models.TrainingAssignment.t) (sa : Models.SharedAssignment.t) :
  lookup current_user "username" = Some employee ->
  employee <> "" ->
  SharedContent.assignments_of training_id employee d = [a] ->
  SharedContent.shared_of training_id d = [sa] ->
  (2 <= List.length
          (SharedContent.submissions_of training_id employee
             (Models.SharedAssignment.id sa) d))%nat ->
  SharedContent.get_assignment_result training_id current_user (Db.open d)
  = (Raise MultipleResultsFound, Db.open d).
Proof.
  intros Hu Hne Ha Hs Hm. unfold SharedContent.get_assignment_result.
  rewrite Hu. simpl. apply String.eqb_neq in Hne. rewrite Hne.
  unfold Db.bind, Db.view. simpl. rewrite Ha, Hs. simpl.
  rewrite scalar_one_or_none_many; [reflexivity|].
  now rewrite order_by_length.
Qed.

(* ================================================================== *)
(** * What the employee sees of the key *)
(* ================================================================== *)

(** The retrieval for an assigned employee, on any store. *)
Lemma get_shared_assignment_assigned (d : Db.t) (training_id : Z)
      (current_user : dict string) (employee : string)
      (a : Models.TrainingAssignment.t) (sa : Models.SharedAssignment.t) :
  lookup current_user "username" = Some employee ->
  employee <> "" ->
  SharedContent.assignments_of training_id employee d = [a] ->
  SharedContent.shared_of training_id d = [sa] ->
  SharedContent.get_shared_assignment training_id current_user (Db.open d)
  = (Ok (Some (SharedContent.SharedAssignmentResponse.mk
                 (Models.SharedAssignment.id sa)
                 (Models.SharedAssignment.training_id sa)
                 (Models.SharedAssignment.trainer_username sa)
                 (Models.SharedAssignment.title sa)
                 (Models.SharedAssignment.description sa)
                 (Models.SharedAssignment.assignment_data sa)
                 (Models.SharedAssignment.created_at sa)
                 (Models.SharedAssignment.updated_at sa))),
     Db.open d).
Proof.
  intros Hu Hne Ha Hs. unfold SharedContent.get_shared_assignment.
  rewrite Hu. simpl. apply String.eqb_neq in Hne. rewrite Hne.
  unfold Db.bind, Db.view. simpl. rewrite Ha, Hs. reflexivity.
Qed.

(** C3, as stated, fails: two keys that differ only in the correctness
    flags of their options give the assigned employee, who has not
    submitted, two different responses, and the response carries the
    flags. *)
Lemma answer_key_flags_exposed :
  let d1 := Scenario.store [Scenario.q_single] [] in
  let d2 := Scenario.store [Scenario.q_single_flipped] [] in
  GraderSpec.same_up_to_flags [Scenario.q_single] [Scenario.q_single_flipped]
  /\ Db.assignment_submissions d1 = []
  /\ fst (SharedContent.get_shared_assignment 1 Scenario.employee (Db.open d1))
     <> fst (SharedContent.get_shared_assignment 1 Scenario.employee
               (Db.open d2))
  /\ fst (SharedContent.get_shared_assignment 1 Scenario.employee (Db.open d1))
     = Ok (Some (SharedContent.SharedAssignmentResponse.mk 7 1 "T1" "Quiz"
                   (Some "")
                   [AssignmentQuestion.mk "2 + 2 = ?" (Some "") "single-choice"
                      [AssignmentQuestionOption.mk "4" true;
                       AssignmentQuestionOption.mk "5" false]]
                   10 10)).
Proof.
  repeat split; try reflexivity.
  vm_compute. intros H. discriminate H.
Qed.

(** C3, amended.  For an employee assigned to a training that has a
    shared assignment, the retrieval returns the questions as they are
    stored in the key, correctness flags included, whether or not the
    employee has submitted; two such responses are equal only if the two
    keys are equal, flags included. *)
Theorem get_shared_assignment_returns_key :
  forall (d : Db.t) (training_id : Z) (current_user : dict string)
         (employee : string) (a : Models.TrainingAssignment.t)
         (sa : Models.SharedAssignment.t),
    lookup current_user "username" = Some employee ->
    employee <> "" ->
    SharedContent.assignments_of training_id employee d = [a] ->
    SharedContent.shared_of training_id d = [sa] ->
    (exists response,
        fst (SharedContent.get_shared_assignment training_id current_user
               (Db.open d)) = Ok (Some response)
        /\ SharedContent.SharedAssignmentResponse.questions response
           = Models.SharedAssignment.assignment_data sa)
    /\ (forall (d' : Db.t) (a' : Models.TrainingAssignment.t)
               (sa' : Models.SharedAssignment.t),
           SharedContent.assignments_of training_id employee d' = [a'] ->
           SharedContent.shared_of training_id d' = [sa'] ->
           fst (SharedContent.get_shared_assignment training_id current_user
                  (Db.open d))
           = fst (SharedContent.get_shared_assignment training_id current_user
                    (Db.open d')) ->
           Models.SharedAssignment.assignment_data sa
           = Models.SharedAssignment.assignment_data sa').
Proof.
  intros d training_id current_user employee a sa Hu Hne Ha Hs. split.
  - rewrite (get_shared_assignment_assigned _ _ _ _ _ _ Hu Hne Ha Hs).
    simpl. eexists. split; reflexivity.
  - intros d' a' sa' Ha' Hs'.
    rewrite (get_shared_assignment_assigned _ _ _ _ _ _ Hu Hne Ha Hs).
    rewrite (get_shared_assignment_assigned _ _ _ _ _ _ Hu Hne Ha' Hs').
    simpl. intros H. injection H as _ _ _ _ _ Hq _ _. exact Hq.
Qed.

Lemma get_shared_assignment_returns_key_witness :
  let d := Scenario.store [Scenario.q_single] [] in
  let a := Models.TrainingAssignment.mk 1 "E100" "M1" in
  let sa := Models.SharedAssignment.mk 7 1 "T1" "Quiz" (Some "")
              [Scenario.q_single] 10 10 in
  lookup Scenario.employee "username" = Some "E100"
  /\ "E100" <> ""
  /\ SharedContent.assignments_of 1 "E100" d = [a]
  /\ SharedContent.shared_of 1 d = [sa]
  /\ exists response,
      fst (SharedContent.get_shared_assignment 1 Scenario.employee
             (Db.open d)) = Ok (Some response)
      /\ SharedContent.SharedAssignmentResponse.questions response
         = [Scenario.q_single].
Proof.
  intros d a sa.
  assert ("E100" <> "") as Hne by discriminate.
  split; [reflexivity|]. split; [exact Hne|].
  split; [reflexivity|]. split; [reflexivity|].
  exact (proj1 (get_shared_assignment_returns_key
                  d 1 Scenario.employee "E100" a sa
                  eq_refl Hne eq_refl eq_refl)).
Defined.

(* ================================================================== *)
(** * Imports without a valid row *)
(* ================================================================== *)

Section ExcelRollback.
Import ExcelLoader ExcelImport.
Variable to_datetime_date : Value -> Res Value.

Lemma nonempty_false {A} (l : list A) : nonempty l = false -> l = [].
Proof. destruct l; simpl; [reflexivity | discriminate]. Qed.

(** The outcome of the Excel loader, step by step. *)
Lemma load_all_from_excel_run (wb : Workbook) (d : Db.t) :
  load_all_from_excel to_datetime_date wb (Db.open d) =
  if blocked d
  then (Raise (IntegrityError "constraint violated"), Db.open d)
  else
    match read_excel wb "Trainers Details" with
    | Raise e => (Raise e, Db.open d)
    | Ok df1 =>
        match read_excel wb "Training Details" with
        | Raise e => (Raise e, Db.open d)
        | Ok df2 =>
            match training_rows to_datetime_date (to_records df2) [] 0 with
            | Raise e => (Raise e, Db.open d)
            | Ok (trainings, _) =>
                let trainers := fst (trainer_rows (to_records df1) [] 0) in
                if (negb (nonempty trainers) && negb (nonempty trainings))%bool
                then (Raise (ValueError
                        "No valid data found in Excel file. All rows were skipped during validation."),
                      Db.open d)
                else
                  let d' := imported trainers trainings d in
                  match Db.flush_error d' with
                  | None => (Ok tt, Db.open d')
                  | Some e => (Raise e, Db.open d)
                  end
            end
        end
    end.
Proof.
  unfold load_all_from_excel, Db.try_except, Db.bind, Db.update,
    Db.delete_training_details, Db.lift, Db.raise, Db.ret, Db.rollback,
    Db.commit, Db.open, blocked.
  cbn [Db.pending Db.committed].
  destruct (Db.training_referenced _); [reflexivity|].
  destruct (read_excel wb "Trainers Details") as [df1|e1]; [|reflexivity].
  destruct (trainer_rows (to_records df1) [] 0) as [trainers_to_add n1].
  destruct (read_excel wb "Training Details") as [df2|e2]; [|reflexivity].
  destruct (training_rows to_datetime_date (to_records df2) [] 0)
    as [[trainings n2]|e3]; [|reflexivity].
  cbn [fst Db.pending Db.committed]. unfold imported.
  destruct (nonempty trainers_to_add) eqn:N1,
           (nonempty trainings) eqn:N2; cbn [negb andb];
    try (apply nonempty_false in N1; subst trainers_to_add);
    try (apply nonempty_false in N2; subst trainings);
    try reflexivity;
    cbn [Db.pending Db.committed];
    match goal with
    | |- context [match Db.flush_error ?x with _ => _ end] =>
        match goal with
        | |- _ = match Db.flush_error ?y with _ => _ end =>
            change x with y; destruct (Db.flush_error y); reflexivity
        end
    end.
Qed.

(** Whenever the Excel loader raises, the session is back on the store
    the import started from. *)
Lemma load_all_from_excel_raise_restores (wb : Workbook) (d : Db.t)
      (e : Exn) (s' : Db.Session) :
  load_all_from_excel to_datetime_date wb (Db.open d) = (Raise e, s') ->
  s' = Db.open d.
Proof.
  rewrite load_all_from_excel_run.
  destruct (blocked d); [intros H; now injection H as _ <-|].
  destruct (read_excel wb "Trainers Details") as [df1|e1];
    [|intros H; now injection H as _ <-].
  destruct (read_excel wb "Training Details") as [df2|e2];
    [|intros H; now injection H as _ <-].
  destruct (training_rows to_datetime_date (to_records df2) [] 0)
    as [[trainings n2]|e3]; [|intros H; now injection H as _ <-].
  cbv zeta.
  destruct (negb _ && negb _)%bool; [intros H; now injection H as _ <-|].
  destruct (Db.flush_error _); [|discriminate].
  intros H; now injection H as _ <-.
Qed.

(** With both sheets present and every row of both skipped, the Excel
    loader raises its "no valid data" error, unless the deletion of the
    trainings has been refused before. *)
Lemma load_all_from_excel_no_valid_row (wb : Workbook) (d : Db.t)
      (df1 df2 : Sheet) (n1 n2 : Z) :
  blocked d = false ->
  read_excel wb "Trainers Details" = Ok df1 ->
  read_excel wb "Training Details" = Ok df2 ->
  trainer_rows (to_records df1) [] 0 = ([], n1) ->
  training_rows to_datetime_date (to_records df2) [] 0 = Ok ([], n2) ->
  load_all_from_excel to_datetime_date wb (Db.open d)
  = (Raise (ValueError
       "No valid data found in Excel file. All rows were skipped during validation."),
     Db.open d).
Proof.
  intros Hb H1 H2 H3 H4. rewrite load_all_from_excel_run.
  rewrite Hb, H1, H2, H4, H3. reflexivity.
Qed.

End ExcelRollback.

(** C2.  The CSV import whose only row names the new manager M2 and no
    employee has no valid row and fails with the "no valid data" error,
    yet the relationship that was in the table before the import is gone
    from the store and the user M2 has been added: the commit of the new
    user accounts also committed the clearing of the table, and the
    rollback that follows the error restores nothing. *)
Theorem csv_import_without_valid_row_clears_table :
  let d := Scenario.store [] [] in
  let run :=
    ExcelLoader.load_manager_employee_from_csv Scenario.insertion_order 50
      Scenario.csv_no_employee (Db.open d) in
  fst (ExcelLoader.manager_employee_rows
         (ExcelLoader.csv_records Scenario.csv_no_employee) [] 0) = []
  /\ fst run
     = Raise (ValueError
         "No valid data found in CSV file. All rows were skipped during validation.")
  /\ map (fun r => (Models.ManagerEmployee.manager_empid r,
                    Models.ManagerEmployee.employee_empid r))
         (Db.manager_employee d) = [("M1", "E100")]
  /\ Db.manager_employee (Db.committed (snd run)) = []
  /\ Db.usernames (Db.committed (snd run)) = ["T1"; "M1"; "E100"; "M2"].
Proof. repeat split; vm_compute; reflexivity. Qed.

(* ================================================================== *)
(** * The placeholder for a missing trainer name *)
(* ================================================================== *)

(** In the Trainers Details sheet a row whose resolved trainer name is
    absent, empty or blank gets the placeholder, and the trainer name is
    never among its missing fields. *)
Lemma trainer_row_default_name (row : dict Value) :
  let raw :=
    or_else
      (or_else
         (ExcelLoader.find_column_flexible row
            ["trainer_name"; "trainername"; "trainer name"; "trainer"])
         (ExcelLoader.find_column_flexible row ["copmetency"; "name"]))
      (get row "trainer_name") in
  (raw = VNone \/ exists s, raw = VStr s /\ strip s = "") ->
  Models.Trainer.trainer_name (snd (ExcelLoader.trainer_row row))
  = VStr "Not Assigned"
  /\ ~ In "trainer_name" (fst (ExcelLoader.trainer_row row)).
Proof.
  intros raw H. unfold ExcelLoader.trainer_row. fold raw. simpl. split.
  - destruct H as [->|[s [-> Hs]]]; [reflexivity|].
    unfold ExcelLoader.strip_if_str, truthy.
    destruct (s =? "")%string eqn:E; simpl; [now rewrite E|].
    now rewrite Hs.
  - repeat match goal with
           | |- context [if ?b then _ else _] => destruct b
           end; simpl; intuition discriminate.
Qed.

(** C10.  In the Training Details sheet the placeholder is computed and
    then not used: the record of a row with an empty trainer name is built
    with the raw cell, so its trainer name is [None]; the import of a
    workbook with such a row is rejected by the store and rolled back;
    and a blank trainer name is stored as it is.  The trainer row of the
    same workbook gets the placeholder. *)
Theorem training_row_ignores_placeholder :
  let row := [("trainingname_program", VStr "Python Basics");
              ("trainer_name", VNone)] in
  let d := Scenario.catalogue_store in
  let run_none :=
    ExcelLoader.load_all_from_excel Scenario.any_date
      (Scenario.workbook Scenario.nan) (Db.open d) in
  let run_blank :=
    ExcelLoader.load_all_from_excel Scenario.any_date
      (Scenario.workbook (VStr "  ")) (Db.open d) in
  match ExcelLoader.training_row Scenario.any_date row with
  | Ok (Some training) =>
      Models.TrainingDetail.trainer_name training = VNone
  | _ => False
  end
  /\ run_none = (Raise (IntegrityError "constraint violated"), Db.open d)
  /\ fst run_blank = Ok tt
  /\ map (fun p => (fst p, Models.TrainingDetail.trainer_name (snd p)))
         (Db.training_details (Db.committed (snd run_blank)))
     = [(1, VStr "  ")]
  /\ map Models.Trainer.trainer_name
         (Db.trainers (Db.committed (snd run_blank)))
     = [VStr "Not Assigned"].
Proof. repeat split; vm_compute; reflexivity. Qed.

(* ================================================================== *)
(** * The accounts behind the manager-employee relationships *)
(* ================================================================== *)

Section Reconciler.
Import ExcelLoader CsvImport.
Variable set_order : list string -> list string.
Hypothesis set_order_is_order : is_order set_order.

Lemma str_mem_In (x : string) (l : list string) :
  Db.str_mem x l = true <-> In x l.
Proof.
  unfold Db.str_mem. rewrite existsb_exists. split.
  - intros [y [Hy Heq]]. apply String.eqb_eq in Heq. now subst.
  - intros H. exists x. split; [exact H | apply String.eqb_refl].
Qed.

Lemma str_mem_false (x : string) (l : list string) :
  Db.str_mem x l = false <-> ~ In x l.
Proof.
  rewrite <- str_mem_In. destruct (Db.str_mem x l); split; intros H;
    congruence.
Qed.

Lemma dedup_In (x : string) (l : list string) : In x (dedup l) <-> In x l.
Proof.
  induction l as [|y l IH]; simpl; [tauto|].
  destruct (Db.str_mem y l) eqn:E.
  - rewrite IH. split; [auto|]. intros [<-|H]; [|exact H].
    now apply str_mem_In.
  - simpl. now rewrite IH.
Qed.

(** The identifiers without an account are those of the file that are
    not usernames. *)
Lemma ids_without_account_In (df : Csv) (d : Db.t) (id : string) :
  In id (ids_without_account df d)
  <-> In id (all_user_ids df) /\ ~ In id (Db.usernames d).
Proof.
  unfold ids_without_account.
  rewrite filter_In, negb_true_iff, str_mem_false,
    dedup_In, filter_In, str_mem_In.
  tauto.
Qed.

(** The identifiers for which an account is created are those of the
    file that are not usernames yet. *)
Lemma missing_user_ids_In (df : Csv) (d : Db.t) (id : string) :
  In id (missing_user_ids set_order df d)
  <-> In id (all_user_ids df) /\ ~ In id (Db.usernames d).
Proof.
  rewrite <- ids_without_account_In. unfold missing_user_ids. split.
  - apply Permutation_in, set_order_is_order.
  - apply Permutation_in, Permutation_sym, set_order_is_order.
Qed.

Lemma filter_nil {A} (f : A -> bool) (l : list A) :
  (forall x, In x l -> f x = false) -> filter f l = [].
Proof.
  induction l as [|x l IH]; simpl; intros H; [reflexivity|].
  rewrite (H x (or_introl eq_refl)). apply IH. intros y Hy. apply H. now right.
Qed.

(** No account is missing once every identifier of the file is a
    username. *)
Lemma missing_user_ids_none (df : Csv) (d : Db.t) :
  (forall id, In id (all_user_ids df) -> In id (Db.usernames d)) ->
  missing_user_ids set_order df d = [].
Proof.
  intros H. unfold missing_user_ids.
  assert (ids_without_account df d = []) as ->.
  { destruct (ids_without_account df d) as [|x l] eqn:E; [reflexivity|].
    assert (In x (ids_without_account df d)) as Hx
        by (rewrite E; now left).
    apply ids_without_account_In in Hx. destruct Hx as [Hx Hn].
    elim Hn. now apply H. }
  apply Permutation_nil, Permutation_sym, set_order_is_order.
Qed.

(** The flush raises nothing exactly when the rows satisfy what the
    schema declares. *)
Lemma flush_error_none (d : Db.t) :
  Db.flush_error d = None <-> Db.constraints_ok d = true.
Proof.
  unfold Db.flush_error, Db.constraints_ok.
  destruct (Db.types_ok d), (Db.integrity_ok d); simpl;
    split; intros H; try reflexivity; discriminate.
Qed.

Lemma clear_and_check_run (df : Csv) (d : Db.t) :
  exists r, clear_and_check df (Db.open d)
            = (r, Db.mkSession d (cleared d)).
Proof.
  unfold clear_and_check, Db.bind, Db.update. simpl.
  destruct (nonempty _); eexists; reflexivity.
Qed.

(** The result of the check of the columns does not depend on the
    store. *)
Lemma clear_and_check_result (df : Csv) (s1 s2 : Db.Session) :
  fst (clear_and_check df s1) = fst (clear_and_check df s2).
Proof.
  unfold clear_and_check, Db.bind, Db.update.
  destruct (nonempty _); reflexivity.
Qed.

Lemma create_missing_users_run (now : Z) (df : Csv) (d : Db.t) :
  create_missing_users set_order now df (Db.mkSession d (cleared d)) =
  if id_header_twice df
  then (Raise (AttributeError
                 "'DataFrame' object has no attribute 'unique'"),
        Db.mkSession d (cleared d))
  else if nonempty (missing_user_ids set_order df d) then
    match Db.flush_error (with_new_users set_order now df d) with
    | None => (Ok tt, Db.open (with_new_users set_order now df d))
    | Some e =>
        (Raise (ValueError ("Failed to create user accounts: "
                              ++ exn_message e)),
         Db.open d)
    end
  else (Ok tt, Db.mkSession d (cleared d)).
Proof.
  unfold create_missing_users, collect_user_ids, id_header_twice,
    Db.bind, Db.view.
  destruct (_ || _)%bool; [reflexivity|].
  cbn [Db.ret Db.pending].
  change (missing_user_ids set_order df (cleared d))
    with (missing_user_ids set_order df d).
  destruct (nonempty (missing_user_ids set_order df d)); [|reflexivity].
  unfold Db.try_except, Db.bind, Db.update, Db.commit, Db.rollback,
    Db.raise, with_new_users, default_account, get_password_hash,
    default_password.
  cbn [Db.pending Db.committed].
  destruct (Db.flush_error _); reflexivity.
Qed.

Lemma insert_relationships_run (df : Csv) (s : Db.Session) :
  insert_relationships df s =
  if nonempty (fst (manager_employee_rows (csv_records df) [] 0)) then
    match Db.flush_error (with_rows df (Db.pending s)) with
    | None => (Ok tt, Db.open (with_rows df (Db.pending s)))
    | Some e =>
        (Raise e, Db.mkSession (Db.committed s) (with_rows df (Db.pending s)))
    end
  else (Raise (ValueError
          "No valid data found in CSV file. All rows were skipped during validation."),
        s).
Proof.
  unfold insert_relationships, with_rows.
  destruct (manager_employee_rows (csv_records df) [] 0) as [rows n].
  cbn [fst].
  unfold Db.bind, Db.update, Db.try_except, Db.commit, Db.raise.
  destruct (nonempty rows); [|reflexivity].
  cbn [Db.pending Db.committed].
  destruct (Db.flush_error _); reflexivity.
Qed.

(** The outcome of the loader, step by step, and the store it leaves. *)
Lemma load_manager_employee_from_csv_run (now : Z) (df : Csv) (d : Db.t) :
  load_manager_employee_from_csv set_order now df (Db.open d) =
  match fst (clear_and_check df (Db.open d)) with
  | Raise e => (Raise e, Db.open d)
  | Ok _ =>
      if id_header_twice df
      then (Raise (AttributeError
                     "'DataFrame' object has no attribute 'unique'"),
            Db.open d)
      else
        match (if nonempty (missing_user_ids set_order df d)
               then Db.flush_error (with_new_users set_order now df d)
               else None) with
        | Some e =>
            (Raise (ValueError ("Failed to create user accounts: "
                                  ++ exn_message e)),
             Db.open d)
        | None =>
            if nonempty (fst (manager_employee_rows (csv_records df) [] 0))
            then
              match Db.flush_error
                      (with_rows df (with_accounts set_order now df d)) with
              | None =>
                  (Ok tt,
                   Db.open (with_rows df (with_accounts set_order now df d)))
              | Some e =>
                  (Raise e, Db.open (after_accounts set_order now df d))
              end
            else
              (Raise (ValueError
                 "No valid data found in CSV file. All rows were skipped during validation."),
               Db.open (after_accounts set_order now df d))
        end
  end.
Proof.
  unfold load_manager_employee_from_csv, Db.try_except, Db.bind.
  destruct (clear_and_check_run df d) as [r Hr]. rewrite Hr. cbn [fst].
  destruct r as [[]|e]; [|reflexivity].
  rewrite create_missing_users_run.
  destruct (id_header_twice df); [reflexivity|].
  unfold with_accounts, after_accounts.
  destruct (nonempty (missing_user_ids set_order df d)).
  - destruct (Db.flush_error (with_new_users set_order now df d));
      [reflexivity|].
    rewrite insert_relationships_run. cbn [Db.open Db.pending Db.committed].
    destruct (nonempty (fst _)); [|reflexivity].
    destruct (Db.flush_error _); reflexivity.
  - rewrite insert_relationships_run. cbn [Db.pending Db.committed].
    destruct (nonempty (fst _)); [|reflexivity].
    destruct (Db.flush_error _); reflexivity.
Qed.

(** What a successful import tells: its steps and its store. *)
Lemma load_manager_employee_from_csv_ok (now : Z) (df : Csv) (d : Db.t)
      (s' : Db.Session) :
  load_manager_employee_from_csv set_order now df (Db.open d) = (Ok tt, s') ->
  let d1 := with_accounts set_order now df d in
  let s1 := if nonempty (missing_user_ids set_order df d)
            then Db.open (with_new_users set_order now df d)
            else Db.mkSession d (cleared d) in
  Db.bind (clear_and_check df)
          (fun _ => create_missing_users set_order now df)
          (Db.open d) = (Ok tt, s1)
  /\ insert_relationships df s1 = (Ok tt, s')
  /\ s' = Db.open (with_rows df d1)
  /\ Db.constraints_ok (with_rows df d1) = true
  /\ id_header_twice df = false
  /\ nonempty (fst (manager_employee_rows (csv_records df) [] 0)) = true.
Proof.
  rewrite load_manager_employee_from_csv_run. unfold Db.bind.
  destruct (clear_and_check_run df d) as [r Hr]. rewrite Hr. cbn [fst].
  destruct r as [[]|e]; [|discriminate].
  rewrite create_missing_users_run.
  destruct (id_header_twice df); [discriminate|].
  unfold with_accounts.
  destruct (nonempty (missing_user_ids set_order df d)).
  - destruct (Db.flush_error (with_new_users set_order now df d));
      [discriminate|].
    rewrite insert_relationships_run. cbn [Db.open Db.pending Db.committed].
    destruct (nonempty (fst _)); [|discriminate].
    destruct (Db.flush_error _) eqn:Hf; [discriminate|].
    apply flush_error_none in Hf.
    intros H. injection H as <-. cbv zeta. auto 10.
  - rewrite insert_relationships_run. cbn [Db.pending Db.committed].
    destruct (nonempty (fst _)); [|discriminate].
    destruct (Db.flush_error _) eqn:Hf; [discriminate|].
    apply flush_error_none in Hf.
    intros H. injection H as <-. cbv zeta. auto 10.
Qed.

(** The user table after an import, whatever its outcome: the one
    before, or the one before followed by the created accounts. *)
Lemma load_manager_employee_from_csv_users (now : Z) (df : Csv) (d : Db.t) :
  let users' :=
    Db.users (Db.committed
                (snd (load_manager_employee_from_csv set_order now df
                        (Db.open d)))) in
  users' = Db.users d
  \/ users' = (Db.users d
               ++ map (default_account now)
                      (missing_user_ids set_order df d))%list.
Proof.
  cbv zeta. rewrite load_manager_employee_from_csv_run.
  destruct (fst (clear_and_check df (Db.open d))) as [[]|e]; [|now left].
  destruct (id_header_twice df); [now left|].
  unfold with_accounts, after_accounts.
  destruct (nonempty (missing_user_ids set_order df d)).
  - destruct (Db.flush_error (with_new_users set_order now df d));
      [now left|].
    destruct (nonempty (fst _)); [|now right].
    destruct (Db.flush_error _); now right.
  - destruct (nonempty (fst _)); [|now left].
    destruct (Db.flush_error _); now left.
Qed.



Lemma constraints_ok_fk (d : Db.t) :
  Db.constraints_ok d = true -> Db.manager_employee_fk d = true.
Proof.
  unfold Db.constraints_ok, Db.integrity_ok, Db.accounts_ok.
  rewrite !andb_true_iff. tauto.
Qed.

(** The user table of the store the relationships are added to. *)
Lemma users_with_accounts (now : Z) (df : Csv) (d : Db.t) :
  Db.users (with_rows df (with_accounts set_order now df d))
  = (Db.users d
     ++ map (default_account now) (missing_user_ids set_order df d))%list.
Proof.
  unfold with_accounts.
  destruct (missing_user_ids set_order df d) as [|x l] eqn:E;
    cbn [nonempty].
  - cbn. now rewrite app_nil_r.
  - unfold with_new_users. cbn. now rewrite E.
Qed.

End Reconciler.

(** X8.  Whatever the outcome of a CSV import (success, an error before
    or after the accounts are created), the relationships in the store
    afterwards reference usernames of the store, provided they did
    before. *)
Lemma csv_import_keeps_references
      (set_order : list string -> list string) (now : Z)
      (df : ExcelLoader.Csv) (d : Db.t) :
  Db.manager_employee_fk d = true ->
  Db.manager_employee_fk
    (Db.committed
       (snd (ExcelLoader.load_manager_employee_from_csv set_order now df
               (Db.open d))))
  = true.
Proof.
  intros Hd. rewrite load_manager_employee_from_csv_run.
  destruct (fst (ExcelLoader.clear_and_check df (Db.open d))) as [[]|e];
    [|exact Hd].
  destruct (CsvImport.id_header_twice df); [exact Hd|].
  unfold CsvImport.with_accounts, CsvImport.after_accounts.
  destruct (ExcelLoader.nonempty
              (ExcelLoader.missing_user_ids set_order df d)).
  - destruct (Db.flush_error (CsvImport.with_new_users set_order now df d))
      eqn:Hu; [exact Hd|].
    apply flush_error_none, constraints_ok_fk in Hu.
    destruct (ExcelLoader.nonempty (fst _)); [|exact Hu].
    destruct (Db.flush_error _) eqn:Hc; [exact Hu|].
    now apply flush_error_none, constraints_ok_fk in Hc.
  - destruct (ExcelLoader.nonempty (fst _)); [|exact Hd].
    destruct (Db.flush_error _) eqn:Hc; [exact Hd|].
    now apply flush_error_none, constraints_ok_fk in Hc.
Qed.



(** An identifier written with a leading space gets an account under
    the text as read, while the relationship carries the stripped text:
    the store rejects the relationship and the import fails, with the
    account left behind. *)
Example padded_identifier_import_fails :
  let csv :=
    ExcelLoader.mkCsv
      ["manager_empid"; "manager_name"; "employee_empid"; "employee_name"]
      [[VStr " M9"; VStr "Moe"; VStr "E100"; VStr "Eve"]] in
  let run :=
    ExcelLoader.load_manager_employee_from_csv Scenario.insertion_order 50
      csv (Db.open (Scenario.store [] [])) in
  fst run = Raise (IntegrityError "constraint violated")
  /\ Db.usernames (Db.committed (snd run)) = ["T1"; "M1"; "E100"; " M9"]
  /\ Db.manager_employee (Db.committed (snd run)) = [].
Proof. repeat split; vm_compute; reflexivity. Qed.

(** A column of whole-number identifiers with an empty cell is a column
    of floats: the identifier 1001 of the file is looked up, created and
    referenced as "1001.0", beside the account "1001" of the store; the
    row with the empty cell is skipped. *)
Example numeric_identifier_column_with_gap :
  let csv :=
    ExcelLoader.mkCsv
      ["manager_empid"; "manager_name"; "employee_empid"; "employee_name"]
      [[VFloat (float_of_int 1001); VStr "Mia"; VStr "E100"; VStr "Eve"];
       [Scenario.nan; VStr "Max"; VStr "E100"; VStr "Eve"]] in
  let d :=
    Db.set_users (fun l => l ++ [Models.User.mk "1001" (Models.HashOf "pw") 0])%list
                 (Scenario.store [] []) in
  let run :=
    ExcelLoader.load_manager_employee_from_csv Scenario.insertion_order 50
      csv (Db.open d) in
  fst run = Ok tt
  /\ Db.usernames (Db.committed (snd run))
     = ["T1"; "M1"; "E100"; "1001"; "1001.0"]
  /\ map (fun r => (Models.ManagerEmployee.manager_empid r,
                    Models.ManagerEmployee.employee_empid r))
         (Db.manager_employee (Db.committed (snd run)))
     = [("1001.0", "E100")].
Proof. repeat split; vm_compute; reflexivity. Qed.

(** In a frame of numbers only, one column of which is a column of
    floats, [iterrows] yields floats: the identifiers 7 and 8 of two
    columns of whole numbers get the accounts "7" and "8", and the
    relationship built from the row references "7.0" and "8.0"; the store
    rejects it. *)
Example numeric_frame_import_fails :
  let csv :=
    ExcelLoader.mkCsv
      ["manager_empid"; "manager_name"; "employee_empid"; "employee_name"]
      [[VInt 7; Scenario.nan; VInt 8; Scenario.nan]] in
  let run :=
    ExcelLoader.load_manager_employee_from_csv Scenario.insertion_order 50
      csv (Db.open (Scenario.store [] [])) in
  fst run = Raise (IntegrityError "constraint violated")
  /\ Db.usernames (Db.committed (snd run)) = ["T1"; "M1"; "E100"; "7"; "8"]
  /\ map (fun r => (Models.ManagerEmployee.manager_empid r,
                    Models.ManagerEmployee.employee_empid r))
         (fst (ExcelLoader.manager_employee_rows
                 (ExcelLoader.csv_records csv) [] 0))
     = [("7.0", "8.0")].
Proof. repeat split; vm_compute; reflexivity. Qed.

(* ================================================================== *)
(** * Row validation of the loaders *)
(* ================================================================== *)

Section RowAccounting.
Import ExcelLoader.

Lemma trainer_rows_count (rows : list (dict Value))
      (acc : list Models.Trainer.t) (n : Z) :
  Z.of_nat (List.length (fst (trainer_rows rows acc n)))
  + snd (trainer_rows rows acc n)
  = Z.of_nat (List.length acc) + n + Z.of_nat (List.length rows).
Proof.
  revert acc n. induction rows as [|row rows IH]; intros acc n.
  - simpl. lia.
  - cbn [trainer_rows]. destruct (trainer_row row) as [missing t].
    destruct (nonempty missing); rewrite IH; cbn [List.length];
      rewrite ?length_app; cbn [List.length]; lia.
Qed.

Lemma training_rows_count (to_date : Value -> Res Value)
      (rows : list (dict Value)) (acc : list Models.TrainingDetail.t)
      (n : Z) (added : list Models.TrainingDetail.t) (skipped : Z) :
  training_rows to_date rows acc n = Ok (added, skipped) ->
  Z.of_nat (List.length added) + skipped
  = Z.of_nat (List.length acc) + n + Z.of_nat (List.length rows).
Proof.
  revert acc n. induction rows as [|row rows IH]; intros acc n.
  - simpl. intros H. injection H as <- <-. lia.
  - cbn [training_rows]. destruct (training_row to_date row) as [[t|]|e].
    + intros H. apply IH in H. rewrite H, length_app. cbn [List.length]. lia.
    + intros H. apply IH in H. rewrite H. cbn [List.length]. lia.
    + discriminate.
Qed.

Lemma manager_employee_rows_count (rows : list (dict Value))
      (acc : list Models.ManagerEmployee.t) (n : Z) :
  Z.of_nat (List.length (fst (manager_employee_rows rows acc n)))
  + snd (manager_employee_rows rows acc n)
  = Z.of_nat (List.length acc) + n + Z.of_nat (List.length rows).
Proof.
  revert acc n. induction rows as [|row rows IH]; intros acc n.
  - simpl. lia.
  - cbn [manager_employee_rows]. destruct (manager_employee_row row);
      rewrite IH; cbn [List.length]; rewrite ?length_app;
      cbn [List.length]; lia.
Qed.

Lemma competency_rows_count (to_date : Value -> Res Value)
      (rows : list (dict Value))
      (acc : list Competency.EmployeeCompetency.t) (n : Z) :
  Z.of_nat (List.length (fst (Competency.competency_rows to_date rows acc n)))
  + snd (Competency.competency_rows to_date rows acc n)
  = Z.of_nat (List.length acc) + n + Z.of_nat (List.length rows).
Proof.
  revert acc n. induction rows as [|row rows IH]; intros acc n.
  - simpl. lia.
  - cbn [Competency.competency_rows].
    destruct (Competency.competency_row to_date row);
      rewrite IH; cbn [List.length]; rewrite ?length_app;
      cbn [List.length]; lia.
Qed.

End RowAccounting.

(** X1.  In each of the four row loops of the loaders every row of the
    sheet or file is either added to the records to insert or counted as
    skipped: the number of records plus the skip count is the number of
    rows (for the training rows, whenever the loop ends without the date
    parser raising). *)
Theorem loaders_account_for_every_row :
  (forall rows,
      Z.of_nat (List.length (fst (ExcelLoader.trainer_rows rows [] 0)))
      + snd (ExcelLoader.trainer_rows rows [] 0)
      = Z.of_nat (List.length rows))
  /\ (forall to_date rows added skipped,
         ExcelLoader.training_rows to_date rows [] 0 = Ok (added, skipped) ->
         Z.of_nat (List.length added) + skipped
         = Z.of_nat (List.length rows))
  /\ (forall rows,
         Z.of_nat (List.length
                     (fst (ExcelLoader.manager_employee_rows rows [] 0)))
         + snd (ExcelLoader.manager_employee_rows rows [] 0)
         = Z.of_nat (List.length rows))
  /\ (forall to_date rows,
         Z.of_nat (List.length
                     (fst (Competency.competency_rows to_date rows [] 0)))
         + snd (Competency.competency_rows to_date rows [] 0)
         = Z.of_nat (List.length rows)).
Proof.
  split; [|split; [|split]].
  - intros rows. now rewrite trainer_rows_count.
  - intros to_date rows added skipped H.
    now rewrite (training_rows_count _ _ _ _ _ _ H).
  - intros rows. now rewrite manager_employee_rows_count.
  - intros to_date rows. now rewrite competency_rows_count.
Qed.

Section RowValidity.
Import ExcelLoader.

Lemma trainer_row_valid (row : dict Value) :
  nonempty (fst (trainer_row row)) = false ->
  truthy (Models.Trainer.skill (snd (trainer_row row))) = true
  /\ truthy (Models.Trainer.competency (snd (trainer_row row))) = true
  /\ truthy (Models.Trainer.trainer_name (snd (trainer_row row))) = true
  /\ truthy (Models.Trainer.expertise_level (snd (trainer_row row))) = true.
Proof.
  unfold trainer_row. cbn [fst snd Models.Trainer.skill
    Models.Trainer.competency Models.Trainer.trainer_name
    Models.Trainer.expertise_level].
  repeat match goal with
         | |- context [truthy (strip_if_str ?v)] =>
             let b := fresh "b" in
             let E := fresh "E" in
             destruct (truthy (strip_if_str v)) eqn:E
         end; cbn; try discriminate; intros _; repeat split; assumption.
Qed.

Lemma trainer_rows_valid (rows : list (dict Value))
      (acc : list Models.Trainer.t) (n : Z) (P : Models.Trainer.t -> Prop) :
  (forall row, nonempty (fst (trainer_row row)) = false ->
               P (snd (trainer_row row))) ->
  Forall P acc -> Forall P (fst (trainer_rows rows acc n)).
Proof.
  intros HP. revert acc n. induction rows as [|row rows IH]; intros acc n Hacc.
  - exact Hacc.
  - cbn [trainer_rows]. specialize (HP row).
    destruct (trainer_row row) as [missing t]. cbn [fst snd] in HP.
    destruct (nonempty missing); apply IH; [exact Hacc|].
    apply Forall_app. split; [exact Hacc|]. constructor; [auto|constructor].
Qed.

Lemma manager_employee_rows_In (rows : list (dict Value))
      (acc : list Models.ManagerEmployee.t) (n : Z)
      (r : Models.ManagerEmployee.t) :
  In r (fst (manager_employee_rows rows acc n))
  <-> In r acc
      \/ exists row, In row rows /\ manager_employee_row row = Some r.
Proof.
  revert acc n. induction rows as [|row rows IH]; intros acc n; simpl.
  - split; [auto|]. intros [H|[row [[] _]]]. exact H.
  - destruct (manager_employee_row row) as [r'|] eqn:E; rewrite IH.
    + rewrite in_app_iff. simpl. split.
      * intros [[H|[<-|[]]]|[row' [Hin Hr]]]; eauto.
      * intros [H|[row' [[<-|Hin] Hr]]]; eauto.
        rewrite E in Hr. injection Hr as <-. auto.
    + split.
      * intros [H|[row' [Hin Hr]]]; eauto.
      * intros [H|[row' [[<-|Hin] Hr]]]; eauto. congruence.
Qed.

Lemma manager_employee_row_nonempty (row : dict Value)
      (r : Models.ManagerEmployee.t) :
  manager_employee_row row = Some r ->
  Models.ManagerEmployee.manager_empid r <> ""
  /\ Models.ManagerEmployee.employee_empid r <> "".
Proof.
  unfold manager_employee_row.
  destruct (existsb _ _); [discriminate|].
  destruct (stripped row "manager_empid") as [m|];
    destruct (stripped row "employee_empid") as [e|]; cbn;
    try (destruct (_ || _)%bool; discriminate); try discriminate.
  destruct (String.eqb_spec m ""); cbn; [discriminate|].
  destruct (String.eqb_spec e ""); cbn; [discriminate|].
  intros H. injection H as <-. cbn. auto.
Qed.

End RowValidity.

(** X2.  Every trainer record the Trainers Details loop keeps has a
    non-empty skill, competency, trainer name and expertise level: no
    record it passes on can violate the NOT NULL columns of [trainers]. *)
Theorem trainer_rows_records_complete :
  forall rows : list (dict Value),
    Forall (fun t =>
              truthy (Models.Trainer.skill t) = true
              /\ truthy (Models.Trainer.competency t) = true
              /\ truthy (Models.Trainer.trainer_name t) = true
              /\ truthy (Models.Trainer.expertise_level t) = true)
           (fst (ExcelLoader.trainer_rows rows [] 0)).
Proof.
  intros rows. apply trainer_rows_valid; [|constructor].
  intros row H. now apply trainer_row_valid.
Qed.

(** X3.  Every relationship the CSV loop keeps has a non-empty manager
    identifier and a non-empty employee identifier, whatever the cells of
    the file hold. *)
Theorem manager_employee_rows_have_ids :
  forall rows : list (dict Value),
    Forall (fun r =>
              Models.ManagerEmployee.manager_empid r <> ""
              /\ Models.ManagerEmployee.employee_empid r <> "")
           (fst (ExcelLoader.manager_employee_rows rows [] 0)).
Proof.
  intros rows. apply Forall_forall. intros r Hr.
  apply manager_employee_rows_In in Hr.
  destruct Hr as [[]|[row [_ Hrow]]].
  now apply manager_employee_row_nonempty in Hrow.
Qed.

Section HeaderAlphabet.

Lemma lower_char_idem (c : ascii) : lower_char (lower_char c) = lower_char c.
Proof.
  destruct c as [[] [] [] [] [] [] [] []]; reflexivity.
Qed.

Lemma lower_chars (s : string) :
  Forall (fun c => lower_char c = c) (list_ascii_of_string (lower s)).
Proof.
  induction s as [|c s IH]; cbn; constructor; auto using lower_char_idem.
Qed.

Lemma replace_char_keeps (P : ascii -> Prop) (a b : ascii) (s : string) :
  P b -> Forall P (list_ascii_of_string s) ->
  Forall P (list_ascii_of_string (replace_char a b s)).
Proof.
  intros Hb. induction s as [|c s IH]; cbn; intros H; [constructor|].
  inversion H; subst. constructor; [|auto].
  destruct (Ascii.eqb c a); assumption.
Qed.

Lemma replace_char_removes (a b : ascii) (s : string) :
  b <> a ->
  Forall (fun c => c <> a) (list_ascii_of_string (replace_char a b s)).
Proof.
  intros Hb. induction s as [|c s IH]; cbn; constructor; [|exact IH].
  destruct (Ascii.eqb_spec c a); assumption.
Qed.

Lemma remove_char_keeps (P : ascii -> Prop) (a : ascii) (s : string) :
  Forall P (list_ascii_of_string s) ->
  Forall P (list_ascii_of_string (remove_char a s)).
Proof.
  induction s as [|c s IH]; cbn; intros H; [constructor|].
  inversion H; subst. destruct (Ascii.eqb c a); [auto|].
  cbn. constructor; auto.
Qed.

Lemma remove_char_removes (a : ascii) (s : string) :
  Forall (fun c => c <> a) (list_ascii_of_string (remove_char a s)).
Proof.
  induction s as [|c s IH]; cbn; [constructor|].
  destruct (Ascii.eqb_spec c a); [exact IH|].
  cbn. constructor; assumption.
Qed.

End HeaderAlphabet.

(** X4.  A cleaned column header holds no space, slash, comma or asterisk
    and no upper-case letter, whatever the header of the sheet was. *)
Theorem clean_header_alphabet :
  forall h : string,
    Forall (fun c => c <> " "%char /\ c <> "/"%char /\ c <> ","%char
                     /\ c <> "*"%char /\ lower_char c = c)
           (list_ascii_of_string (ExcelLoader.clean_header h)).
Proof.
  intros h. unfold ExcelLoader.clean_header.
  set (s0 := lower (strip h)).
  set (s1 := replace_char " " "_" s0).
  set (s2 := replace_char "/" "_" s1).
  set (s3 := replace_char "," "_" s2).
  assert (Forall (fun c => lower_char c = c) (list_ascii_of_string s3)) as Hl.
  { do 3 (apply replace_char_keeps; [reflexivity|]). apply lower_chars. }
  assert (Forall (fun c => c <> " "%char) (list_ascii_of_string s3)) as H1.
  { apply replace_char_keeps; [discriminate|].
    apply replace_char_keeps; [discriminate|].
    apply replace_char_removes. discriminate. }
  assert (Forall (fun c => c <> "/"%char) (list_ascii_of_string s3)) as H2.
  { apply replace_char_keeps; [discriminate|].
    apply replace_char_removes. discriminate. }
  assert (Forall (fun c => c <> ","%char) (list_ascii_of_string s3)) as H3.
  { apply replace_char_removes. discriminate. }
  pose proof (remove_char_removes "*" s3) as H4.
  apply (remove_char_keeps _ "*") in Hl.
  apply (remove_char_keeps _ "*") in H1.
  apply (remove_char_keeps _ "*") in H2.
  apply (remove_char_keeps _ "*") in H3.
  rewrite Forall_forall in *. intros c Hc. repeat split; auto.
Qed.

(* ================================================================== *)
(** * The Excel import as a whole *)
(* ================================================================== *)

(** X5.  A successful Excel import is a full replacement: it succeeds
    only when no shared assignment, submission or other row of the store
    references a training of the store (the deletion of the trainings is
    refused otherwise); the trainers in the store are then exactly the
    validated rows of the first sheet and the trainings those of the
    second, numbered from 1, whatever the two tables held before; every
    training assignment is deleted; the other tables are as they were;
    and the store satisfies what the schema declares. *)
Theorem excel_import_replaces_tables :
  forall (to_date : Value -> Res Value) (wb : ExcelLoader.Workbook)
         (d : Db.t) (s' : Db.Session),
    ExcelLoader.load_all_from_excel to_date wb (Db.open d) = (Ok tt, s') ->
    ExcelImport.blocked d = false
    /\ exists df1 df2 trainings skipped,
      ExcelLoader.read_excel wb "Trainers Details" = Ok df1
      /\ ExcelLoader.read_excel wb "Training Details" = Ok df2
      /\ ExcelLoader.training_rows to_date (ExcelLoader.to_records df2) [] 0
         = Ok (trainings, skipped)
      /\ s' = Db.open
                (Db.mk (Db.users d) (Db.manager_employee d)
                   (fst (ExcelLoader.trainer_rows
                           (ExcelLoader.to_records df1) [] 0))
                   (Db.number_from 1 trainings) []
                   (Db.shared_assignments d)
                   (Db.assignment_submissions d)
                   (Db.other_training_refs d))
      /\ Db.constraints_ok (Db.committed s') = true.
Proof.
  intros to_date wb d s'. rewrite load_all_from_excel_run.
  destruct (ExcelImport.blocked d); [discriminate|].
  destruct (ExcelLoader.read_excel wb "Trainers Details") as [df1|e1];
    [|discriminate].
  destruct (ExcelLoader.read_excel wb "Training Details") as [df2|e2];
    [|discriminate].
  destruct (ExcelLoader.training_rows to_date (ExcelLoader.to_records df2)
              [] 0) as [[trainings n2]|e3] eqn:E2; [|discriminate].
  cbv zeta.
  destruct (negb _ && negb _)%bool; [discriminate|].
  destruct (Db.flush_error _) eqn:Hf; [discriminate|].
  apply flush_error_none in Hf.
  intros H. injection H as <-.
  split; [reflexivity|]. exists df1, df2, trainings, n2.
  repeat split; assumption.
Qed.

Lemma excel_import_replaces_tables_witness :
  let d := Scenario.catalogue_store in
  let wb := Scenario.workbook (VStr "Ada") in
  let run := ExcelLoader.load_all_from_excel Scenario.any_date wb
               (Db.open d) in
  run = (Ok tt, snd run)
  /\ ExcelImport.blocked d = false
  /\ exists df1 df2 trainings skipped,
      ExcelLoader.read_excel wb "Trainers Details" = Ok df1
      /\ ExcelLoader.read_excel wb "Training Details" = Ok df2
      /\ ExcelLoader.training_rows Scenario.any_date
           (ExcelLoader.to_records df2) [] 0 = Ok (trainings, skipped)
      /\ snd run = Db.open
                     (Db.mk (Db.users d) (Db.manager_employee d)
                        (fst (ExcelLoader.trainer_rows
                                (ExcelLoader.to_records df1) [] 0))
                        (Db.number_from 1 trainings) []
                        (Db.shared_assignments d)
                        (Db.assignment_submissions d)
                        (Db.other_training_refs d))
      /\ Db.constraints_ok (Db.committed (snd run)) = true.
Proof.
  intros d wb run.
  assert (run = (Ok tt, snd run)) as H by (vm_compute; reflexivity).
  split; [exact H|].
  exact (excel_import_replaces_tables Scenario.any_date wb d (snd run) H).
Defined.

(** A store in which a shared assignment references a training cannot be
    refreshed from a workbook: the deletion of the trainings is refused,
    the import raises and the store is as it was. *)
Example referenced_training_blocks_import :
  let d := Scenario.store [] [] in
  ExcelLoader.load_all_from_excel Scenario.any_date
    (Scenario.workbook (VStr "Ada")) (Db.open d)
  = (Raise (IntegrityError "constraint violated"), Db.open d).
Proof. vm_compute. reflexivity. Qed.

(* ================================================================== *)
(** * The upload endpoints *)
(* ================================================================== *)

(** X6.  When the Excel upload endpoint answers with an error, the store
    is exactly as it was before the request, and the error is an HTTP
    answer 400 or 500; a file name that ends neither in .xlsx nor in .xls
    is answered 400 without the loader being run. *)
Theorem upload_and_refresh_failure_leaves_store :
  forall (to_date : Value -> Res Value) (competencies_count : Z)
         (filename : string) (file : ExcelLoader.Workbook) (d d' : Db.t)
         (e : Exn),
    Main.upload_and_refresh_data to_date competencies_count filename file d
    = (Raise e, d') ->
    d' = d
    /\ (exists detail, e = HTTPException 400 detail
                       \/ e = HTTPException 500 detail)
    /\ ((Main.endswith filename ".xlsx" || Main.endswith filename ".xls")%bool
        = false ->
        e = HTTPException 400
              "Invalid file type. Please upload an Excel file.").
Proof.
  intros to_date cc filename file d d' e.
  unfold Main.upload_and_refresh_data.
  destruct (Main.endswith filename ".xlsx" || Main.endswith filename ".xls")%bool;
    simpl.
  - destruct (ExcelLoader.load_all_from_excel to_date file (Db.open d))
      as [[[]|e0] s] eqn:E; [discriminate|].
    intros H. injection H as <- <-.
    apply load_all_from_excel_raise_restores in E. subst s.
    split; [reflexivity|]. split; [|discriminate].
    destruct e0; simpl; eauto.
  - intros H. injection H as <- <-.
    split; [reflexivity|]. split; [eauto | reflexivity].
Qed.

Lemma upload_and_refresh_failure_leaves_store_witness :
  let d := Scenario.store [] [] in
  let run :=
    Main.upload_and_refresh_data Scenario.any_date 0 "trainers.csv"
      (Scenario.workbook VNone) d in
  run = (Raise (HTTPException 400
                  "Invalid file type. Please upload an Excel file."),
         snd run)
  /\ snd run = d.
Proof.
  intros d run.
  assert (run = (Raise (HTTPException 400
                          "Invalid file type. Please upload an Excel file."),
                 snd run)) as H by (vm_compute; reflexivity).
  split; [exact H|].
  exact (proj1 (upload_and_refresh_failure_leaves_store
                  Scenario.any_date 0 "trainers.csv"
                  (Scenario.workbook VNone) d (snd run) _ H)).
Defined.

(** X7.  Whatever a CSV upload answers, it removes and changes no user
    account: the user table afterwards is the one before, followed by
    accounts with the default password for identifiers of the file, as
    pandas prints the cells of its two identifier columns, that were not
    usernames. *)
Theorem upload_csv_keeps_accounts :
  forall (set_order : list string -> list string) (now : Z)
         (filename : string) (file : ExcelLoader.Csv) (d : Db.t),
    CsvImport.is_order set_order ->
    exists created,
      Db.users (snd (Main.upload_manager_employee_csv set_order now filename
                       file d))
      = (Db.users d ++ map (CsvImport.default_account now) created)%list
      /\ Forall (fun id => In id (ExcelLoader.all_user_ids file)
                           /\ ~ In id (Db.usernames d)) created.
Proof.
  intros set_order now filename file d Horder.
  unfold Main.upload_manager_employee_csv.
  destruct (Main.endswith filename ".csv"); simpl.
  - destruct (load_manager_employee_from_csv_users set_order now file d)
      as [Hu|Hu].
    + exists []. simpl. rewrite app_nil_r. split; [|constructor].
      destruct (ExcelLoader.load_manager_employee_from_csv set_order now file
                  (Db.open d)) as [[[]|e] s]; exact Hu.
    + exists (ExcelLoader.missing_user_ids set_order file d). split.
      * destruct (ExcelLoader.load_manager_employee_from_csv set_order now
                    file (Db.open d)) as [[[]|e] s]; exact Hu.
      * apply Forall_forall. intros id Hid.
        now apply (missing_user_ids_In set_order Horder).
  - exists []. simpl. rewrite app_nil_r. split; [reflexivity|constructor].
Qed.

Lemma upload_csv_keeps_accounts_witness :
  let d := Scenario.store [] [] in
  CsvImport.is_order Scenario.insertion_order
  /\ exists created,
      Db.users (snd (Main.upload_manager_employee_csv
                       Scenario.insertion_order 50 "team.csv"
                       Scenario.csv_e200 d))
      = (Db.users d ++ map (CsvImport.default_account 50) created)%list
      /\ Forall (fun id => In id (ExcelLoader.all_user_ids Scenario.csv_e200)
                           /\ ~ In id (Db.usernames d)) created.
Proof.
  intros d.
  assert (CsvImport.is_order Scenario.insertion_order) as Ho
      by (intros l; apply Permutation_refl).
  split; [exact Ho|].
  exact (upload_csv_keeps_accounts Scenario.insertion_order 50 "team.csv"
           Scenario.csv_e200 d Ho).
Defined.

Lemma csv_import_keeps_references_witness :
  let d := Scenario.store [] [] in
  Db.manager_employee_fk d = true
  /\ Db.manager_employee_fk
       (Db.committed
          (snd (ExcelLoader.load_manager_employee_from_csv
                  Scenario.insertion_order 50
                  Scenario.csv_no_employee (Db.open d)))) = true.
Proof.
  intros d.
  assert (Db.manager_employee_fk d = true) as H by reflexivity.
  split; [exact H|].
  exact (csv_import_keeps_references Scenario.insertion_order 50
           Scenario.csv_no_employee d H).
Defined.

(* ================================================================== *)
(** * When the CSV import succeeds *)
(* ================================================================== *)

Section CsvSuccess.
Import ExcelLoader CsvImport.
Variable set_order : list string -> list string.
Hypothesis set_order_is_order : is_order set_order.

Lemma distinct_NoDup (l : list string) : Db.distinct l = true <-> NoDup l.
Proof.
  induction l as [|x l IH]; simpl.
  - split; [constructor | reflexivity].
  - rewrite andb_true_iff, negb_true_iff, str_mem_false, IH. split.
    + intros [H1 H2]. now constructor.
    + intros H. inversion H; subst. auto.
Qed.

Lemma dedup_NoDup (l : list string) : NoDup (dedup l).
Proof.
  induction l as [|x l IH]; simpl; [constructor|].
  destruct (Db.str_mem x l) eqn:E; [exact IH|].
  constructor; [|exact IH]. rewrite dedup_In. now apply str_mem_false.
Qed.

Lemma missing_user_ids_NoDup (df : Csv) (d : Db.t) :
  NoDup (missing_user_ids set_order df d).
Proof.
  unfold missing_user_ids.
  apply (Permutation_NoDup (Permutation_sym (set_order_is_order _))).
  unfold ids_without_account. apply NoDup_filter. unfold all_user_ids.
  apply dedup_NoDup.
Qed.

Lemma usernames_with_new_users (now : Z) (df : Csv) (d : Db.t) :
  Db.usernames (with_new_users set_order now df d)
  = (Db.usernames d ++ missing_user_ids set_order df d)%list.
Proof.
  unfold Db.usernames, with_new_users. simpl.
  rewrite map_app, map_map. simpl. now rewrite map_id.
Qed.

Lemma constraints_ok_parts (d : Db.t) :
  Db.constraints_ok d = true <->
  Db.types_ok d = true /\ Db.users_unique d = true
  /\ Db.manager_employee_fk d = true
  /\ Db.manager_employee_pk (Db.manager_employee d) = true
  /\ Db.catalogue_ok d = true /\ Db.references_ok d = true.
Proof.
  unfold Db.constraints_ok, Db.integrity_ok, Db.accounts_ok.
  rewrite !andb_true_iff. tauto.
Qed.

Lemma str_mem_app (x : string) (l l' : list string) :
  Db.str_mem x l = true -> Db.str_mem x (l ++ l') = true.
Proof.
  rewrite !str_mem_In. intros H. apply in_or_app. now left.
Qed.

(** The rows that reference a user still do once users are added. *)
Lemma references_ok_more_users (new : list Models.User.t) (d : Db.t) :
  Db.references_ok d = true ->
  Db.references_ok (Db.set_users (fun l => l ++ new)%list d) = true.
Proof.
  unfold Db.references_ok, Db.training_assignments_fk,
    Db.shared_assignments_fk, Db.assignment_submissions_fk,
    Db.other_training_refs_fk.
  assert (Db.usernames (Db.set_users (fun l => l ++ new)%list d)
          = (Db.usernames d ++ map Models.User.username new)%list) as ->
      by (unfold Db.usernames; simpl; apply map_app).
  change (Db.training_ids (Db.set_users (fun l => l ++ new)%list d))
    with (Db.training_ids d).
  change (Db.shared_assignment_ids (Db.set_users (fun l => l ++ new)%list d))
    with (Db.shared_assignment_ids d).
  cbn [Db.set_users Db.training_assignments Db.shared_assignments
       Db.assignment_submissions Db.other_training_refs].
  rewrite !andb_true_iff, !forallb_forall.
  intros [[[H1 H2] H3] H4]. repeat split; try exact H4.
  - intros a Ha. specialize (H1 a Ha). rewrite !andb_true_iff in *.
    destruct H1 as [[Ht He] Hm]. auto using str_mem_app.
  - intros a Ha. specialize (H2 a Ha). rewrite !andb_true_iff in *.
    destruct H2 as [Ht Hu]. auto using str_mem_app.
  - intros a Ha. specialize (H3 a Ha). rewrite !andb_true_iff in *.
    destruct H3 as [[Ht Hs] Hu]. auto using str_mem_app.
Qed.

(** The store the relationships are added to satisfies every constraint
    that does not bear on the relationships. *)
Lemma with_accounts_ok (now : Z) (df : Csv) (d : Db.t) :
  Db.constraints_ok d = true ->
  let d1 := with_accounts set_order now df d in
  Db.types_ok d1 = true /\ Db.users_unique d1 = true
  /\ Db.catalogue_ok d1 = true /\ Db.references_ok d1 = true.
Proof.
  rewrite constraints_ok_parts. intros [Ht [Hu [_ [_ [Hc Hr]]]]].
  unfold with_accounts.
  destruct (nonempty (missing_user_ids set_order df d)); cbv zeta.
  - split; [exact Ht|]. split; [|split; [exact Hc|]].
    + unfold Db.users_unique in *. rewrite usernames_with_new_users.
      apply distinct_NoDup. apply distinct_NoDup in Hu.
      apply NoDup_app; [exact Hu | apply missing_user_ids_NoDup|].
      intros id Hin Hm.
      apply (missing_user_ids_In set_order set_order_is_order) in Hm. tauto.
    + unfold with_new_users.
      apply (references_ok_more_users _ (cleared d)). exact Hr.
  - repeat split; assumption.
Qed.

Lemma with_new_users_ok (now : Z) (df : Csv) (d : Db.t) :
  Db.constraints_ok d = true ->
  nonempty (missing_user_ids set_order df d) = true ->
  Db.constraints_ok (with_new_users set_order now df d) = true.
Proof.
  intros Hd Hn. pose proof (with_accounts_ok now df d Hd) as H.
  unfold with_accounts in H. rewrite Hn in H. cbv zeta in H.
  destruct H as [Ht [Hu [Hc Hr]]].
  apply constraints_ok_parts. repeat split; assumption.
Qed.

Lemma iterrows_values_same (df : Sheet) :
  rows_are_floats df = false -> iterrows_values df = df.
Proof. unfold iterrows_values. now intros ->. Qed.

Lemma manager_employee_row_ids (row : dict Value)
      (r : Models.ManagerEmployee.t) :
  manager_employee_row row = Some r ->
  notna (cell row "manager_empid") = true
  /\ notna (cell row "employee_empid") = true
  /\ Models.ManagerEmployee.manager_empid r
     = strip (py_str (cell row "manager_empid"))
  /\ Models.ManagerEmployee.employee_empid r
     = strip (py_str (cell row "employee_empid")).
Proof.
  unfold manager_employee_row, stripped.
  destruct (existsb _ _); [discriminate|].
  destruct (notna (cell row "manager_empid"));
    destruct (notna (cell row "employee_empid")); simpl;
    try discriminate;
    try (destruct (_ || _)%bool; discriminate).
  destruct (_ || _)%bool; [discriminate|].
  intros H. injection H as <-. auto.
Qed.

Lemma column_ids_In (df : Csv) (col : string) (row : dict Value) :
  rows_are_floats df = false ->
  In row (csv_records df) -> notna (cell row col) = true ->
  In (py_str (cell row col)) (column_ids df col).
Proof.
  intros Hf Hrow Hc. unfold csv_records in Hrow.
  rewrite (iterrows_values_same df Hf) in Hrow.
  apply in_map_iff in Hrow. destruct Hrow as [cells [<- Hcells]].
  unfold column_ids. apply dedup_In, in_flat_map.
  exists cells. split; [exact Hcells|]. cbv zeta. rewrite Hc. now left.
Qed.

(** An identifier of either column is among the identifiers for which
    an account is looked up. *)
Lemma all_user_ids_In (df : Csv) (row : dict Value) (col : string) :
  rows_are_floats df = false ->
  In row (csv_records df) ->
  In col ["manager_empid"; "employee_empid"] ->
  notna (cell row col) = true ->
  In (py_str (cell row col)) (all_user_ids df).
Proof.
  intros Hf Hrow Hcol Hc. unfold all_user_ids. apply dedup_In, in_or_app.
  destruct Hcol as [<-|[<-|[]]]; [left|right]; now apply column_ids_In.
Qed.

(** When the rows keep the types of the columns and the identifiers
    carry no surrounding white space, the accounts looked up and created
    by the loader cover the relationships it adds. *)
Lemma reconciled_rows_reference_users (now : Z) (df : Csv) (d : Db.t) :
  rows_are_floats df = false ->
  (forall row col, In row (csv_records df) ->
                   In col ["manager_empid"; "employee_empid"] ->
                   notna (cell row col) = true ->
                   strip (py_str (cell row col)) = py_str (cell row col)) ->
  Db.manager_employee_fk
    (with_rows df (with_accounts set_order now df d)) = true.
Proof.
  intros Hf Hstrip. unfold Db.manager_employee_fk. apply forallb_forall.
  intros r Hr.
  assert (forall id, In id (all_user_ids df) ->
            In id (Db.usernames
                     (with_rows df (with_accounts set_order now df d))))
    as Hcover.
  { intros id Hid. unfold Db.usernames.
    rewrite (users_with_accounts set_order), map_app, map_map. simpl.
    rewrite map_id. apply in_or_app.
    destruct (in_dec string_dec id (Db.usernames d)) as [Hin|Hnin].
    - left. exact Hin.
    - right. apply (missing_user_ids_In set_order set_order_is_order). auto. }
  assert (In r (fst (manager_employee_rows (csv_records df) [] 0))) as Hr'.
  { unfold with_accounts in Hr.
    destruct (nonempty (missing_user_ids set_order df d)); exact Hr. }
  apply manager_employee_rows_In in Hr'.
  destruct Hr' as [[]|[row [Hrow Hrec]]].
  apply manager_employee_row_ids in Hrec.
  destruct Hrec as [Hm [He [-> ->]]].
  rewrite (Hstrip row "manager_empid" Hrow (or_introl eq_refl) Hm).
  rewrite (Hstrip row "employee_empid" Hrow
             (or_intror (or_introl eq_refl)) He).
  apply andb_true_iff. split; apply str_mem_In, Hcover.
  - apply all_user_ids_In; simpl; auto.
  - apply all_user_ids_In; simpl; auto.
Qed.

Lemma with_rows_ok (now : Z) (df : Csv) (d : Db.t) :
  Db.constraints_ok d = true ->
  rows_are_floats df = false ->
  (forall row col, In row (csv_records df) ->
                   In col ["manager_empid"; "employee_empid"] ->
                   notna (cell row col) = true ->
                   strip (py_str (cell row col)) = py_str (cell row col)) ->
  Db.manager_employee_pk (fst (manager_employee_rows (csv_records df) [] 0))
  = true ->
  Db.constraints_ok
    (with_rows df (with_accounts set_order now df d)) = true.
Proof.
  intros Hd Hf Hstrip Hpk.
  pose proof (reconciled_rows_reference_users now df d Hf Hstrip) as Hfk.
  destruct (with_accounts_ok now df d Hd) as [Ht [Hu [Hc Hr]]].
  apply constraints_ok_parts.
  split; [exact Ht|]. split; [exact Hu|]. split; [exact Hfk|].
  split; [|split; [exact Hc | exact Hr]].
  unfold with_accounts.
  destruct (nonempty (missing_user_ids set_order df d)); exact Hpk.
Qed.

Lemma clear_and_check_ok (df : Csv) (d : Db.t) :
  (forall col,
      In col ["manager_empid"; "manager_name"; "employee_empid";
              "employee_name"] ->
      In col (map clean_csv_header (csv_columns df))) ->
  clear_and_check df (Db.open d) = (Ok tt, Db.mkSession d (cleared d)).
Proof.
  intros Hcols. unfold clear_and_check, Db.bind, Db.update, Db.open.
  cbn [Db.committed Db.pending].
  rewrite filter_nil; [reflexivity|].
  intros col Hcol. apply negb_false_iff, str_mem_In, Hcols, Hcol.
Qed.

(** The import of a well-formed file on a consistent store. *)
Lemma load_manager_employee_from_csv_succeeds (now : Z) (df : Csv)
      (d : Db.t) :
  Db.constraints_ok d = true ->
  (forall col,
      In col ["manager_empid"; "manager_name"; "employee_empid";
              "employee_name"] ->
      In col (map clean_csv_header (csv_columns df))) ->
  id_header_twice df = false ->
  rows_are_floats df = false ->
  (forall row col, In row (csv_records df) ->
                   In col ["manager_empid"; "employee_empid"] ->
                   notna (cell row col) = true ->
                   strip (py_str (cell row col)) = py_str (cell row col)) ->
  nonempty (fst (manager_employee_rows (csv_records df) [] 0)) = true ->
  Db.manager_employee_pk (fst (manager_employee_rows (csv_records df) [] 0))
  = true ->
  load_manager_employee_from_csv set_order now df (Db.open d)
  = (Ok tt, Db.open (with_rows df (with_accounts set_order now df d))).
Proof.
  intros Hd Hcols Hdup Hf Hstrip Hrows Hpk.
  pose proof (with_rows_ok now df d Hd Hf Hstrip Hpk) as Hok.
  apply flush_error_none in Hok.
  rewrite load_manager_employee_from_csv_run.
  rewrite (clear_and_check_ok df d Hcols). cbn [fst].
  rewrite Hdup, Hrows, Hok.
  destruct (nonempty (missing_user_ids set_order df d)) eqn:Hn;
    [|reflexivity].
  pose proof (with_new_users_ok now df d Hd Hn) as Hu.
  apply flush_error_none in Hu. now rewrite Hu.
Qed.

End CsvSuccess.

(** X9.  On a store that satisfies what the schema declares, a CSV frame
    that has the four required columns, neither identifier header twice,
    rows that keep the types of their columns, at least one valid row,
    no repeated (manager, employee) pair among its valid rows and no
    white space around its identifiers as printed is imported
    successfully: the loader returns, and the store holds the old
    accounts, the accounts created for the new identifiers and exactly
    the valid rows of the file as relationships. *)
Theorem csv_import_succeeds :
  forall (set_order : list string -> list string) (now : Z)
         (df : ExcelLoader.Csv) (d : Db.t),
    CsvImport.is_order set_order ->
    Db.constraints_ok d = true ->
    (forall col,
        In col ["manager_empid"; "manager_name"; "employee_empid";
                "employee_name"] ->
        In col (map ExcelLoader.clean_csv_header
                    (ExcelLoader.csv_columns df))) ->
    CsvImport.id_header_twice df = false ->
    ExcelLoader.rows_are_floats df = false ->
    (forall row col,
        In row (ExcelLoader.csv_records df) ->
        In col ["manager_empid"; "employee_empid"] ->
        notna (ExcelLoader.cell row col) = true ->
        strip (py_str (ExcelLoader.cell row col))
        = py_str (ExcelLoader.cell row col)) ->
    ExcelLoader.nonempty
      (fst (ExcelLoader.manager_employee_rows
              (ExcelLoader.csv_records df) [] 0)) = true ->
    Db.manager_employee_pk
      (fst (ExcelLoader.manager_employee_rows
              (ExcelLoader.csv_records df) [] 0)) = true ->
    ExcelLoader.load_manager_employee_from_csv set_order now df (Db.open d)
    = (Ok tt,
       Db.open
         (CsvImport.with_rows df
            (CsvImport.with_accounts set_order now df d))).
Proof.
  intros set_order now df d Horder Hd Hcols Hdup Hf Hstrip Hrows Hpk.
  now apply load_manager_employee_from_csv_succeeds.
Qed.

Lemma csv_import_succeeds_witness :
  let d := Scenario.store [] [] in
  let df := Scenario.csv_e200 in
  ExcelLoader.load_manager_employee_from_csv Scenario.insertion_order 50 df
    (Db.open d)
  = (Ok tt,
     Db.open
       (CsvImport.with_rows df
          (CsvImport.with_accounts Scenario.insertion_order 50 df d))).
Proof.
  intros d df. apply csv_import_succeeds.
  - intros l. apply Permutation_refl.
  - reflexivity.
  - intros col H. simpl in H.
    destruct H as [<-|[<-|[<-|[<-|[]]]]]; simpl; auto.
  - reflexivity.
  - reflexivity.
  - intros row col Hrow Hcol _. simpl in Hrow. destruct Hrow as [<-|[]].
    simpl in Hcol. destruct Hcol as [<-|[<-|[]]]; reflexivity.
  - reflexivity.
  - reflexivity.
Defined.

(** The file of one row [M1,Mia,NA,Eve], whose employee identifier
    pandas reads as missing, has no valid row: the import raises its "no
    valid data" error and creates no account for the text. *)
Example missing_marker_row_is_skipped :
  let csv :=
    ExcelLoader.mkCsv
      ["manager_empid"; "manager_name"; "employee_empid"; "employee_name"]
      [[VStr "M1"; VStr "Mia"; Scenario.nan; VStr "Eve"]] in
  let d := Scenario.store [] [] in
  ExcelLoader.load_manager_employee_from_csv Scenario.insertion_order 50
    csv (Db.open d)
  = (Raise (ValueError
       "No valid data found in CSV file. All rows were skipped during validation."),
     Db.open d).
Proof. vm_compute. reflexivity. Qed.

(* ================================================================== *)
(** * The employee competency import *)
(* ================================================================== *)

Section CompetencyImport.
Import ExcelLoader Competency.
Variable to_date : Value -> Res Value.

(** The outcome of the loader on a store whose table has its foreign
    key, when the sheet is found. *)
Lemma load_competency_with_fk (wb : Workbook) (d : Store) (name : string)
      (df : Sheet) :
  fk_constraint d = Some name ->
  read_excel wb "Employee Competency" = Ok df ->
  load_employee_competency_from_excel to_date wb (Competency.open d) =
  let rows := fst (competency_rows to_date (iter_records df) [] 0) in
  if nonempty rows
  then
    if forallb competency_typed rows
    then (Ok tt, Competency.open (mkStore rows None))
    else (Raise (DBAPIError "invalid input for query argument"),
          Competency.open (mkStore [] None))
  else (Raise (ValueError
          "No valid data found in Excel file. All rows were skipped during validation."),
        Competency.open (mkStore [] None)).
Proof.
  intros Hfk Hdf.
  unfold load_employee_competency_from_excel, try_except, bind, update,
    lift, view, commit, rollback, raise, ret, Competency.open.
  cbn [pending committed fk_constraint employee_competency].
  rewrite Hdf, Hfk. cbn [pending committed fk_constraint employee_competency
                         forallb].
  destruct (competency_rows to_date (iter_records df) [] 0) as [rows n].
  cbn [fst]. destruct (nonempty rows); [|reflexivity].
  cbn [pending committed fk_constraint employee_competency app].
  destruct (forallb competency_typed rows); reflexivity.
Qed.

(** The outcome on a store whose table has no foreign key. *)
Lemma load_competency_without_fk (wb : Workbook) (d : Store) (df : Sheet) :
  fk_constraint d = None ->
  read_excel wb "Employee Competency" = Ok df ->
  load_employee_competency_from_excel to_date wb (Competency.open d) =
  let rows := fst (competency_rows to_date (iter_records df) [] 0) in
  if nonempty rows
  then
    if forallb competency_typed rows
    then (Ok tt, Competency.open (mkStore rows None))
    else (Raise (DBAPIError "invalid input for query argument"),
          Competency.open d)
  else (Raise (ValueError
          "No valid data found in Excel file. All rows were skipped during validation."),
        Competency.open d).
Proof.
  intros Hfk Hdf.
  unfold load_employee_competency_from_excel, try_except, bind, update,
    lift, view, commit, rollback, raise, ret, Competency.open.
  cbn [pending committed fk_constraint employee_competency].
  rewrite Hdf, Hfk. cbn [pending committed fk_constraint employee_competency].
  destruct (competency_rows to_date (iter_records df) [] 0) as [rows n].
  cbn [fst]. destruct (nonempty rows); [|reflexivity].
  cbn [pending committed fk_constraint employee_competency app].
  destruct (forallb competency_typed rows); reflexivity.
Qed.

(** The outcome when the sheet is missing. *)
Lemma load_competency_no_sheet (wb : Workbook) (d : Store) (e : Exn) :
  read_excel wb "Employee Competency" = Raise e ->
  load_employee_competency_from_excel to_date wb (Competency.open d)
  = (Raise e, Competency.open d).
Proof.
  intros Hdf.
  unfold load_employee_competency_from_excel, try_except, bind, update,
    lift, rollback, raise, Competency.open.
  cbn [pending committed]. rewrite Hdf. reflexivity.
Qed.

Lemma competency_row_id (row : dict Value) (r : EmployeeCompetency.t) :
  competency_row to_date row = Some r ->
  EmployeeCompetency.employee_empid r <> "".
Proof.
  unfold competency_row, competency_row_body.
  destruct (if truthy _ then _ else _) as [[id|]|e]; [| |discriminate];
    (destruct (if (notna _ && truthy _)%bool then _ else _);
     [|discriminate]); [|discriminate].
  destruct (String.eqb_spec id ""); [discriminate|].
  intros H. injection H as <-. exact n.
Qed.

Lemma competency_rows_In (rows : list (dict Value))
      (acc : list EmployeeCompetency.t) (n : Z) (r : EmployeeCompetency.t) :
  In r (fst (competency_rows to_date rows acc n)) ->
  In r acc \/ exists row, In row rows /\ competency_row to_date row = Some r.
Proof.
  revert acc n. induction rows as [|row rows IH]; intros acc n; simpl.
  - auto.
  - destruct (competency_row to_date row) as [r'|] eqn:E; intros H;
      apply IH in H.
    + destruct H as [H|[row' [Hin Hr]]]; [|eauto].
      apply in_app_iff in H. destruct H as [H|[<-|[]]]; eauto.
    + destruct H as [H|[row' [Hin Hr]]]; eauto.
Qed.

End CompetencyImport.

(** X10.  When the competency table has its foreign key on the employee
    id and the workbook has the competency sheet, the import leaves the
    store without that foreign key whatever its outcome, and when no row
    of the sheet is valid it fails with the "no valid data" error with
    the table already emptied in the store: the commit that follows the
    dropping of the key also commits the deletion. *)
Theorem competency_import_drops_foreign_key :
  forall (to_date : Value -> Res Value) (wb : ExcelLoader.Workbook)
         (d : Competency.Store) (name : string) (df : ExcelLoader.Sheet),
    Competency.fk_constraint d = Some name ->
    ExcelLoader.read_excel wb "Employee Competency" = Ok df ->
    let run :=
      Competency.load_employee_competency_from_excel to_date wb
        (Competency.open d) in
    Competency.fk_constraint (Competency.committed (snd run)) = None
    /\ (fst (Competency.competency_rows to_date
               (Competency.iter_records df) [] 0) = [] ->
        fst run
        = Raise (ValueError
            "No valid data found in Excel file. All rows were skipped during validation.")
        /\ Competency.employee_competency (Competency.committed (snd run))
           = []).
Proof.
  intros to_date wb d name df Hfk Hdf run. subst run.
  rewrite (load_competency_with_fk to_date wb d name df Hfk Hdf).
  cbn zeta. split.
  - destruct (ExcelLoader.nonempty _); [|reflexivity].
    destruct (forallb Competency.competency_typed _); reflexivity.
  - intros ->. split; reflexivity.
Qed.

Lemma competency_import_drops_foreign_key_witness :
  let wb := Cases.competency_workbook VNone in
  let run :=
    Competency.load_employee_competency_from_excel Scenario.any_date wb
      (Competency.open Cases.competency_store) in
  Competency.fk_constraint (Competency.committed (snd run)) = None
  /\ fst run
     = Raise (ValueError
         "No valid data found in Excel file. All rows were skipped during validation.")
  /\ Competency.employee_competency (Competency.committed (snd run)) = [].
Proof.
  intros wb run.
  destruct (competency_import_drops_foreign_key Scenario.any_date wb
              Cases.competency_store
              "employee_competency_employee_empid_fkey"
              (ExcelLoader.mkSheet ["Employee ID"; "Employee Name"; "Skill"]
                 [[VNone; VStr "Eve"; VStr "Python"]])
              eq_refl eq_refl) as [H1 H2].
  split; [exact H1|]. exact (H2 eq_refl).
Defined.

(** X11.  When the competency table has no foreign key left, or the
    workbook lacks the competency sheet, a failed import leaves the
    store exactly as it was: rows and foreign key. *)
Theorem competency_import_failure_restores :
  forall (to_date : Value -> Res Value) (wb : ExcelLoader.Workbook)
         (d : Competency.Store) (e : Exn) (s' : Competency.Session),
    Competency.load_employee_competency_from_excel to_date wb
      (Competency.open d) = (Raise e, s') ->
    Competency.fk_constraint d = None
    \/ ExcelLoader.read_excel wb "Employee Competency" = Raise e ->
    s' = Competency.open d.
Proof.
  intros to_date wb d e s' H Hcase.
  destruct (ExcelLoader.read_excel wb "Employee Competency") as [df|e0] eqn:E.
  - destruct Hcase as [Hfk|Hbad]; [|discriminate].
    rewrite (load_competency_without_fk to_date wb d df Hfk E) in H.
    cbn zeta in H. destruct (ExcelLoader.nonempty _).
    + destruct (forallb Competency.competency_typed _); [discriminate|]. now injection H as _ <-.
    + now injection H as _ <-.
  - rewrite (load_competency_no_sheet to_date wb d e0 E) in H.
    now injection H as _ <-.
Qed.

Lemma competency_import_failure_restores_witness :
  let run :=
    Competency.load_employee_competency_from_excel Scenario.any_date
      (Scenario.workbook VNone) (Competency.open Cases.competency_store) in
  run = (Raise (ValueError
                  "Sheet 'Employee Competency' not found. Available sheets: ['Trainers Details', 'Training Details']"),
         snd run)
  /\ snd run = Competency.open Cases.competency_store.
Proof.
  intros run.
  assert (run = (Raise (ValueError
                  "Sheet 'Employee Competency' not found. Available sheets: ['Trainers Details', 'Training Details']"),
                 snd run)) as H by (vm_compute; reflexivity).
  split; [exact H|].
  apply (competency_import_failure_restores Scenario.any_date
           (Scenario.workbook VNone) Cases.competency_store _ (snd run) H).
  right. reflexivity.
Defined.

(** X12.  A successful competency import replaces the table by the valid
    rows of the sheet, each with a non-empty employee id, and leaves the
    table without foreign key on the employee id: the rows need not
    reference a user. *)
Theorem competency_import_replaces_table :
  forall (to_date : Value -> Res Value) (wb : ExcelLoader.Workbook)
         (d : Competency.Store) (s' : Competency.Session),
    Competency.load_employee_competency_from_excel to_date wb
      (Competency.open d) = (Ok tt, s') ->
    exists df,
      ExcelLoader.read_excel wb "Employee Competency" = Ok df
      /\ s' = Competency.open
                (Competency.mkStore
                   (fst (Competency.competency_rows to_date
                           (Competency.iter_records df) [] 0))
                   None)
      /\ Forall (fun r =>
                   Competency.EmployeeCompetency.employee_empid r <> "")
                (Competency.employee_competency (Competency.committed s')).
Proof.
  intros to_date wb d s' H.
  destruct (ExcelLoader.read_excel wb "Employee Competency") as [df|e0] eqn:E.
  2:{ rewrite (load_competency_no_sheet to_date wb d e0 E) in H.
      discriminate. }
  exists df. split; [reflexivity|].
  assert (s' = Competency.open
                 (Competency.mkStore
                    (fst (Competency.competency_rows to_date
                            (Competency.iter_records df) [] 0)) None)) as Hs.
  { destruct (Competency.fk_constraint d) as [name|] eqn:Hfk.
    - rewrite (load_competency_with_fk to_date wb d name df Hfk E) in H.
      cbn zeta in H. destruct (ExcelLoader.nonempty _); [|discriminate].
      destruct (forallb Competency.competency_typed _); [|discriminate].
      now injection H as <-.
    - rewrite (load_competency_without_fk to_date wb d df Hfk E) in H.
      cbn zeta in H. destruct (ExcelLoader.nonempty _); [|discriminate].
      destruct (forallb Competency.competency_typed _); [|discriminate].
      now injection H as <-. }
  split; [exact Hs|]. rewrite Hs. cbn.
  apply Forall_forall. intros r Hr.
  apply competency_rows_In in Hr. destruct Hr as [[]|[row [_ Hrow]]].
  now apply competency_row_id in Hrow.
Qed.

Lemma competency_import_replaces_table_witness :
  let wb := Cases.competency_workbook (VInt 5504763) in
  let run :=
    Competency.load_employee_competency_from_excel Scenario.any_date wb
      (Competency.open Cases.competency_store) in
  run = (Ok tt, snd run)
  /\ map Competency.EmployeeCompetency.employee_empid
         (Competency.employee_competency (Competency.committed (snd run)))
     = ["5504763"]
  /\ exists df,
      ExcelLoader.read_excel wb "Employee Competency" = Ok df
      /\ snd run = Competency.open
                     (Competency.mkStore
                        (fst (Competency.competency_rows Scenario.any_date
                                (Competency.iter_records df) [] 0))
                        None)
      /\ Forall (fun r =>
                   Competency.EmployeeCompetency.employee_empid r <> "")
                (Competency.employee_competency
                   (Competency.committed (snd run))).
Proof.
  intros wb run.
  assert (run = (Ok tt, snd run)) as H by (vm_compute; reflexivity).
  split; [exact H|]. split; [vm_compute; reflexivity|].
  exact (competency_import_replaces_table Scenario.any_date wb
           Cases.competency_store (snd run) H).
Defined.

(* ================================================================== *)
(** * Submission and retrieval of results *)
(* ================================================================== *)

Section Regrading.
Import SharedContent.

(** The loop body of the retrieval computes what the loop body of the
    submission computes. *)
Lemma reevaluate_evaluate (question : AssignmentQuestion.t)
      (answer : AnswerSubmission.t) :
  reevaluate question answer = evaluate question answer.
Proof.
  unfold reevaluate, evaluate, is_choice.
  destruct (AssignmentQuestion.type question =? "single-choice")%string;
    destruct (AssignmentQuestion.type question =? "multiple-choice")%string;
    destruct (AssignmentQuestion.type question =? "text-input")%string;
    reflexivity.
Qed.

Lemma reevaluate_answers_evaluate (key : list AssignmentQuestion.t)
      (answers : list AnswerSubmission.t) (c : Z)
      (acc : list QuestionResult.t) :
  reevaluate_answers key answers acc =
  match evaluate_answers key answers c acc with
  | Ok (_, results) => Ok results
  | Raise e => Raise e
  end.
Proof.
  revert c acc. induction answers as [|a answers IH]; intros c acc.
  - reflexivity.
  - cbn [reevaluate_answers evaluate_answers].
    destruct (AnswerSubmission.questionIndex a >=? Z.of_nat (List.length key)).
    + apply IH.
    + destruct (getitem key (AnswerSubmission.questionIndex a)) as [q|e];
        [|reflexivity].
      rewrite reevaluate_evaluate. apply IH.
Qed.

(** The count and the results of the grading loop. *)
Lemma evaluate_answers_count (key : list AssignmentQuestion.t)
      (answers : list AnswerSubmission.t) (c c' : Z)
      (acc results : list QuestionResult.t) :
  evaluate_answers key answers c acc = Ok (c', results) ->
  exists new,
    results = (acc ++ new)%list
    /\ (List.length new <= List.length answers)%nat
    /\ c' = c + Z.of_nat (List.length (filter QuestionResult.isCorrect new)).
Proof.
  revert c acc. induction answers as [|a answers IH]; intros c acc.
  - simpl. intros H. injection H as <- <-. exists []. rewrite app_nil_r.
    simpl. split; [reflexivity|]. split; lia.
  - cbn [evaluate_answers].
    destruct (AnswerSubmission.questionIndex a >=? Z.of_nat (List.length key)).
    + intros H. apply IH in H. destruct H as [new [H1 [H2 H3]]].
      exists new. simpl. split; [exact H1|]. split; [lia | exact H3].
    + destruct (getitem key (AnswerSubmission.questionIndex a)) as [q|e];
        [|discriminate].
      intros H. apply IH in H. destruct H as [new [H1 [H2 H3]]].
      exists (evaluate q a :: new). rewrite H1, <- app_assoc.
      split; [reflexivity|]. split; [cbn [List.length]; lia|]. rewrite H3.
      cbn [filter].
      destruct (QuestionResult.isCorrect (evaluate q a));
        cbn [List.length]; lia.
Qed.

End Regrading.

(** X13.  When the key has not changed, the retrieval of a result rebuilds
    per-answer results identical to those the submission computed from
    the same answers, and fails with the same exception when the grading
    failed. *)
Theorem retrieval_regrades_like_submission :
  forall (key : list AssignmentQuestion.t)
         (answers : list AnswerSubmission.t),
    SharedContent.reevaluate_answers key answers [] =
    match SharedContent.evaluate_answers key answers 0 [] with
    | Ok (_, results) => Ok results
    | Raise e => Raise e
    end.
Proof. intros key answers. apply reevaluate_answers_evaluate. Qed.

(** X14.  In a graded submission the number of correct answers is the
    number of per-answer results marked correct, and there are at most
    as many results as answers submitted: the count is bounded by the
    number of answers, not by the number of questions of the key. *)
Theorem correct_count_counts_answers :
  forall (key : list AssignmentQuestion.t)
         (answers : list AnswerSubmission.t)
         (total correct score : Z)
         (results : list SharedContent.QuestionResult.t),
    SharedContent.grade key answers = Ok (total, correct, score, results) ->
    correct = Z.of_nat (List.length
                          (filter SharedContent.QuestionResult.isCorrect
                                  results))
    /\ 0 <= correct <= Z.of_nat (List.length results)
    /\ (List.length results <= List.length answers)%nat.
Proof.
  intros key answers total correct score results. unfold SharedContent.grade.
  destruct (SharedContent.evaluate_answers key answers 0 [])
    as [[c r]|e] eqn:E; [|discriminate].
  destruct (SharedContent.compute_score c _); [|discriminate].
  intros H. injection H as _ <- _ <-.
  apply evaluate_answers_count in E. destruct E as [new [-> [Hl ->]]].
  simpl. split; [reflexivity|].
  pose proof (filter_length_le SharedContent.QuestionResult.isCorrect new).
  split; [lia | exact Hl].
Qed.

Lemma correct_count_counts_answers_witness :
  let answers := [Scenario.pick_first 0; Scenario.pick_first 0] in
  exists results,
    SharedContent.grade [Scenario.q_single] answers
    = Ok (1, 2, 200, results)
    /\ 2 = Z.of_nat (List.length
                       (filter SharedContent.QuestionResult.isCorrect
                               results))
    /\ (List.length results <= List.length answers)%nat.
Proof.
  intros answers. eexists.
  assert (SharedContent.grade [Scenario.q_single] answers
          = Ok (1, 2, 200,
                [SharedContent.QuestionResult.mk 0 true [0] [0] None;
                 SharedContent.QuestionResult.mk 0 true [0] [0] None])) as H
      by (vm_compute; reflexivity).
  split; [exact H|].
  destruct (correct_count_counts_answers _ _ _ _ _ _ H) as [H1 [_ H3]].
  split; [exact H1 | exact H3].
Defined.

Section SubmitOutcome.
Import SharedContent.

Lemma next_id_fresh (ids : list Z) : Forall (fun i => i < next_id ids) ids.
Proof.
  unfold next_id. induction ids as [|i ids IH]; simpl; constructor.
  - lia.
  - eapply Forall_impl; [|exact IH]. simpl. intros j Hj. lia.
Qed.

(** The stored row of an accepted submission. *)
Lemma submit_assignment_run (now : Z) (sub : AssignmentSubmissionCreate.t)
      (current_user : dict string) (d : Db.t) (employee : string)
      (a : Models.TrainingAssignment.t) (sa : Models.SharedAssignment.t) :
  lookup current_user "username" = Some employee ->
  employee <> "" ->
  assignments_of (AssignmentSubmissionCreate.training_id sub) employee d
  = [a] ->
  shared_by_id (AssignmentSubmissionCreate.shared_assignment_id sub)
               (AssignmentSubmissionCreate.training_id sub) d = [sa] ->
  submit_assignment now sub current_user (Db.open d) =
  match grade (Models.SharedAssignment.assignment_data sa)
              (AssignmentSubmissionCreate.answers sub) with
  | Raise e => (Raise e, Db.open d)
  | Ok (total, correct, score, results) =>
      let submission :=
        Models.AssignmentSubmission.mk
          (next_id (map Models.AssignmentSubmission.id
                        (Db.assignment_submissions d)))
          (AssignmentSubmissionCreate.training_id sub)
          (AssignmentSubmissionCreate.shared_assignment_id sub)
          employee (AssignmentSubmissionCreate.answers sub)
          score total correct now in
      let d' := Db.set_assignment_submissions
                  (fun l => l ++ [submission])%list d in
      match Db.flush_error d' with
      | None => (Ok (AssignmentResultResponse.mk
                       (Models.AssignmentSubmission.id submission)
                       (AssignmentSubmissionCreate.training_id sub)
                       score total correct results now),
                 Db.open d')
      | Some e => (Raise e, Db.mkSession d d')
      end
  end.
Proof.
  intros Hu Hne Ha Hs. unfold submit_assignment. rewrite Hu.
  apply String.eqb_neq in Hne. unfold no_username. rewrite Hne.
  unfold Db.bind, Db.view, Db.lift. cbn [Db.open Db.pending].
  rewrite Ha. cbn [Db.scalar_one_or_none Db.ret]. rewrite Hs.
  cbn [Db.scalar_one_or_none Db.ret].
  destruct (grade _ _) as [[[[total correct] score] results]|e];
    [|reflexivity].
  unfold Db.update, Db.commit, Db.ret. cbn [Db.pending Db.committed].
  destruct (Db.flush_error _); reflexivity.
Qed.

End SubmitOutcome.

(** X15.  A submission that is refused or fails leaves the store as it
    was; an accepted one adds exactly one row to the submissions, under
    the caller's username, with an id above every id in use and with
    the score, total and count of the answer, and changes nothing else. *)
Theorem submit_assignment_outcome :
  forall (now : Z) (sub : SharedContent.AssignmentSubmissionCreate.t)
         (current_user : dict string) (d : Db.t),
    match SharedContent.submit_assignment now sub current_user (Db.open d)
    with
    | (Raise _, s') => Db.committed s' = d
    | (Ok response, s') =>
        exists submission,
          Db.committed s'
          = Db.set_assignment_submissions
              (fun l => l ++ [submission])%list d
          /\ lookup current_user "username"
             = Some (Models.AssignmentSubmission.employee_empid submission)
          /\ Forall (fun r => Models.AssignmentSubmission.id r
                              < Models.AssignmentSubmission.id submission)
                    (Db.assignment_submissions d)
          /\ SharedContent.AssignmentResultResponse.id response
             = Models.AssignmentSubmission.id submission
          /\ SharedContent.AssignmentResultResponse.score response
             = Models.AssignmentSubmission.score submission
          /\ SharedContent.AssignmentResultResponse.total_questions response
             = Models.AssignmentSubmission.total_questions submission
          /\ SharedContent.AssignmentResultResponse.correct_answers response
             = Models.AssignmentSubmission.correct_answers submission
    end.
Proof.
  intros now sub current_user d. unfold SharedContent.submit_assignment.
  destruct (lookup current_user "username") as [employee|] eqn:Hu;
    [|reflexivity].
  destruct (SharedContent.no_username (Some employee)); [reflexivity|].
  unfold Db.bind, Db.view, Db.lift. cbn [Db.open Db.pending].
  destruct (SharedContent.assignments_of _ employee d) as [|a [|a' l]];
    try reflexivity.
  cbn [Db.scalar_one_or_none Db.ret].
  destruct (SharedContent.shared_by_id _ _ d) as [|sa [|sa' l]];
    try reflexivity.
  cbn [Db.scalar_one_or_none Db.ret].
  destruct (SharedContent.grade _ _) as [[[[total correct] score] results]|e];
    [|reflexivity].
  unfold Db.update, Db.commit, Db.ret. cbn [Db.pending Db.committed].
  destruct (Db.flush_error _); [reflexivity|].
  eexists. split; [reflexivity|]. cbn.
  split; [reflexivity|]. split; [|auto].
  pose proof (next_id_fresh (map Models.AssignmentSubmission.id
                                 (Db.assignment_submissions d))) as H.
  rewrite Forall_map in H. exact H.
Qed.

Section RoundTrip.
Import SharedContent.

Lemma shared_by_id_shared_of (id training_id : Z) (d : Db.t) :
  shared_by_id id training_id d
  = filter (fun a => Models.SharedAssignment.id a =? id)
           (shared_of training_id d).
Proof.
  unfold shared_by_id, shared_of.
  induction (Db.shared_assignments d) as [|a l IH]; simpl; [reflexivity|].
  destruct (Models.SharedAssignment.training_id a =? training_id); simpl.
  - destruct (Models.SharedAssignment.id a =? id); simpl; now rewrite IH.
  - rewrite andb_false_r. exact IH.
Qed.

Lemma grade_results (key : list AssignmentQuestion.t)
      (answers : list AnswerSubmission.t) (total correct score : Z)
      (results : list QuestionResult.t) :
  grade key answers = Ok (total, correct, score, results) ->
  reevaluate_answers key answers [] = Ok results.
Proof.
  unfold grade. rewrite (reevaluate_answers_evaluate key answers 0 []).
  destruct (evaluate_answers key answers 0 []) as [[c r]|e]; [|discriminate].
  destruct (compute_score c _); [|discriminate].
  intros H. now injection H as _ _ _ <-.
Qed.

End RoundTrip.

(** X16.  An employee who submits for the first time against the one
    shared assignment of an assigned training and then asks for the
    result gets the answer of the submission back: same id, score,
    total, count, per-answer results and time. *)
Theorem first_submission_is_retrieved :
  forall (now : Z) (sub : SharedContent.AssignmentSubmissionCreate.t)
         (current_user : dict string) (d : Db.t) (employee : string)
         (a : Models.TrainingAssignment.t) (sa : Models.SharedAssignment.t)
         (response : SharedContent.AssignmentResultResponse.t)
         (s' : Db.Session),
    let training_id :=
      SharedContent.AssignmentSubmissionCreate.training_id sub in
    lookup current_user "username" = Some employee ->
    employee <> "" ->
    SharedContent.assignments_of training_id employee d = [a] ->
    SharedContent.shared_of training_id d = [sa] ->
    SharedContent.submissions_of training_id employee
      (Models.SharedAssignment.id sa) d = [] ->
    SharedContent.submit_assignment now sub current_user (Db.open d)
    = (Ok response, s') ->
    SharedContent.get_assignment_result training_id current_user
      (Db.open (Db.committed s'))
    = (Ok (Some response), Db.open (Db.committed s')).
Proof.
  intros now sub current_user d employee a sa response s' training_id
         Hu Hne Ha Hs Hnone Hsub.
  assert (SharedContent.shared_by_id
            (SharedContent.AssignmentSubmissionCreate.shared_assignment_id sub)
            training_id d = [sa]
          /\ Models.SharedAssignment.id sa
             = SharedContent.AssignmentSubmissionCreate.shared_assignment_id
                 sub) as [Hby Hid].
  { rewrite shared_by_id_shared_of, Hs. simpl.
    destruct (Z.eqb_spec (Models.SharedAssignment.id sa)
                (SharedContent.AssignmentSubmissionCreate.shared_assignment_id
                   sub)) as [Heq|Hneq]; [auto|].
    exfalso. revert Hsub. unfold SharedContent.submit_assignment.
    rewrite Hu. apply String.eqb_neq in Hne.
    unfold SharedContent.no_username. rewrite Hne.
    unfold Db.bind, Db.view. cbn [Db.open Db.pending].
    fold training_id. rewrite Ha. cbn [Db.scalar_one_or_none Db.ret].
    rewrite shared_by_id_shared_of, Hs. simpl.
    apply Z.eqb_neq in Hneq. rewrite Hneq. discriminate. }
  rewrite (submit_assignment_run now sub current_user d employee a sa
             Hu Hne Ha Hby) in Hsub.
  destruct (SharedContent.grade _ _)
    as [[[[total correct] score] results]|e] eqn:Hg; [|discriminate].
  cbn zeta in Hsub. destruct (Db.flush_error _); [discriminate|].
  injection Hsub as <- <-.
  apply grade_results in Hg.
  unfold SharedContent.get_assignment_result. rewrite Hu.
  apply String.eqb_neq in Hne. unfold SharedContent.no_username.
  rewrite Hne. unfold Db.bind, Db.view. cbn [Db.open Db.pending Db.committed].
  change (SharedContent.assignments_of training_id employee
            (Db.set_assignment_submissions _ d))
    with (SharedContent.assignments_of training_id employee d).
  rewrite Ha. cbn [Db.scalar_one_or_none Db.ret].
  change (SharedContent.shared_of training_id
            (Db.set_assignment_submissions _ d))
    with (SharedContent.shared_of training_id d).
  rewrite Hs. cbn [Db.scalar_one_or_none Db.ret].
  unfold SharedContent.submissions_of in *.
  cbn [Db.assignment_submissions Db.set_assignment_submissions].
  rewrite filter_app, Hnone. cbn [filter app Models.AssignmentSubmission.training_id
    Models.AssignmentSubmission.employee_empid
    Models.AssignmentSubmission.shared_assignment_id].
  fold training_id. rewrite Z.eqb_refl, String.eqb_refl, <- Hid, Z.eqb_refl.
  cbn [andb SharedContent.order_by_submitted_at_desc fold_right
       SharedContent.insert_desc Db.scalar_one_or_none Db.ret Db.lift].
  cbn [Models.AssignmentSubmission.answers_data].
  rewrite Hg. reflexivity.
Qed.

Lemma first_submission_is_retrieved_witness :
  let d := Scenario.store [Scenario.q_single] [] in
  let run :=
    SharedContent.submit_assignment 40 Cases.submit_first Scenario.employee
      (Db.open d) in
  let response :=
    SharedContent.AssignmentResultResponse.mk 1 1 100 1 1
      [SharedContent.QuestionResult.mk 0 true [0] [0] None] 40 in
  run = (Ok response, snd run)
  /\ SharedContent.get_assignment_result 1 Scenario.employee
       (Db.open (Db.committed (snd run)))
     = (Ok (Some response), Db.open (Db.committed (snd run))).
Proof.
  intros d run response.
  assert (run = (Ok response, snd run)) as H by (vm_compute; reflexivity).
  split; [exact H|].
  assert ("E100" <> "") as Hne by discriminate.
  exact (first_submission_is_retrieved 40 Cases.submit_first
           Scenario.employee d "E100"
           (Models.TrainingAssignment.mk 1 "E100" "M1")
           (Models.SharedAssignment.mk 7 1 "T1" "Quiz" (Some "")
              [Scenario.q_single] 10 10)
           response (snd run) eq_refl Hne eq_refl eq_refl eq_refl H).
Defined.

(* ================================================================== *)
(** * Assigning trainings *)
(* ================================================================== *)

Section Assigning.
Import Routes RouteStates.

(** What a successful assignment tells about the store before it, and
    the store after it. *)
Lemma assign_ok (assignment : AssignmentCreate.t)
      (current_user : dict string) (d : Db.t) (msg : string)
      (s' : Db.Session) :
  assign_training_to_employee assignment current_user
    (Db.open d) = (Ok msg, s') ->
  exists manager,
    lookup current_user "username" = Some manager
    /\ SharedContent.assignments_of
         (AssignmentCreate.training_id assignment)
         (AssignmentCreate.employee_username assignment) d = []
    /\ s' = Db.open (assigned assignment manager d)
    /\ Db.constraints_ok (assigned assignment manager d) = true.
Proof.
  unfold assign_training_to_employee, Db.bind, Db.view.
  cbn [Db.open Db.pending].
  destruct (SharedContent.assignments_of _ _ d) as [|a [|a' l]];
    cbn [Db.scalar_one_or_none Db.ret Db.raise]; try discriminate.
  destruct (lookup current_user "username") as [manager|];
    [|discriminate].
  unfold Db.update, Db.commit, Db.ret. cbn [Db.pending Db.committed].
  destruct (Db.flush_error _) eqn:Hc; [discriminate|].
  apply flush_error_none in Hc.
  intros H. injection H as _ <-.
  exists manager. repeat split; assumption.
Qed.

(** A store that satisfies its constraints with one more assignment
    satisfies them without it. *)
Lemma constraints_ok_unassigned (assignment : AssignmentCreate.t)
      (manager : string) (d : Db.t) :
  Db.constraints_ok (assigned assignment manager d) = true ->
  Db.constraints_ok d = true.
Proof.
  unfold Db.constraints_ok, Db.integrity_ok, Db.references_ok.
  rewrite !andb_true_iff.
  intros [Ht [[Ha Hc] [[[Hta Hsh] Hsu] Ho]]].
  split; [exact Ht|]. split; [split; [exact Ha | exact Hc]|].
  split; [split; [split; [|exact Hsh] | exact Hsu] | exact Ho].
  unfold Db.training_assignments_fk in *.
  change (Db.training_assignments (assigned assignment manager d))
    with (Db.training_assignments d
          ++ [Models.TrainingAssignment.mk
                (AssignmentCreate.training_id assignment)
                (AssignmentCreate.employee_username assignment) manager])%list
    in Hta.
  rewrite forallb_app in Hta. apply andb_true_iff in Hta.
  exact (proj1 Hta).
Qed.

Lemma assignments_of_assigned (assignment : AssignmentCreate.t)
      (manager : string) (d : Db.t) :
  SharedContent.assignments_of
    (AssignmentCreate.training_id assignment)
    (AssignmentCreate.employee_username assignment) d = [] ->
  SharedContent.assignments_of
    (AssignmentCreate.training_id assignment)
    (AssignmentCreate.employee_username assignment)
    (assigned assignment manager d)
  = [Models.TrainingAssignment.mk
       (AssignmentCreate.training_id assignment)
       (AssignmentCreate.employee_username assignment) manager].
Proof.
  unfold SharedContent.assignments_of, assigned. intros H.
  cbn [Db.training_assignments Db.set_training_assignments].
  rewrite filter_app, H. cbn. now rewrite Z.eqb_refl, String.eqb_refl.
Qed.

End Assigning.

Section AssignThen.
Import Routes RouteStates.

Lemma filter_nil_inv {A} (f : A -> bool) (l : list A) :
  filter f l = [] -> forall x, In x l -> f x = false.
Proof.
  induction l as [|y l IH]; simpl; intros H x Hx; [destruct Hx|].
  destruct (f y) eqn:E; [discriminate|].
  destruct Hx as [<-|Hx]; [exact E | now apply IH].
Qed.

Lemma filter_all {A} (f : A -> bool) (l : list A) :
  (forall x, In x l -> f x = true) -> filter f l = l.
Proof.
  induction l as [|y l IH]; simpl; intros H; [reflexivity|].
  rewrite (H y (or_introl eq_refl)). f_equal. apply IH. intros x Hx.
  apply H. now right.
Qed.

(** No row of an employee without assignment to a training is selected
    by a deletion of that assignment. *)
Lemma assigned_by_none (training_id : Z) (employee manager : string)
      (d : Db.t) (a : Models.TrainingAssignment.t) :
  SharedContent.assignments_of training_id employee d = [] ->
  In a (Db.training_assignments d) ->
  assigned_by training_id employee manager a = false.
Proof.
  intros H Ha. unfold SharedContent.assignments_of in H.
  pose proof (filter_nil_inv _ _ H a Ha) as Hf. cbn beta in Hf.
  unfold assigned_by. now rewrite Hf.
Qed.

Lemma training_assignments_assigned (assignment : AssignmentCreate.t)
      (manager : string) (d : Db.t) :
  Db.training_assignments (assigned assignment manager d)
  = (Db.training_assignments d
     ++ [Models.TrainingAssignment.mk
           (AssignmentCreate.training_id assignment)
           (AssignmentCreate.employee_username assignment) manager])%list.
Proof. reflexivity. Qed.

(** Removing the manager's assignment from the store that has it gives
    the store before the assignment. *)
Lemma unassign_assigned (assignment : AssignmentCreate.t) (manager : string)
      (d : Db.t) :
  SharedContent.assignments_of
    (AssignmentCreate.training_id assignment)
    (AssignmentCreate.employee_username assignment) d = [] ->
  Db.set_training_assignments
    (filter (fun a => negb (assigned_by
                              (AssignmentCreate.training_id assignment)
                              (AssignmentCreate.employee_username assignment)
                              manager a)))
    (assigned assignment manager d) = d.
Proof.
  intros Hnone. destruct d as [us me tr td ta sh su ot].
  unfold Db.set_training_assignments, assigned.
  cbn [Db.users Db.manager_employee Db.trainers Db.training_details
       Db.training_assignments Db.shared_assignments
       Db.assignment_submissions Db.other_training_refs
       Db.set_training_assignments].
  f_equal. rewrite filter_app. cbn [filter]. unfold assigned_by at 2.
  cbn [Models.TrainingAssignment.training_id
       Models.TrainingAssignment.employee_empid
       Models.TrainingAssignment.manager_empid].
  rewrite Z.eqb_refl, !String.eqb_refl. cbn [andb negb].
  rewrite app_nil_r. apply filter_all. intros a Ha.
  apply negb_true_iff.
  eapply (assigned_by_none _ _ manager _ a Hnone). exact Ha.
Qed.

(** The outcome of a deletion requested by a caller with a username. *)
Lemma delete_assignment_run (training_id : Z) (employee : string)
      (current_user : dict string) (manager : string) (d : Db.t) :
  lookup current_user "username" = Some manager ->
  manager <> "" ->
  delete_assignment training_id employee current_user
    (Db.open d) =
  match filter (assigned_by training_id employee manager)
               (Db.training_assignments d) with
  | [] => (Raise (HTTPException 404
             "Assignment not found or you are not authorized to delete it"),
           Db.open d)
  | [_] =>
      let d' := Db.set_training_assignments
                  (filter (fun a => negb (assigned_by training_id employee
                                            manager a))) d in
      match Db.flush_error d' with
      | None => (Ok "Assignment deleted successfully", Db.open d')
      | Some e => (Raise e, Db.mkSession d d')
      end
  | _ => (Raise MultipleResultsFound, Db.open d)
  end.
Proof.
  intros Hu Hne. unfold delete_assignment. rewrite Hu.
  apply String.eqb_neq in Hne. unfold SharedContent.no_username.
  rewrite Hne. unfold Db.bind, Db.view. cbn [Db.open Db.pending].
  destruct (filter _ (Db.training_assignments d)) as [|a [|a' l]];
    try reflexivity.
  cbn [Db.scalar_one_or_none Db.ret]. unfold Db.update, Db.commit.
  cbn [Db.pending Db.committed].
  destruct (Db.flush_error _); reflexivity.
Qed.

End AssignThen.

(** X17.  Once a training has been assigned to an employee, a second
    request to assign the same training to the same employee, by
    whichever caller, is answered 400 and changes nothing. *)
Theorem assign_twice_is_refused :
  forall (assignment : Routes.AssignmentCreate.t)
         (current_user other_user : dict string) (d : Db.t) (msg : string)
         (s' : Db.Session),
    Routes.assign_training_to_employee assignment current_user
      (Db.open d) = (Ok msg, s') ->
    Routes.assign_training_to_employee assignment other_user
      (Db.open (Db.committed s'))
    = (Raise (HTTPException 400
                "This training is already assigned to this employee"),
       Db.open (Db.committed s')).
Proof.
  intros assignment current_user other_user d msg s' H.
  apply assign_ok in H. destruct H as [manager [_ [Hnone [-> _]]]].
  unfold Routes.assign_training_to_employee, Db.bind, Db.view.
  cbn [Db.open Db.pending Db.committed].
  now rewrite (assignments_of_assigned assignment manager d Hnone).
Qed.

Lemma assign_twice_is_refused_witness :
  let d := Cases.unassigned_store [] in
  let run :=
    Routes.assign_training_to_employee Cases.assign_e100
      Cases.manager (Db.open d) in
  run = (Ok "Training assigned successfully", snd run)
  /\ Routes.assign_training_to_employee
       Cases.assign_e100 Cases.other_manager
       (Db.open (Db.committed (snd run)))
     = (Raise (HTTPException 400
                 "This training is already assigned to this employee"),
        Db.open (Db.committed (snd run))).
Proof.
  intros d run.
  assert (run = (Ok "Training assigned successfully", snd run)) as H
      by (vm_compute; reflexivity).
  split; [exact H|].
  exact (assign_twice_is_refused Cases.assign_e100
           Cases.manager Cases.other_manager d _ (snd run) H).
Defined.

(** X18.  After a manager has assigned a training, a deletion of that
    assignment requested by another caller is answered 404 and changes
    nothing, and the deletion requested by the manager succeeds and puts
    the store back as it was before the assignment. *)
Theorem delete_undoes_assign :
  forall (assignment : Routes.AssignmentCreate.t)
         (current_user : dict string) (manager : string) (d : Db.t)
         (msg : string) (s' : Db.Session),
    Routes.assign_training_to_employee assignment current_user
      (Db.open d) = (Ok msg, s') ->
    lookup current_user "username" = Some manager ->
    manager <> "" ->
    let training_id := Routes.AssignmentCreate.training_id assignment in
    let employee := Routes.AssignmentCreate.employee_username assignment in
    Routes.delete_assignment training_id employee current_user
      (Db.open (Db.committed s'))
    = (Ok "Assignment deleted successfully", Db.open d)
    /\ (forall (other_user : dict string) (other : string),
           lookup other_user "username" = Some other ->
           other <> "" -> other <> manager ->
           Routes.delete_assignment training_id employee
             other_user (Db.open (Db.committed s'))
           = (Raise (HTTPException 404
                "Assignment not found or you are not authorized to delete it"),
              Db.open (Db.committed s'))).
Proof.
  intros assignment current_user manager d msg s' H Hu Hne
         training_id employee.
  subst training_id employee.
  apply assign_ok in H.
  destruct H as [manager' [Hu' [Hnone [-> Hc]]]].
  rewrite Hu in Hu'. injection Hu' as <-.
  cbn [Db.open Db.committed].
  assert (forall m, filter (Routes.assigned_by (Routes.AssignmentCreate.training_id assignment) (Routes.AssignmentCreate.employee_username assignment) m)
                           (Db.training_assignments d) = []) as Hsel.
  { intros m. apply filter_nil. intros a Ha.
    now apply (assigned_by_none (Routes.AssignmentCreate.training_id assignment) (Routes.AssignmentCreate.employee_username assignment) m d). }
  split.
  - rewrite (delete_assignment_run (Routes.AssignmentCreate.training_id assignment) (Routes.AssignmentCreate.employee_username assignment)
               current_user manager _ Hu Hne).
    rewrite training_assignments_assigned, filter_app, Hsel.
    cbn [filter app].
    unfold Routes.assigned_by at 1.
    cbn [Models.TrainingAssignment.training_id
         Models.TrainingAssignment.employee_empid
         Models.TrainingAssignment.manager_empid].
    rewrite Z.eqb_refl, !String.eqb_refl. cbn [andb].
    rewrite (unassign_assigned assignment manager d Hnone).
    apply constraints_ok_unassigned, flush_error_none in Hc.
    now rewrite Hc.
  - intros other_user other Ho Hone Hdiff.
    rewrite (delete_assignment_run (Routes.AssignmentCreate.training_id assignment) (Routes.AssignmentCreate.employee_username assignment)
               other_user other _ Ho Hone).
    rewrite training_assignments_assigned, filter_app, Hsel.
    cbn [filter app].
    unfold Routes.assigned_by.
    cbn [Models.TrainingAssignment.training_id
         Models.TrainingAssignment.employee_empid
         Models.TrainingAssignment.manager_empid].
    assert ((manager =? other)%string = false) as ->.
    { apply String.eqb_neq. congruence. }
    rewrite andb_false_r. reflexivity.
Qed.

Lemma delete_undoes_assign_witness :
  let d := Cases.unassigned_store [] in
  let run :=
    Routes.assign_training_to_employee Cases.assign_e100
      Cases.manager (Db.open d) in
  run = (Ok "Training assigned successfully", snd run)
  /\ Routes.delete_assignment 1 "E100" Cases.manager
       (Db.open (Db.committed (snd run)))
     = (Ok "Assignment deleted successfully", Db.open d).
Proof.
  intros d run.
  assert (run = (Ok "Training assigned successfully", snd run)) as H
      by (vm_compute; reflexivity).
  split; [exact H|].
  assert ("M1" <> "") as Hne by discriminate.
  exact (proj1 (delete_undoes_assign Cases.assign_e100
                  Cases.manager "M1" d _ (snd run) H eq_refl Hne)).
Defined.

(* ================================================================== *)
(** * Sharing an assignment and retrieving it *)
(* ================================================================== *)

Section Sharing.
Import Routes RouteStates.

Lemma share_assignment_run (now : Z) (data : SharedAssignmentCreate.t)
      (current_user : dict string) (u : string) (d : Db.t) :
  lookup current_user "username" = Some u ->
  u <> "" ->
  let training_id := SharedAssignmentCreate.training_id data in
  (passes_trainer_checks training_id u d = true ->
   share_assignment now data current_user (Db.open d) =
   match SharedContent.shared_of training_id d with
   | [] =>
       let row := created now data u d in
       let d' := with_shared (Db.shared_assignments d ++ [row]) d in
       match Db.flush_error d' with
       | None => (Ok (response_of row), Db.open d')
       | Some e => (Raise e, Db.mkSession d d')
       end
   | [existing] =>
       let row := overwrite now data existing in
       let d' := with_shared (overwritten row (Db.shared_assignments d)) d in
       match Db.flush_error d' with
       | None => (Ok (response_of row), Db.open d')
       | Some e => (Raise e, Db.mkSession d d')
       end
   | _ => (Raise MultipleResultsFound, Db.open d)
   end)
  /\ (passes_trainer_checks training_id u d = false ->
      exists e,
        share_assignment now data current_user (Db.open d)
        = (Raise e, Db.open d)).
Proof.
  intros Hu Hne training_id. subst training_id.
  unfold share_assignment, passes_trainer_checks. rewrite Hu.
  apply String.eqb_neq in Hne. unfold SharedContent.no_username.
  rewrite Hne. unfold Db.bind, Db.view. cbn [Db.open Db.pending].
  destruct (training_by_id _ d) as [|t [|t' l]];
    cbn [Db.scalar_one_or_none Db.ret Db.raise];
    try (split; [discriminate | intros _; eexists; reflexivity]).
  destruct (nonblank (trainer_name_of t));
    cbn [negb andb];
    try (split; [discriminate | intros _; eexists; reflexivity]).
  unfold scalar_name, Db.bind.
  destruct (employee_names_of u d) as [|n [|n' l]];
    cbn [Db.scalar_one_or_none Db.ret Db.raise];
    try (split; [discriminate | intros _; eexists; reflexivity]).
  - destruct (is_trainer _ _ None); cbn [negb];
      try (split; [discriminate | intros _; eexists; reflexivity]).
    split; [intros _|discriminate].
    destruct (SharedContent.shared_of _ d) as [|e [|e' l]];
      cbn [Db.scalar_one_or_none Db.ret Db.raise]; try reflexivity.
    + unfold Db.update, Db.commit. cbn [Db.pending Db.committed].
      unfold with_shared, created.
      destruct (Db.flush_error _); reflexivity.
    + unfold Db.update, Db.commit. cbn [Db.pending Db.committed].
      unfold with_shared, overwritten, overwrite.
      cbn [Models.SharedAssignment.id].
      destruct (Db.flush_error _); reflexivity.
  - destruct (is_trainer _ _ n); cbn [negb];
      try (split; [discriminate | intros _; eexists; reflexivity]).
    split; [intros _|discriminate].
    destruct (SharedContent.shared_of _ d) as [|e [|e' l]];
      cbn [Db.scalar_one_or_none Db.ret Db.raise]; try reflexivity.
    + unfold Db.update, Db.commit. cbn [Db.pending Db.committed].
      unfold with_shared, created.
      destruct (Db.flush_error _); reflexivity.
    + unfold Db.update, Db.commit. cbn [Db.pending Db.committed].
      unfold with_shared, overwritten, overwrite.
      cbn [Models.SharedAssignment.id].
      destruct (Db.flush_error _); reflexivity.
Qed.

Lemma trainer_retrieval_run (training_id : Z)
      (current_user : dict string) (u : string) (d : Db.t) :
  lookup current_user "username" = Some u ->
  u <> "" ->
  passes_trainer_checks training_id u d = true ->
  get_shared_assignment_for_trainer training_id current_user
    (Db.open d) =
  match SharedContent.shared_of training_id d with
  | [] => (Ok None, Db.open d)
  | [sa] => (Ok (Some (response_of sa)), Db.open d)
  | _ => (Raise MultipleResultsFound, Db.open d)
  end.
Proof.
  intros Hu Hne. unfold get_shared_assignment_for_trainer,
    passes_trainer_checks. rewrite Hu.
  apply String.eqb_neq in Hne. unfold SharedContent.no_username.
  rewrite Hne. unfold Db.bind, Db.view. cbn [Db.open Db.pending].
  destruct (training_by_id _ d) as [|t [|t' l]];
    cbn [Db.scalar_one_or_none Db.ret Db.raise]; try discriminate.
  destruct (nonblank (trainer_name_of t)); cbn [negb andb];
    try discriminate.
  unfold scalar_name, Db.bind.
  destruct (employee_names_of u d) as [|n [|n' l]];
    cbn [Db.scalar_one_or_none Db.ret Db.raise]; try discriminate.
  - destruct (is_trainer _ _ None); cbn [negb]; try discriminate.
    intros _.
    destruct (SharedContent.shared_of _ d) as [|e [|e' l]]; reflexivity.
  - destruct (is_trainer _ _ n); cbn [negb]; try discriminate.
    intros _.
    destruct (SharedContent.shared_of _ d) as [|e [|e' l]]; reflexivity.
Qed.


(** The checks on the caller do not read the shared assignments. *)
Lemma passes_trainer_checks_with_shared (training_id : Z) (u : string)
      (l : list Models.SharedAssignment.t) (d : Db.t) :
  passes_trainer_checks training_id u (with_shared l d)
  = passes_trainer_checks training_id u d.
Proof. reflexivity. Qed.

(** What a successful sharing tells about the store before it, and the
    store after it. *)
Lemma share_ok (now : Z) (data : SharedAssignmentCreate.t)
      (current_user : dict string) (d : Db.t)
      (response : SharedContent.SharedAssignmentResponse.t)
      (s' : Db.Session) :
  share_assignment now data current_user (Db.open d)
  = (Ok response, s') ->
  exists u row rows,
    lookup current_user "username" = Some u
    /\ u <> ""
    /\ passes_trainer_checks (SharedAssignmentCreate.training_id data) u d = true
    /\ response = response_of row
    /\ s' = Db.open (with_shared rows d)
    /\ ((SharedContent.shared_of (SharedAssignmentCreate.training_id data) d
         = []
         /\ row = created now data u d
         /\ rows = (Db.shared_assignments d ++ [row])%list)
        \/ (exists existing,
               SharedContent.shared_of
                 (SharedAssignmentCreate.training_id data) d = [existing]
               /\ row = overwrite now data existing
               /\ rows = overwritten row (Db.shared_assignments d))).
Proof.
  intros H.
  destruct (lookup current_user "username") as [u|] eqn:Hu;
    [|unfold share_assignment in H; rewrite Hu in H; discriminate].
  destruct (String.eqb_spec u "") as [->|Hne].
  { unfold share_assignment in H. rewrite Hu in H. discriminate. }
  destruct (share_assignment_run now data current_user u d Hu Hne)
    as [Hpass Hfail].
  destruct (passes_trainer_checks (SharedAssignmentCreate.training_id data) u d) eqn:Hp.
  2:{ destruct (Hfail eq_refl) as [e He]. rewrite He in H. discriminate. }
  rewrite (Hpass eq_refl) in H. clear Hpass Hfail.
  destruct (SharedContent.shared_of _ d) as [|existing [|e' l]] eqn:Hs;
    [| |discriminate]; cbv zeta in H;
    destruct (Db.flush_error _); try discriminate;
    injection H as <- <-.
  - exists u, (created now data u d),
      (Db.shared_assignments d ++ [created now data u d])%list.
    repeat split; try assumption. left. repeat split; assumption.
  - exists u, (overwrite now data existing),
      (overwritten (overwrite now data existing) (Db.shared_assignments d)).
    repeat split; try assumption. right. exists existing.
    repeat split.
Qed.

Lemma share_raise (now : Z) (data : SharedAssignmentCreate.t)
      (current_user : dict string) (d : Db.t) (e : Exn) (s' : Db.Session) :
  share_assignment now data current_user (Db.open d)
  = (Raise e, s') ->
  Db.committed s' = d.
Proof.
  intros H.
  destruct (lookup current_user "username") as [u|] eqn:Hu;
    [|unfold share_assignment in H; rewrite Hu in H;
      injection H as _ <-; reflexivity].
  destruct (String.eqb_spec u "") as [->|Hne].
  { unfold share_assignment in H. rewrite Hu in H.
    injection H as _ <-; reflexivity. }
  destruct (share_assignment_run now data current_user u d Hu Hne)
    as [Hpass Hfail].
  destruct (passes_trainer_checks (SharedAssignmentCreate.training_id data) u d) eqn:Hp.
  2:{ destruct (Hfail eq_refl) as [e' He]. rewrite He in H.
      injection H as _ <-; reflexivity. }
  rewrite (Hpass eq_refl) in H. clear Hpass Hfail.
  destruct (SharedContent.shared_of _ d) as [|existing [|e' l]] eqn:Hs;
    cbv zeta in H;
    try (destruct (Db.flush_error _); try discriminate);
    injection H as _ <-; reflexivity.
Qed.

Lemma overwritten_length (row : Models.SharedAssignment.t)
      (l : list Models.SharedAssignment.t) :
  List.length (overwritten row l) = List.length l.
Proof. apply length_map. Qed.

Lemma overwritten_In (row : Models.SharedAssignment.t)
      (l : list Models.SharedAssignment.t) (existing : Models.SharedAssignment.t) :
  In existing l ->
  Models.SharedAssignment.id row = Models.SharedAssignment.id existing ->
  In row (overwritten row l).
Proof.
  intros Hin Hid. unfold overwritten. apply in_map_iff.
  exists existing. split; [|exact Hin]. rewrite Hid, Z.eqb_refl. reflexivity.
Qed.

End Sharing.

Section SharingFacts.
Import Routes RouteStates.

Lemma shared_of_In (training_id : Z) (d : Db.t)
      (sa : Models.SharedAssignment.t) :
  In sa (SharedContent.shared_of training_id d)
  <-> In sa (Db.shared_assignments d)
      /\ Models.SharedAssignment.training_id sa = training_id.
Proof.
  unfold SharedContent.shared_of. rewrite filter_In, Z.eqb_eq. tauto.
Qed.

(** Rows with different ids are different rows: what the primary key
    gives. *)
Lemma same_id_same_row (l : list Models.SharedAssignment.t)
      (a b : Models.SharedAssignment.t) :
  NoDup (map Models.SharedAssignment.id l) ->
  In a l -> In b l ->
  Models.SharedAssignment.id a = Models.SharedAssignment.id b -> a = b.
Proof.
  induction l as [|r l IH]; simpl; intros Hnd Ha Hb Hid; [destruct Ha|].
  apply NoDup_cons_iff in Hnd. destruct Hnd as [Hnotin Hnd'].
  destruct Ha as [<-|Ha], Hb as [<-|Hb]; try reflexivity.
  - exfalso. apply Hnotin. rewrite Hid. now apply in_map.
  - exfalso. apply Hnotin. rewrite <- Hid. now apply in_map.
  - now apply IH.
Qed.

(** Overwriting a row changes no column on which the new row agrees with
    the rows of its id. *)
Lemma overwritten_column {B} (g : Models.SharedAssignment.t -> B)
      (row : Models.SharedAssignment.t)
      (l : list Models.SharedAssignment.t) :
  (forall r, In r l ->
             Models.SharedAssignment.id r = Models.SharedAssignment.id row ->
             g row = g r) ->
  map g (overwritten row l) = map g l.
Proof.
  intros H. unfold overwritten. rewrite map_map. apply map_ext_in.
  intros r Hr.
  destruct (Z.eqb_spec (Models.SharedAssignment.id r)
                       (Models.SharedAssignment.id row)) as [E|E];
    [now apply H | reflexivity].
Qed.

(** After an overwrite the training has the new row, and only it. *)
Lemma shared_of_overwritten (training_id : Z)
      (row existing : Models.SharedAssignment.t)
      (l : list Models.SharedAssignment.t) :
  NoDup (map Models.SharedAssignment.id l) ->
  filter (fun a => Models.SharedAssignment.training_id a =? training_id) l
  = [existing] ->
  Models.SharedAssignment.id row = Models.SharedAssignment.id existing ->
  Models.SharedAssignment.training_id row = training_id ->
  filter (fun a => Models.SharedAssignment.training_id a =? training_id)
         (overwritten row l) = [row].
Proof.
  intros Hnd Hf Hid Htid.
  assert (In existing l) as Hin.
  { assert (In existing [existing]) as Hx by now left.
    rewrite <- Hf in Hx. apply filter_In in Hx. tauto. }
  assert (forall r, In r l ->
            Models.SharedAssignment.training_id r = training_id ->
            r = existing) as Honly.
  { intros r Hr Ht.
    assert (In r [existing]) as Hx.
    { rewrite <- Hf. apply filter_In. split; [exact Hr|].
      now apply Z.eqb_eq. }
    destruct Hx as [<-|[]]. reflexivity. }
  clear Hf.
  induction l as [|r l IH]; [destruct Hin|].
  cbn [map] in Hnd. apply NoDup_cons_iff in Hnd.
  destruct Hnd as [Hnotin Hnd'].
  unfold overwritten. cbn [map filter]. fold (overwritten row l).
  destruct (Z.eqb_spec (Models.SharedAssignment.id r)
                       (Models.SharedAssignment.id row)) as [E|E].
  - rewrite Htid, Z.eqb_refl. f_equal.
    apply filter_nil. intros x Hx. unfold overwritten in Hx.
    apply in_map_iff in Hx. destruct Hx as [y [<- Hy]].
    assert (Models.SharedAssignment.id y <> Models.SharedAssignment.id row)
      as Hdiff.
    { intros Heq. apply Hnotin. rewrite E, <- Heq. now apply in_map. }
    apply Z.eqb_neq in Hdiff. rewrite Hdiff.
    apply Z.eqb_neq. intros Ht.
    assert (y = existing) as -> by (apply Honly; [now right | exact Ht]).
    apply Z.eqb_neq in Hdiff. apply Hdiff. now rewrite Hid.
  - destruct Hin as [->|Hin]; [now rewrite Hid in E|].
    assert ((Models.SharedAssignment.training_id r =? training_id) = false)
      as ->.
    { apply Z.eqb_neq. intros Ht. apply E.
      rewrite (Honly r (or_introl eq_refl) Ht). now rewrite Hid. }
    apply IH; [exact Hnd' | exact Hin|].
    intros x Hx. apply Honly. now right.
Qed.

End SharingFacts.

(** X19.  A sharing that is refused or fails leaves the store as it
    was.  An accepted one changes the shared assignments only and answers
    with a stored row that carries the training, title, description and
    questions of the request and the time of the request as update time;
    when the training had no shared assignment the row is new: it is the
    caller's, created at that time, with an id above every id in use;
    when it had one, that row is overwritten in place: its id, its first
    trainer and its creation time are kept, also when another trainer
    shares, and the table keeps its length. *)
Theorem share_assignment_outcome :
  forall (now : Z)
         (data : Routes.SharedAssignmentCreate.t)
         (current_user : dict string) (d : Db.t),
    match Routes.share_assignment now data current_user
            (Db.open d)
    with
    | (Raise _, s') => Db.committed s' = d
    | (Ok response, s') =>
        Db.committed s'
        = RouteStates.with_shared
            (Db.shared_assignments (Db.committed s')) d
        /\ (exists row,
               In row (Db.shared_assignments (Db.committed s'))
               /\ response = Routes.response_of row)
        /\ SharedContent.SharedAssignmentResponse.training_id response
           = Routes.SharedAssignmentCreate.training_id data
        /\ SharedContent.SharedAssignmentResponse.title response
           = Routes.SharedAssignmentCreate.title data
        /\ SharedContent.SharedAssignmentResponse.description response
           = Routes.SharedAssignmentCreate.description data
        /\ SharedContent.SharedAssignmentResponse.questions response
           = Routes.SharedAssignmentCreate.questions data
        /\ SharedContent.SharedAssignmentResponse.updated_at response = now
        /\ (SharedContent.shared_of
              (Routes.SharedAssignmentCreate.training_id data) d = [] ->
            lookup current_user "username"
            = Some (SharedContent.SharedAssignmentResponse.trainer_username
                      response)
            /\ SharedContent.SharedAssignmentResponse.created_at response
               = now
            /\ Forall (fun r => Models.SharedAssignment.id r
                                < SharedContent.SharedAssignmentResponse.id
                                    response)
                      (Db.shared_assignments d)
            /\ List.length (Db.shared_assignments (Db.committed s'))
               = S (List.length (Db.shared_assignments d)))
        /\ (forall existing,
               SharedContent.shared_of
                 (Routes.SharedAssignmentCreate.training_id data) d
               = [existing] ->
               SharedContent.SharedAssignmentResponse.id response
               = Models.SharedAssignment.id existing
               /\ SharedContent.SharedAssignmentResponse.trainer_username
                    response
                  = Models.SharedAssignment.trainer_username existing
               /\ SharedContent.SharedAssignmentResponse.created_at response
                  = Models.SharedAssignment.created_at existing
               /\ List.length (Db.shared_assignments (Db.committed s'))
                  = List.length (Db.shared_assignments d))
    end.
Proof.
  intros now data current_user d.
  destruct (Routes.share_assignment now data current_user
              (Db.open d)) as [[response|e] s'] eqn:H.
  2:{ exact (share_raise now data current_user d e s' H). }
  apply share_ok in H.
  destruct H as [u [row [rows [Hu [Hne [Hp [-> [-> Hcase]]]]]]]].
  cbn [Db.open Db.committed].
  destruct Hcase as [[Hs [-> ->]]|[existing [Hs [-> ->]]]].
  - split; [reflexivity|]. split.
    { eexists. split; [|reflexivity].
      cbn [RouteStates.with_shared Db.set_shared_assignments
           Db.shared_assignments].
      apply in_or_app. right. now left. }
    repeat (split; [reflexivity|]). split.
    + intros _. split; [exact Hu|]. split; [reflexivity|]. split.
      * apply Forall_forall. intros r Hr.
        pose proof (next_id_fresh
                      (map Models.SharedAssignment.id
                           (Db.shared_assignments d))) as Hf.
        rewrite Forall_forall in Hf. apply Hf. now apply in_map.
      * cbn [RouteStates.with_shared Db.set_shared_assignments
           Db.shared_assignments].
        rewrite length_app. cbn [List.length]. lia.
    + intros existing He. rewrite Hs in He. discriminate.
  - assert (In existing (Db.shared_assignments d)
            /\ Models.SharedAssignment.training_id existing
               = Routes.SharedAssignmentCreate.training_id data)
      as [Hin Htid].
    { apply shared_of_In. rewrite Hs. now left. }
    split; [reflexivity|]. split.
    { eexists. split; [|reflexivity].
      cbn [RouteStates.with_shared Db.set_shared_assignments
           Db.shared_assignments].
      now apply (overwritten_In _ _ existing). }
    split; [exact Htid|].
    repeat (split; [reflexivity|]). split.
    + intros He. rewrite Hs in He. discriminate.
    + intros existing' He. rewrite Hs in He. injection He as <-.
      repeat (split; [reflexivity|]).
      cbn [RouteStates.with_shared Db.set_shared_assignments
           Db.shared_assignments].
      apply overwritten_length.
Qed.

(** X20.  The sharing route keeps the shared assignments one per
    training and their ids distinct: when no two rows of the table have
    the same id or the same training before a request, none have after
    it, whatever the request and its outcome. *)
Theorem share_keeps_one_per_training :
  forall (now : Z)
         (data : Routes.SharedAssignmentCreate.t)
         (current_user : dict string) (d : Db.t),
    NoDup (RouteStates.shared_ids d) ->
    NoDup (RouteStates.shared_training_ids d) ->
    let d' :=
      Db.committed (snd (Routes.share_assignment now data
                           current_user (Db.open d))) in
    NoDup (RouteStates.shared_ids d')
    /\ NoDup (RouteStates.shared_training_ids d').
Proof.
  intros now data current_user d Hids Htids d'. subst d'.
  destruct (Routes.share_assignment now data current_user
              (Db.open d)) as [[response|e] s'] eqn:H; cbn [snd].
  2:{ rewrite (share_raise now data current_user d e s' H).
      now split. }
  apply share_ok in H.
  destruct H as [u [row [rows [Hu [Hne [Hp [-> [-> Hcase]]]]]]]].
  cbn [Db.open Db.committed].
  unfold RouteStates.shared_ids, RouteStates.shared_training_ids in *.
  cbn [RouteStates.with_shared Db.set_shared_assignments
           Db.shared_assignments].
  destruct Hcase as [[Hs [-> ->]]|[existing [Hs [-> ->]]]].
  - rewrite !map_app. cbn [map RouteStates.created
                            Models.SharedAssignment.id
                            Models.SharedAssignment.training_id].
    split.
    + apply NoDup_app; [exact Hids | repeat constructor; intros [] |].
      intros a Ha [<-|[]].
      pose proof (next_id_fresh
                    (map Models.SharedAssignment.id
                         (Db.shared_assignments d))) as Hf.
      rewrite Forall_forall in Hf. specialize (Hf _ Ha). lia.
    + apply NoDup_app; [exact Htids | repeat constructor; intros [] |].
      intros a Ha [<-|[]].
      apply in_map_iff in Ha. destruct Ha as [r [Hr Hin]].
      assert (In r (SharedContent.shared_of
                      (Routes.SharedAssignmentCreate.training_id data) d))
        as Hx by (apply shared_of_In; now split).
      rewrite Hs in Hx. destruct Hx.
  - assert (In existing (Db.shared_assignments d)
            /\ Models.SharedAssignment.training_id existing
               = Routes.SharedAssignmentCreate.training_id data)
      as [Hin Htid].
    { apply shared_of_In. rewrite Hs. now left. }
    rewrite !overwritten_column; [now split| |].
    + intros r Hr Hid. cbn [Routes.overwrite Models.SharedAssignment.id
                             Models.SharedAssignment.training_id] in *.
      now rewrite (same_id_same_row _ r existing Hids Hr Hin Hid).
    + intros r Hr Hid. cbn [Routes.overwrite Models.SharedAssignment.id] in *.
      now symmetry.
Qed.

(** X21.  What a trainer has shared is what is retrieved: after an
    accepted sharing, on a table with distinct ids, the trainer's
    retrieval for the training returns the very response of the sharing,
    and so does the retrieval of every employee assigned to the
    training. *)
Theorem shared_assignment_is_retrieved :
  forall (now : Z)
         (data : Routes.SharedAssignmentCreate.t)
         (current_user : dict string) (d : Db.t)
         (response : SharedContent.SharedAssignmentResponse.t)
         (s' : Db.Session),
    NoDup (RouteStates.shared_ids d) ->
    Routes.share_assignment now data current_user (Db.open d)
    = (Ok response, s') ->
    Routes.get_shared_assignment_for_trainer (Routes.SharedAssignmentCreate.training_id data) current_user
      (Db.open (Db.committed s'))
    = (Ok (Some response), Db.open (Db.committed s'))
    /\ (forall (employee_user : dict string) (employee : string)
               (a : Models.TrainingAssignment.t),
           lookup employee_user "username" = Some employee ->
           employee <> "" ->
           SharedContent.assignments_of
             (Routes.SharedAssignmentCreate.training_id data) employee d
           = [a] ->
           SharedContent.get_shared_assignment
             (Routes.SharedAssignmentCreate.training_id data) employee_user
             (Db.open (Db.committed s'))
           = (Ok (Some response), Db.open (Db.committed s'))).
Proof.
  intros now data current_user d response s' Hids H.
  apply share_ok in H.
  destruct H as [u [row [rows [Hu [Hne [Hp [-> [-> Hcase]]]]]]]].
  cbn [Db.open Db.committed].
  assert (SharedContent.shared_of
            (Routes.SharedAssignmentCreate.training_id data)
            (RouteStates.with_shared rows d) = [row]) as Hrow.
  { unfold SharedContent.shared_of.
    cbn [RouteStates.with_shared Db.set_shared_assignments
           Db.shared_assignments].
    destruct Hcase as [[Hs [-> ->]]|[existing [Hs [-> ->]]]].
    - rewrite filter_app. unfold SharedContent.shared_of in Hs. rewrite Hs.
      cbn [filter app RouteStates.created
           Models.SharedAssignment.training_id].
      now rewrite Z.eqb_refl.
    - assert (In existing (Db.shared_assignments d)
              /\ Models.SharedAssignment.training_id existing
                 = Routes.SharedAssignmentCreate.training_id data)
        as [Hin Htid].
      { apply shared_of_In. rewrite Hs. now left. }
      apply (shared_of_overwritten _ _ existing);
        [exact Hids | exact Hs | reflexivity | exact Htid]. }
  split.
  - rewrite (trainer_retrieval_run _ current_user u _ Hu Hne);
      [now rewrite Hrow|].
    rewrite passes_trainer_checks_with_shared. exact Hp.
  - intros employee_user employee a He Hene Ha.
    apply (get_shared_assignment_assigned _ _ _ employee a row);
      [exact He | exact Hene | exact Ha | exact Hrow].
Qed.

Lemma share_keeps_one_per_training_witness :
  let d := Cases.training_store [] in
  let d' :=
    Db.committed (snd (Routes.share_assignment 40
                         (Cases.share_quiz [Scenario.q_text]) Cases.trainer
                         (Db.open d))) in
  NoDup (RouteStates.shared_ids d)
  /\ NoDup (RouteStates.shared_training_ids d)
  /\ NoDup (RouteStates.shared_ids d')
  /\ NoDup (RouteStates.shared_training_ids d').
Proof.
  intros d d'.
  assert (NoDup (RouteStates.shared_ids d)) as H1
      by (repeat constructor; intros []).
  assert (NoDup (RouteStates.shared_training_ids d)) as H2
      by (repeat constructor; intros []).
  split; [exact H1|]. split; [exact H2|].
  exact (share_keeps_one_per_training 40
           (Cases.share_quiz [Scenario.q_text]) Cases.trainer d H1 H2).
Defined.

Lemma shared_assignment_is_retrieved_witness :
  let d := Cases.training_store [] in
  let run :=
    Routes.share_assignment 40
      (Cases.share_quiz [Scenario.q_text]) Cases.trainer (Db.open d) in
  let response :=
    SharedContent.SharedAssignmentResponse.mk 7 1 "T1" "Quiz 2"
      (Some "second edition") [Scenario.q_text] 10 40 in
  NoDup (RouteStates.shared_ids d)
  /\ run = (Ok response, snd run)
  /\ Routes.get_shared_assignment_for_trainer 1
       Cases.trainer (Db.open (Db.committed (snd run)))
     = (Ok (Some response), Db.open (Db.committed (snd run))).
Proof.
  intros d run response.
  assert (NoDup (RouteStates.shared_ids d)) as H1
      by (repeat constructor; intros []).
  assert (run = (Ok response, snd run)) as H by (vm_compute; reflexivity).
  split; [exact H1|]. split; [exact H|].
  exact (proj1 (shared_assignment_is_retrieved 40
                  (Cases.share_quiz [Scenario.q_text]) Cases.trainer d
                  response (snd run) H1 H)).
Defined.

Section TrainerTest.
Import Routes.

Lemma prefix_refl (s : string) : String.prefix s s = true.
Proof.
  induction s as [|c s IH]; simpl; [reflexivity|].
  destruct (ascii_dec c c) as [_|E]; [exact IH | now elim E].
Qed.

Lemma str_in_refl (s : string) : str_in s s = true.
Proof. destruct s; cbn [str_in]; now rewrite prefix_refl. Qed.

End TrainerTest.

(** X22.  The test that lets a caller act as trainer of a training is a
    substring test: the caller passes exactly when the lower-cased
    username, or the non-empty lower-cased employee name, occurs in the
    lower-cased trainer name; the two exact comparisons of the source
    add nothing. *)
Theorem is_trainer_is_substring_test :
  forall (trainer_name trainer_username : string)
         (employee_name : option string),
    Routes.is_trainer trainer_name trainer_username employee_name
    = (str_in (lower trainer_username) (lower trainer_name)
       || match employee_name with
          | Some n => Routes.nonblank (lower n)
                      && str_in (lower n) (lower trainer_name)
          | None => false
          end)%bool.
Proof.
  intros tn u en. unfold Routes.is_trainer.
  assert (forall a b : string, (a =? b)%string = true -> str_in b a = true)
    as Heq.
  { intros a b H. apply String.eqb_eq in H. subst. apply str_in_refl. }
  destruct en as [n|]; cbn [lower Routes.nonblank String.eqb negb andb].
  - destruct (lower tn =? lower u)%string eqn:E1;
      [rewrite (Heq _ _ E1); reflexivity|].
    destruct (lower tn =? lower n)%string eqn:E2.
    + rewrite (Heq _ _ E2).
      destruct (Routes.nonblank (lower n)), (str_in (lower u) (lower tn));
        reflexivity.
    + destruct (Routes.nonblank (lower n)), (str_in (lower u) (lower tn)),
        (str_in (lower n) (lower tn)); reflexivity.
  - destruct (lower tn =? lower u)%string eqn:E1;
      [rewrite (Heq _ _ E1); reflexivity|].
    destruct (str_in (lower u) (lower tn)); reflexivity.
Qed.

Section TwoManagers.
Import Routes RouteStates.

Lemma scalar_one_or_none_two {A} (rows : list A) (s : Db.Session) :
  (2 <= List.length rows)%nat ->
  Db.scalar_one_or_none rows s = (Raise MultipleResultsFound, s).
Proof.
  destruct rows as [|a [|b l]]; simpl; intros H; try lia. reflexivity.
Qed.

End TwoManagers.

(** X23.  A caller who is listed as an employee under two managers or
    more cannot use the trainer's routes for a training that has a
    trainer name: sharing and the trainer's retrieval both raise
    MultipleResultsFound from the look-up of the employee name, whatever
    the trainer name is, and leave the store as it was. *)
Theorem trainer_under_two_managers_is_refused :
  forall (now : Z)
         (data : Routes.SharedAssignmentCreate.t)
         (current_user : dict string) (trainer_username : string)
         (d : Db.t) (training : Models.TrainingDetail.t),
    lookup current_user "username" = Some trainer_username ->
    trainer_username <> "" ->
    Routes.training_by_id (Routes.SharedAssignmentCreate.training_id data) d = [training] ->
    Routes.nonblank (Routes.trainer_name_of training) = true ->
    (2 <= List.length (Routes.employee_names_of trainer_username d))%nat ->
    Routes.share_assignment now data current_user (Db.open d)
    = (Raise MultipleResultsFound, Db.open d)
    /\ Routes.get_shared_assignment_for_trainer (Routes.SharedAssignmentCreate.training_id data) current_user
         (Db.open d)
       = (Raise MultipleResultsFound, Db.open d).
Proof.
  intros now data current_user u d t Hu Hne Ht Hn Htwo.
  apply String.eqb_neq in Hne.
  unfold Routes.share_assignment, Routes.get_shared_assignment_for_trainer.
  rewrite Hu. unfold SharedContent.no_username. rewrite Hne.
  unfold Db.bind, Db.view. cbn [Db.open Db.pending]. rewrite Ht.
  cbn [Db.scalar_one_or_none Db.ret]. rewrite Hn. cbn [negb].
  unfold Routes.scalar_name, Db.bind.
  rewrite (scalar_one_or_none_two _ _ Htwo). now split.
Qed.

Lemma trainer_under_two_managers_is_refused_witness :
  let d := Cases.two_manager_store in
  let data := Cases.share_quiz [Scenario.q_text] in
  (2 <= List.length (Routes.employee_names_of "T1" d))%nat
  /\ Routes.share_assignment 40 data Cases.trainer
       (Db.open d)
     = (Raise MultipleResultsFound, Db.open d)
  /\ Routes.get_shared_assignment_for_trainer 1
       Cases.trainer (Db.open d)
     = (Raise MultipleResultsFound, Db.open d).
Proof.
  intros d data.
  assert (2 <= List.length (Routes.employee_names_of "T1" d))%nat as H2
      by (vm_compute; lia).
  assert ("T1" <> "") as Hne by discriminate.
  split; [exact H2|].
  exact (trainer_under_two_managers_is_refused 40 data
           Cases.trainer "T1" d (Scenario.training (VStr "T1")) eq_refl Hne
           eq_refl eq_refl H2).
Defined.

(** X24.  After a manager has assigned a training, the team listing of
    that manager returns and shows the assignment exactly when the
    employee is a member of the manager's team: the assignment of an
    employee outside the team is accepted but not listed. *)
Theorem assignment_listed_iff_team_member :
  forall (assignment : Routes.AssignmentCreate.t)
         (current_user : dict string) (manager : string) (d : Db.t)
         (msg : string) (s' : Db.Session),
    Routes.assign_training_to_employee assignment current_user
      (Db.open d) = (Ok msg, s') ->
    lookup current_user "username" = Some manager ->
    exists listing,
      Routes.get_team_assigned_trainings current_user
        (Db.open (Db.committed s'))
      = (Ok listing, Db.open (Db.committed s'))
      /\ (In (Routes.AssignmentCreate.training_id assignment,
              Routes.AssignmentCreate.employee_username assignment) listing
          <-> In (Routes.AssignmentCreate.employee_username assignment)
                 (RouteStates.team_of manager d)).
Proof.
  intros assignment current_user manager d msg s' H Hu.
  apply assign_ok in H.
  destruct H as [manager' [Hu' [Hnone [-> _]]]].
  rewrite Hu in Hu'. injection Hu' as <-.
  cbn [Db.open Db.committed].
  unfold Routes.get_team_assigned_trainings. rewrite Hu.
  unfold Db.bind, Db.view. cbn [Db.open Db.pending].
  change (map Models.ManagerEmployee.employee_empid
            (filter (fun r => (Models.ManagerEmployee.manager_empid r
                               =? manager)%string)
                    (Db.manager_employee
                       (RouteStates.assigned assignment manager d))))
    with (RouteStates.team_of manager d).
  destruct (RouteStates.team_of manager d) as [|e team] eqn:Ht.
  - cbn [ExcelLoader.nonempty negb]. eexists. split; [reflexivity|].
    split; intros [].
  - cbn [ExcelLoader.nonempty negb]. eexists. split; [reflexivity|].
    rewrite in_map_iff. split.
    + intros [a [Hpair Ha]]. apply filter_In in Ha.
      destruct Ha as [_ Ha]. apply andb_true_iff in Ha.
      destruct Ha as [Ha _]. apply str_mem_In in Ha.
      injection Hpair as _ <-. exact Ha.
    + intros Hin.
      exists (Models.TrainingAssignment.mk
                (Routes.AssignmentCreate.training_id assignment)
                (Routes.AssignmentCreate.employee_username assignment)
                manager).
      split; [reflexivity|]. apply filter_In. split.
      * rewrite training_assignments_assigned. apply in_or_app. right.
        now left.
      * cbn [Models.TrainingAssignment.employee_empid
             Models.TrainingAssignment.manager_empid].
        rewrite String.eqb_refl, andb_true_r. now apply str_mem_In.
Qed.

Lemma assignment_listed_iff_team_member_witness :
  let d := Cases.unassigned_store [] in
  let run :=
    Routes.assign_training_to_employee Cases.assign_e100
      Cases.manager (Db.open d) in
  run = (Ok "Training assigned successfully", snd run)
  /\ exists listing,
       Routes.get_team_assigned_trainings Cases.manager
         (Db.open (Db.committed (snd run)))
       = (Ok listing, Db.open (Db.committed (snd run)))
       /\ (In (1, "E100") listing
           <-> In "E100" (RouteStates.team_of "M1" d)).
Proof.
  intros d run.
  assert (run = (Ok "Training assigned successfully", snd run)) as H
      by (vm_compute; reflexivity).
  split; [exact H|].
  exact (assignment_listed_iff_team_member Cases.assign_e100 Cases.manager "M1" d _ (snd run) H eq_refl).
Defined.

(* ================================================================== *)
(** * Importing the same file twice *)
(* ================================================================== *)

Section Reimport.
Import ExcelLoader ExcelImport.

Lemma existsb_false_In {A} (f : A -> bool) (l : list A) (x : A) :
  existsb f l = false -> In x l -> f x = false.
Proof.
  intros H Hx. destruct (f x) eqn:E; [|reflexivity].
  rewrite <- H. symmetry. apply existsb_exists. eauto.
Qed.

(** In a store that satisfies its foreign keys, the deletion of the
    trainings is not refused only when no shared assignment, submission
    or other row references a training at all. *)
Lemma unblocked_unreferenced (d : Db.t) :
  Db.constraints_ok d = true -> blocked d = false ->
  Db.shared_assignments d = [] /\ Db.assignment_submissions d = []
  /\ Db.other_training_refs d = [].
Proof.
  intros Hc Hb. apply constraints_ok_parts in Hc.
  destruct Hc as [_ [_ [_ [_ [_ Hr]]]]].
  unfold Db.references_ok in Hr. rewrite !andb_true_iff in Hr.
  destruct Hr as [[[_ Hsh] Hsu] Ho].
  unfold blocked, Db.training_referenced, Db.training_references in Hb.
  cbn [Db.set_training_assignments Db.training_assignments
       Db.shared_assignments Db.assignment_submissions
       Db.other_training_refs map app] in Hb.
  change (Db.training_ids (Db.mk (Db.users d) (Db.manager_employee d)
            (Db.trainers d) (Db.training_details d) []
            (Db.shared_assignments d) (Db.assignment_submissions d)
            (Db.other_training_refs d)))
    with (Db.training_ids d) in Hb.
  pose proof (fun x => existsb_false_In _ _ x Hb) as Hnone.
  cbv beta in Hnone.
  split; [|split].
  - destruct (Db.shared_assignments d) as [|a l] eqn:E; [reflexivity|].
    exfalso. unfold Db.shared_assignments_fk in Hsh. rewrite E in Hsh.
    cbn [forallb] in Hsh. rewrite !andb_true_iff in Hsh.
    destruct Hsh as [[Hid _] _].
    rewrite Hnone in Hid; [discriminate|]. cbn [map app]. now left.
  - destruct (Db.assignment_submissions d) as [|a l] eqn:E; [reflexivity|].
    exfalso. unfold Db.assignment_submissions_fk in Hsu. rewrite E in Hsu.
    cbn [forallb] in Hsu. rewrite !andb_true_iff in Hsu.
    destruct Hsu as [[[Hid _] _] _].
    rewrite Hnone in Hid; [discriminate|].
    apply in_or_app. right. cbn [map app]. now left.
  - destruct (Db.other_training_refs d) as [|a l] eqn:E; [reflexivity|].
    exfalso. unfold Db.other_training_refs_fk in Ho. rewrite E in Ho.
    cbn [forallb] in Ho. rewrite !andb_true_iff in Ho.
    destruct Ho as [Hid _].
    rewrite Hnone in Hid; [discriminate|].
    apply in_or_app. right. apply in_or_app. right. now left.
Qed.

(** The import does not read the trainers, the trainings and the
    training assignments of the store it replaces. *)
Lemma imported_imported (trainers trainers' : list Models.Trainer.t)
      (trainings trainings' : list Models.TrainingDetail.t) (d : Db.t) :
  imported trainers trainings (imported trainers' trainings' d)
  = imported trainers trainings d.
Proof. reflexivity. Qed.

(** Nothing blocks a second import on a store without referencing
    rows. *)
Lemma imported_not_blocked (trainers : list Models.Trainer.t)
      (trainings : list Models.TrainingDetail.t) (d : Db.t) :
  Db.shared_assignments d = [] -> Db.assignment_submissions d = [] ->
  Db.other_training_refs d = [] ->
  blocked (imported trainers trainings d) = false.
Proof.
  intros H1 H2 H3.
  unfold blocked, imported, Db.training_referenced, Db.training_references.
  cbn [Db.set_training_assignments Db.training_assignments
       Db.shared_assignments Db.assignment_submissions
       Db.other_training_refs].
  now rewrite H1, H2, H3.
Qed.

End Reimport.

(** X25.  The Excel import is idempotent on a store that satisfies what
    the schema declares: importing the same workbook again right after a
    successful import succeeds too and leaves the store exactly as the
    first import left it. *)
Theorem excel_import_twice :
  forall (to_date : Value -> Res Value) (wb : ExcelLoader.Workbook)
         (d : Db.t) (s' : Db.Session),
    Db.constraints_ok d = true ->
    ExcelLoader.load_all_from_excel to_date wb (Db.open d) = (Ok tt, s') ->
    ExcelLoader.load_all_from_excel to_date wb (Db.open (Db.committed s'))
    = (Ok tt, s').
Proof.
  intros to_date wb d s' Hd H.
  rewrite load_all_from_excel_run in H.
  destruct (ExcelImport.blocked d) eqn:Hb; [discriminate|].
  destruct (unblocked_unreferenced d Hd Hb) as [Hsh [Hsu Ho]].
  rewrite load_all_from_excel_run.
  destruct (ExcelLoader.read_excel wb "Trainers Details") as [df1|e1];
    [|discriminate].
  destruct (ExcelLoader.read_excel wb "Training Details") as [df2|e2];
    [|discriminate].
  destruct (ExcelLoader.training_rows to_date (ExcelLoader.to_records df2)
              [] 0) as [[trainings skipped]|e3]; [|discriminate].
  cbv zeta in *.
  destruct (negb _ && negb _)%bool; [discriminate|].
  destruct (Db.flush_error _) eqn:Hf; [discriminate|].
  injection H as <-. cbn [Db.open Db.committed].
  rewrite (imported_not_blocked _ _ d Hsh Hsu Ho), imported_imported.
  now rewrite Hf.
Qed.

Lemma excel_import_twice_witness :
  let d := Scenario.catalogue_store in
  let wb := Scenario.workbook (VStr "Ada") in
  let run := ExcelLoader.load_all_from_excel Scenario.any_date wb
               (Db.open d) in
  Db.constraints_ok d = true
  /\ run = (Ok tt, snd run)
  /\ ExcelLoader.load_all_from_excel Scenario.any_date wb
       (Db.open (Db.committed (snd run))) = (Ok tt, snd run).
Proof.
  intros d wb run.
  assert (Db.constraints_ok d = true) as Hd by (vm_compute; reflexivity).
  assert (run = (Ok tt, snd run)) as H by (vm_compute; reflexivity).
  split; [exact Hd|]. split; [exact H|].
  exact (excel_import_twice Scenario.any_date wb d (snd run) Hd H).
Defined.

(** X26.  The CSV import is idempotent: importing the same file again
    right after a successful import, at whatever time, succeeds, creates
    no account and leaves the store exactly as the first import left
    it. *)
Theorem csv_import_twice :
  forall (set_order : list string -> list string) (now now' : Z)
         (df : ExcelLoader.Csv) (d : Db.t) (s' : Db.Session),
    CsvImport.is_order set_order ->
    ExcelLoader.load_manager_employee_from_csv set_order now df (Db.open d)
    = (Ok tt, s') ->
    ExcelLoader.load_manager_employee_from_csv set_order now' df
      (Db.open (Db.committed s'))
    = (Ok tt, s').
Proof.
  intros set_order now now' df d s' Horder H.
  pose proof (load_manager_employee_from_csv_ok _ _ _ _ _ H)
    as [H1 [H2 [Hs [Hc [Hdup Hrows]]]]].
  assert (ExcelLoader.missing_user_ids set_order df (Db.committed s') = [])
    as Hm.
  { apply (missing_user_ids_none set_order Horder). intros id Hid.
    rewrite Hs. cbn [Db.open Db.committed]. unfold Db.usernames.
    rewrite (users_with_accounts set_order), map_app, map_map. simpl.
    rewrite map_id. apply in_or_app.
    destruct (in_dec string_dec id (Db.usernames d)) as [Hin|Hnin].
    - left. exact Hin.
    - right. apply (missing_user_ids_In set_order Horder). auto. }
  assert (fst (ExcelLoader.clear_and_check df (Db.open (Db.committed s')))
          = Ok tt) as Hcheck.
  { rewrite (clear_and_check_result df _ (Db.open d)).
    revert H1. unfold Db.bind.
    destruct (ExcelLoader.clear_and_check df (Db.open d)) as [[[]|e] s0];
      [reflexivity | discriminate]. }
  rewrite load_manager_employee_from_csv_run, Hcheck, Hdup.
  unfold CsvImport.with_accounts at 1 2. rewrite Hm.
  cbn [ExcelLoader.nonempty]. rewrite Hrows.
  assert (CsvImport.with_rows df (CsvImport.cleared (Db.committed s'))
          = Db.committed s') as Heq.
  { rewrite Hs. cbn [Db.open Db.committed]. unfold CsvImport.with_accounts.
    destruct (ExcelLoader.nonempty
                (ExcelLoader.missing_user_ids set_order df d));
      reflexivity. }
  rewrite Heq.
  assert (Db.flush_error (Db.committed s') = None) as Hc'
      by (rewrite Hs; now apply flush_error_none).
  rewrite Hc', Hs. reflexivity.
Qed.

Lemma csv_import_twice_witness :
  let d := Scenario.store [] [] in
  let run :=
    ExcelLoader.load_manager_employee_from_csv Scenario.insertion_order 50
      Scenario.csv_e200 (Db.open d) in
  CsvImport.is_order Scenario.insertion_order
  /\ run = (Ok tt, snd run)
  /\ ExcelLoader.load_manager_employee_from_csv Scenario.insertion_order 60
       Scenario.csv_e200 (Db.open (Db.committed (snd run)))
     = (Ok tt, snd run).
Proof.
  intros d run.
  assert (CsvImport.is_order Scenario.insertion_order) as Ho
      by (intros l; apply Permutation_refl).
  assert (run = (Ok tt, snd run)) as H by (vm_compute; reflexivity).
  split; [exact Ho|]. split; [exact H|].
  exact (csv_import_twice Scenario.insertion_order 50 60 Scenario.csv_e200 d
           (snd run) Ho H).
Defined.

(** X27.  The competency import is idempotent: importing the same
    workbook again right after a successful import succeeds and leaves
    the table, and its missing foreign key, as the first import left
    them. *)
Theorem competency_import_twice :
  forall (to_date : Value -> Res Value) (wb : ExcelLoader.Workbook)
         (d : Competency.Store) (s' : Competency.Session),
    Competency.load_employee_competency_from_excel to_date wb
      (Competency.open d) = (Ok tt, s') ->
    Competency.load_employee_competency_from_excel to_date wb
      (Competency.open (Competency.committed s')) = (Ok tt, s').
Proof.
  intros to_date wb d s' H.
  destruct (ExcelLoader.read_excel wb "Employee Competency") as [df|e]
    eqn:Hdf.
  2:{ rewrite (load_competency_no_sheet to_date wb d e Hdf) in H.
      discriminate. }
  assert (s' = Competency.open
                 (Competency.mkStore
                    (fst (Competency.competency_rows to_date
                            (Competency.iter_records df) [] 0)) None)
          /\ ExcelLoader.nonempty
               (fst (Competency.competency_rows to_date
                       (Competency.iter_records df) [] 0)) = true
          /\ forallb Competency.competency_typed
               (fst (Competency.competency_rows to_date
                       (Competency.iter_records df) [] 0)) = true)
    as [-> [Hn Ht']].
  { destruct (Competency.fk_constraint d) as [name|] eqn:Hfk.
    - rewrite (load_competency_with_fk to_date wb d name df Hfk Hdf) in H.
      cbv zeta in H. destruct (ExcelLoader.nonempty _); [|discriminate].
      destruct (forallb Competency.competency_typed _) eqn:Ht;
        [|discriminate].
      injection H as <-. now split.
    - rewrite (load_competency_without_fk to_date wb d df Hfk Hdf) in H.
      cbv zeta in H. destruct (ExcelLoader.nonempty _); [|discriminate].
      destruct (forallb Competency.competency_typed _) eqn:Ht;
        [|discriminate].
      injection H as <-. now split. }
  cbn [Competency.open Competency.committed].
  rewrite (load_competency_without_fk to_date wb
             (Competency.mkStore
                (fst (Competency.competency_rows to_date
                        (Competency.iter_records df) [] 0)) None)
             df eq_refl Hdf).
  cbv zeta. now rewrite Hn, Ht'.
Qed.

Lemma competency_import_twice_witness :
  let wb := Cases.competency_workbook (VStr "E200") in
  let run :=
    Competency.load_employee_competency_from_excel Scenario.any_date wb
      (Competency.open Cases.competency_store) in
  run = (Ok tt, snd run)
  /\ Competency.load_employee_competency_from_excel Scenario.any_date wb
       (Competency.open (Competency.committed (snd run)))
     = (Ok tt, snd run).
Proof.
  intros wb run.
  assert (run = (Ok tt, snd run)) as H by (vm_compute; reflexivity).
  split; [exact H|].
  exact (competency_import_twice Scenario.any_date wb Cases.competency_store
           (snd run) H).
Defined.
